(** * api_yamdb: access control and data integrity of the review API

    A shallow embedding of [reviews/models.py], [api/permissions.py],
    [api/serializers.py] and [api/views.py].  Tables are lists of rows,
    Python exceptions are an explicit outcome type, and the few framework
    services the views call (token generator, e-mail and username
    validators, [slugify]) are the fields of one interface class. *)

From Stdlib Require Import List String Ascii Bool Arith ZArith QArith Lia.
Import ListNotations.
Local Close Scope Q_scope.
Local Open Scope string_scope.
Local Open Scope list_scope.
Local Open Scope nat_scope.

(** ** Python outcomes *)

(** The detail of a serializer [ValidationError]: messages keyed by field
    name, by [non_field_errors] for the ones [validate] raises, and by
    [detail] for a bare message. *)
Inductive exn : Type :=
| TypeError (msg : string)
| AttributeError (msg : string)
| DjangoValidationError (msg : string)
| ValidationError (detail : list (string * list string))
| KeyError (key : string)
| IntegrityError (constraint : string)
| DoesNotExist
| MultipleObjectsReturned
| Http404
| AuthenticationFailed
| NotAuthenticated
| PermissionDenied.

Inductive py (A : Type) : Type :=
| Return (a : A)
| Raise (e : exn).
Arguments Return {A} a.
Arguments Raise {A} e.

Definition bind {A B : Type} (m : py A) (k : A -> py B) : py B :=
  match m with
  | Return a => k a
  | Raise e => Raise e
  end.

Notation "x <- m ;; k" := (bind m (fun x => k))
  (at level 61, m at next level, right associativity).

(** [a or b] and [a and b] evaluate [b] only when [a] does not decide. *)
Definition py_or (a b : py bool) : py bool :=
  x <- a ;; if x then Return true else b.
Definition py_and (a b : py bool) : py bool :=
  x <- a ;; if x then b else Return false.

(** The objects the modelled expressions handle. *)
Inductive pyobj : Type :=
| PyNone
| PyStr (s : string)
| PyFunction (name : string)
| PyExc (e : exn).

Definition py_add (a b : pyobj) : py pyobj :=
  match a, b with
  | PyStr x, PyStr y => Return (PyStr (x ++ y)%string)
  | _, _ => Raise (TypeError "unsupported operand type(s) for +")
  end.

(** A Python [str] is held as the bytes of its UTF-8 encoding.  [chars]
    cuts it into its characters: a byte [10xxxxxx] continues the
    character before it. *)
Definition is_continuation (c : ascii) : bool :=
  let n := nat_of_ascii c in (128 <=? n) && (n <=? 191).

Fixpoint chars (s : string) : list string :=
  match s with
  | EmptyString => []
  | String c s' =>
      match chars s' with
      | String d ch :: rest =>
          if is_continuation d then String c (String d ch) :: rest
          else String c EmptyString :: String d ch :: rest
      | rest => String c EmptyString :: rest
      end
  end.

(** [len(s)] *)
Definition py_len (s : string) : nat := List.length (chars s).

Definition utf8 (bytes : list nat) : string :=
  string_of_list_ascii (map ascii_of_nat bytes).

(** [str.isspace()] of one character.  The ASCII white space: *)
Definition is_space (c : ascii) : bool :=
  let n := nat_of_ascii c in
  ((9 <=? n) && (n <=? 13)) || ((28 <=? n) && (n <=? 32)).

(** and the others: U+0085, U+00A0, U+1680, U+2000 to U+200A, U+2028,
    U+2029, U+202F, U+205F and U+3000. *)
Definition unicode_spaces : list string :=
  utf8 [194; 133] :: utf8 [194; 160] :: utf8 [225; 154; 128] ::
  map (fun n => utf8 [226; 128; n]) (seq 128 11) ++
  [utf8 [226; 128; 168]; utf8 [226; 128; 169]; utf8 [226; 128; 175];
   utf8 [226; 129; 159]; utf8 [227; 128; 128]].

Definition isspace (ch : string) : bool :=
  match ch with
  | String c EmptyString => is_space c
  | _ => existsb (String.eqb ch) unicode_spaces
  end.

Fixpoint lstrip (l : list string) : list string :=
  match l with
  | [] => []
  | ch :: l' => if isspace ch then lstrip l' else l
  end.

(** [s.strip()] *)
Definition strip (s : string) : string :=
  String.concat "" (rev (lstrip (rev (lstrip (chars s))))).

Fixpoint has_nul (s : string) : bool :=
  match s with
  | EmptyString => false
  | String c s' => (nat_of_ascii c =? 0) || has_nul s'
  end.

(** [s[:n]] *)
Definition prefix_slice (n : nat) (s : string) : string :=
  String.concat "" (firstn n (chars s)).

Definition opt_nat_eqb (a b : option nat) : bool :=
  match a, b with
  | Some x, Some y => x =? y
  | None, None => true
  | _, _ => false
  end.

(** ** reviews/models.py *)

Module UserRole.
Definition USER := "user".
Definition MODERATOR := "moderator".
Definition ADMIN := "admin".
End UserRole.

Definition ROLE_CHOICES : list (string * string) :=
  [ (UserRole.ADMIN, "Администратор");
    (UserRole.USER, "Пользователь");
    (UserRole.MODERATOR, "Модератор") ].

(** A [User] instance; [pk] is [None] until the row is inserted. *)
Record User : Type := mkUser {
  pk : option nat;
  username : string;
  first_name : string;
  last_name : string;
  email : string;
  bio : string;
  is_active : bool;
  is_superuser : bool;
  role : string
}.

(** [request.user]: Django's [AnonymousUser] or a stored [User]. *)
Inductive request_user : Type :=
| AnonymousUser
| AuthUser (u : User).

Definition is_authenticated (ru : request_user) : bool :=
  match ru with
  | AnonymousUser => false
  | AuthUser _ => true
  end.

(** [AnonymousUser] has no attribute [role]. *)
Definition get_role (ru : request_user) : py string :=
  match ru with
  | AnonymousUser => Raise (AttributeError "role")
  | AuthUser u => Return (role u)
  end.

Definition get_is_superuser (ru : request_user) : bool :=
  match ru with
  | AnonymousUser => false
  | AuthUser u => is_superuser u
  end.

(** [obj.author == request.user], [obj.author] being the stored row
    with primary key [author_id]. *)
Definition author_eq (author_id : nat) (ru : request_user) : bool :=
  match ru with
  | AnonymousUser => false
  | AuthUser u => opt_nat_eqb (Some author_id) (pk u)
  end.

(** *** Tables and [Model.save] *)

Section Table.
Context {R : Type}.
Variable get_pk : R -> option nat.
Variable set_pk : option nat -> R -> R.
(** the name of a constraint of [Meta] that [r] breaks against [rows] *)
Variable violated : list R -> R -> option string.

Definition is_self (p : option nat) (x : R) : bool :=
  match p with
  | None => false
  | Some i => opt_nat_eqb (get_pk x) (Some i)
  end.

(** The key an INSERT gives a row, one that no row of the table
    holds.  The sequence of the table is taken at its lowest, just above
    the keys present; the database's is higher once rows of the highest
    keys were deleted. *)
Definition next_pk (rows : list R) : nat :=
  S (fold_right (fun x m => match get_pk x with Some i => Nat.max i m | None => m end)
       0 rows).

(** [Model.save]: UPDATE the row of that primary key, INSERT when
    there is none; the store refuses a row that breaks a constraint. *)
Definition Model_save (rows : list R) (r : R) : py R * list R :=
  let p := get_pk r in
  match violated (filter (fun x => negb (is_self p x)) rows) r with
  | Some c => (Raise (IntegrityError c), rows)
  | None =>
      if existsb (is_self p) rows
      then (Return r, map (fun x => if is_self p x then r else x) rows)
      else
        let r' := match p with
                  | Some _ => r
                  | None => set_pk (Some (next_pk rows)) r
                  end in
        (Return r', rows ++ [r'])
  end.

(** [objects.get(...)] *)
Definition objects_get (f : R -> bool) (rows : list R) : py R :=
  match filter f rows with
  | [] => Raise DoesNotExist
  | [x] => Return x
  | _ :: _ :: _ => Raise MultipleObjectsReturned
  end.

Definition get_object_or_404 (f : R -> bool) (rows : list R) : py R :=
  match objects_get f rows with
  | Raise DoesNotExist => Raise Http404
  | other => other
  end.
End Table.

(** [on_delete] of a foreign key, applied to the referring rows when the
    row [target] is deleted. *)
Inductive on_delete : Type := CASCADE | SET_NULL.

Definition refers {R : Type} (fk : R -> option nat) (target : nat) (x : R) : bool :=
  opt_nat_eqb (fk x) (Some target).

Definition apply_on_delete {R : Type} (policy : on_delete) (fk : R -> option nat)
    (clear : R -> R) (target : nat) (rows : list R) : list R :=
  match policy with
  | CASCADE => filter (fun x => negb (refers fk target x)) rows
  | SET_NULL => map (fun x => if refers fk target x then clear x else x) rows
  end.

(** *** User *)

Definition set_user_pk (p : option nat) (u : User) : User :=
  mkUser p (username u) (first_name u) (last_name u) (email u) (bio u)
    (is_active u) (is_superuser u) (role u).

(** [unique=True] on [username] and [email], and the check constraint
    of [User.Meta]. *)
Definition User_violated (rows : list User) (u : User) : option string :=
  if existsb (fun x => String.eqb (username x) (username u)) rows
  then Some "reviews_user.username"
  else if existsb (fun x => String.eqb (email x) (email u)) rows
  then Some "reviews_user.email"
  else if String.eqb (username u) "me"
  then Some "Пользователь не может быть назван me!"
  else None.

(** [User.save]: the value the call returns and the instance after it. *)
Definition User_save (rows : list User) (self : User) : py (pyobj * User) * list User :=
  if String.eqb (username self) "me"
  then (Return (PyExc (DjangoValidationError "Username не может быть 'me'."), self), rows)
  else
    match Model_save pk set_user_pk User_violated rows self with
    | (Return self', rows') => (Return (PyNone, self'), rows')
    | (Raise e, rows') => (Raise e, rows')
    end.

Definition is_moderator (u : User) : bool := String.eqb (role u) UserRole.MODERATOR.
Definition is_admin (u : User) : bool :=
  is_superuser u || String.eqb (role u) UserRole.ADMIN.
Definition is_user (u : User) : bool := String.eqb (role u) UserRole.USER.

(** [User(username=..., email=...)] with the defaults of the fields. *)
Definition new_User (name mail : string) : User :=
  mkUser None name "" "" mail "" true false UserRole.USER.

(** [User.objects.create] *)
Definition User_objects_create (rows : list User) (name mail : string)
    : py User * list User :=
  match User_save rows (new_User name mail) with
  | (Return (_, obj), rows') => (Return obj, rows')
  | (Raise e, rows') => (Raise e, rows')
  end.

(** [User.objects.get_or_create(username=..., email=...)] *)
Definition User_objects_get_or_create (rows : list User) (name mail : string)
    : py User * list User :=
  let lookup := fun x => String.eqb (username x) name && String.eqb (email x) mail in
  match objects_get lookup rows with
  | Return u => (Return u, rows)
  | Raise DoesNotExist =>
      match User_objects_create rows name mail with
      | (Raise (IntegrityError c), rows') =>
          match objects_get lookup rows' with
          | Return u => (Return u, rows')
          | Raise DoesNotExist => (Raise (IntegrityError c), rows')
          | Raise e => (Raise e, rows')
          end
      | other => other
      end
  | Raise e => (Raise e, rows)
  end.

(** *** Category and Genre *)

Definition ascii_letters_digits : string :=
  "abcdefghijklmnopqrstuvwxyzABCDEFGHIJKLMNOPQRSTUVWXYZ0123456789".

(** [random.choice(seq)], the generator's draw being [n]. *)
Definition random_choice (seq : string) (n : nat) : string :=
  match String.get (n mod String.length seq) seq with
  | Some c => String c EmptyString
  | None => EmptyString
  end.

(** [rand_slug()], [draw i] being the generator's [i]-th draw. *)
Definition rand_slug (draw : nat -> nat) : string :=
  String.concat "" (map (fun i => random_choice ascii_letters_digits (draw i)) (seq 0 6)).

(** What the framework and the libraries provide.  The access token
    is the one of [rest_framework_simplejwt], as the project's settings
    have it: [AccessToken_for_user now u] is [AccessToken.for_user(u)]
    at the time [now], [encode] its [str]. *)
Class Framework : Type := {
  slugify : string -> string;
  EmailValidator : string -> bool;
  UnicodeUsernameValidator : string -> bool;
  make_token : nat -> User -> string;
  check_token : nat -> User -> string -> bool;
  AccessToken : Type;
  AccessToken_for_user : nat -> User -> AccessToken;
  encode : AccessToken -> string
}.

Definition py_str (v : pyobj) : string :=
  match v with
  | PyNone => "None"
  | PyStr s => s
  | PyFunction f => ("<function " ++ f ++ ">")%string
  | PyExc _ => "<exception>"
  end.

Record Category : Type := mkCategory {
  category_pk : option nat;
  category_name : string;
  category_slug : string
}.

Record Genre : Type := mkGenre {
  genre_pk : option nat;
  genre_name : string;
  genre_slug : string
}.

Definition Category_violated (rows : list Category) (c : Category) : option string :=
  if existsb (fun x => String.eqb (category_name x) (category_name c)) rows
  then Some "reviews_category.name"
  else if existsb (fun x => String.eqb (category_slug x) (category_slug c)) rows
  then Some "reviews_category.slug"
  else None.

Definition Genre_violated (rows : list Genre) (g : Genre) : option string :=
  if existsb (fun x => String.eqb (genre_name x) (genre_name g)) rows
  then Some "reviews_genre.name"
  else if existsb (fun x => String.eqb (genre_slug x) (genre_slug g)) rows
  then Some "reviews_genre.slug"
  else None.

(** The expression [slugify(rand_slug + "-" + self.name[:15])]: the
    name [rand_slug] stands for the function itself. *)
Definition derived_slug `{Framework} (name : string) : py string :=
  a <- py_add (PyFunction "rand_slug") (PyStr "-") ;;
  b <- py_add a (PyStr (prefix_slice 15 name)) ;;
  Return (slugify (py_str b)).

Definition Category_save `{Framework} (rows : list Category) (self : Category)
    : py Category * list Category :=
  let set_pk := fun p c => mkCategory p (category_name c) (category_slug c) in
  if String.eqb (category_slug self) ""
  then
    match derived_slug (category_name self) with
    | Raise e => (Raise e, rows)
    | Return s =>
        Model_save category_pk set_pk Category_violated rows
          (mkCategory (category_pk self) (category_name self) s)
    end
  else Model_save category_pk set_pk Category_violated rows self.

Definition Genre_save `{Framework} (rows : list Genre) (self : Genre)
    : py Genre * list Genre :=
  let set_pk := fun p g => mkGenre p (genre_name g) (genre_slug g) in
  if String.eqb (genre_slug self) ""
  then
    match derived_slug (genre_name self) with
    | Raise e => (Raise e, rows)
    | Return s =>
        Model_save genre_pk set_pk Genre_violated rows
          (mkGenre (genre_pk self) (genre_name self) s)
    end
  else Model_save genre_pk set_pk Genre_violated rows self.

(** *** Title, GenreTitle, Review, Comment *)

Record Title : Type := mkTitle {
  title_pk : option nat;
  title_name : string;
  year : Z;
  description : string;
  category : option nat
}.

Record GenreTitle : Type := mkGenreTitle {
  gt_pk : option nat;
  gt_title : nat;
  gt_genre : option nat
}.

Definition GenreTitle_title_on_delete : on_delete := CASCADE.
Definition GenreTitle_genre_on_delete : on_delete := SET_NULL.
Definition Title_category_on_delete : on_delete := SET_NULL.

Record Review : Type := mkReview {
  review_pk : option nat;
  text : string;
  title : nat;
  author : nat;
  score : Z;
  pub_date : nat
}.

Definition Review_title_on_delete : on_delete := CASCADE.
Definition Review_author_on_delete : on_delete := CASCADE.

(** [UniqueConstraint(fields=("author", "title"))] of [Review.Meta]. *)
Definition same_author_title (a b : Review) : bool :=
  (author a =? author b) && (title a =? title b).

Definition Review_violated (rows : list Review) (r : Review) : option string :=
  if existsb (same_author_title r) rows
  then Some "author_title_only_on_review"
  else None.

Definition set_review_pk (p : option nat) (r : Review) : Review :=
  mkReview p (text r) (title r) (author r) (score r) (pub_date r).

(** [Review.objects.create(...)]; [save] is not overridden. *)
Definition Review_objects_create (rows : list Review) (r : Review)
    : py Review * list Review :=
  Model_save review_pk set_review_pk Review_violated rows (set_review_pk None r).

Record Comment : Type := mkComment {
  comment_pk : option nat;
  comment_text : string;
  review : nat;
  comment_author : nat;
  comment_pub_date : nat
}.

Definition Comment_review_on_delete : on_delete := CASCADE.
Definition Comment_author_on_delete : on_delete := CASCADE.

(** *** The store *)

Record Mail : Type := mkMail {
  mail_to : string;
  subject : string;
  message : string;
  from_email : string
}.

Record State : Type := mkState {
  users : list User;
  categories : list Category;
  genres : list Genre;
  titles : list Title;
  genre_titles : list GenreTitle;
  reviews : list Review;
  comments : list Comment;
  outbox : list Mail
}.

Definition set_users (us : list User) (st : State) : State :=
  mkState us (categories st) (genres st) (titles st) (genre_titles st)
    (reviews st) (comments st) (outbox st).

Definition set_reviews (rs : list Review) (st : State) : State :=
  mkState (users st) (categories st) (genres st) (titles st) (genre_titles st)
    rs (comments st) (outbox st).

Definition send_mail (m : Mail) (st : State) : State :=
  mkState (users st) (categories st) (genres st) (titles st) (genre_titles st)
    (reviews st) (comments st) (outbox st ++ [m]).

Definition not_pk {R : Type} (get_pk : R -> option nat) (target : nat) (x : R) : bool :=
  negb (opt_nat_eqb (get_pk x) (Some target)).

(** Deleting the reviews [victims] takes their comments along. *)
Definition cascade_comments (victims : list Review) (cs : list Comment) : list Comment :=
  fold_right
    (fun r acc =>
       match review_pk r with
       | Some i => apply_on_delete Comment_review_on_delete
                     (fun c => Some (review c)) (fun c => c) i acc
       | None => acc
       end)
    cs victims.

Definition clear_genre (x : GenreTitle) : GenreTitle :=
  mkGenreTitle (gt_pk x) (gt_title x) None.

(** [Genre.delete()] of the row [g]. *)
Definition Genre_delete (g : nat) (st : State) : State :=
  mkState (users st) (categories st)
    (filter (not_pk genre_pk g) (genres st))
    (titles st)
    (apply_on_delete GenreTitle_genre_on_delete gt_genre clear_genre g
       (genre_titles st))
    (reviews st) (comments st) (outbox st).

(** [Title.delete()] of the row [t]. *)
Definition Title_delete (t : nat) (st : State) : State :=
  let victims := filter (refers (fun r => Some (title r)) t) (reviews st) in
  mkState (users st) (categories st) (genres st)
    (filter (not_pk title_pk t) (titles st))
    (apply_on_delete GenreTitle_title_on_delete (fun x => Some (gt_title x))
       (fun x => x) t (genre_titles st))
    (apply_on_delete Review_title_on_delete (fun r => Some (title r))
       (fun r => r) t (reviews st))
    (cascade_comments victims (comments st))
    (outbox st).

(** [Category.delete()] of the row [c]. *)
Definition Category_delete (c : nat) (st : State) : State :=
  mkState (users st)
    (filter (not_pk category_pk c) (categories st))
    (genres st)
    (apply_on_delete Title_category_on_delete category
       (fun x => mkTitle (title_pk x) (title_name x) (year x) (description x) None)
       c (titles st))
    (genre_titles st) (reviews st) (comments st) (outbox st).

(** ** More of reviews/models.py *)

Definition set_categories (cs : list Category) (st : State) : State :=
  mkState (users st) cs (genres st) (titles st) (genre_titles st)
    (reviews st) (comments st) (outbox st).

Definition set_genres (gs : list Genre) (st : State) : State :=
  mkState (users st) (categories st) gs (titles st) (genre_titles st)
    (reviews st) (comments st) (outbox st).

Definition set_comments (cs : list Comment) (st : State) : State :=
  mkState (users st) (categories st) (genres st) (titles st) (genre_titles st)
    (reviews st) cs (outbox st).

Definition set_comment_pk (p : option nat) (c : Comment) : Comment :=
  mkComment p (comment_text c) (review c) (comment_author c) (comment_pub_date c).

(** [Comment.Meta] declares no constraint. *)
Definition Comment_violated (rows : list Comment) (c : Comment) : option string := None.

Definition Comment_objects_create (rows : list Comment) (c : Comment)
    : py Comment * list Comment :=
  Model_save comment_pk set_comment_pk Comment_violated rows (set_comment_pk None c).

(** [Comment.delete()] of the row [c]: nothing refers to a comment. *)
Definition Comment_delete (c : nat) (st : State) : State :=
  set_comments (filter (not_pk comment_pk c) (comments st)) st.

(** [Review.delete()] of the row [r]. *)
Definition Review_delete (r : nat) (st : State) : State :=
  mkState (users st) (categories st) (genres st) (titles st) (genre_titles st)
    (filter (not_pk review_pk r) (reviews st))
    (apply_on_delete Comment_review_on_delete (fun c => Some (review c))
       (fun c => c) r (comments st))
    (outbox st).

(** [User.delete()] of the row [u]: the reviews of the user go, with
    their comments, and so do the comments of the user. *)
Definition User_delete (u : nat) (st : State) : State :=
  let victims := filter (refers (fun r => Some (author r)) u) (reviews st) in
  mkState (filter (not_pk pk u) (users st))
    (categories st) (genres st) (titles st) (genre_titles st)
    (apply_on_delete Review_author_on_delete (fun r => Some (author r))
       (fun r => r) u (reviews st))
    (apply_on_delete Comment_author_on_delete (fun c => Some (comment_author c))
       (fun c => c) u (cascade_comments victims (comments st)))
    (outbox st).

(** ** api/permissions.py *)

Inductive http_method : Type := GET | HEAD | OPTIONS | POST | PUT | PATCH | DELETE.

Definition method_eqb (a b : http_method) : bool :=
  match a, b with
  | GET, GET | HEAD, HEAD | OPTIONS, OPTIONS | POST, POST
  | PUT, PUT | PATCH, PATCH | DELETE, DELETE => true
  | _, _ => false
  end.

Definition SAFE_METHODS : list http_method := [GET; HEAD; OPTIONS].

Definition in_methods (m : http_method) (l : list http_method) : bool :=
  existsb (method_eqb m) l.

Definition in_strings (s : string) (l : list string) : bool :=
  existsb (String.eqb s) l.

Record Request : Type := mkRequest {
  method : http_method;
  user : request_user
}.

(** A permission class: the two hooks of [BasePermission]. *)
Record Permission : Type := mkPermission {
  has_permission : Request -> py bool;
  has_object_permission : Request -> nat -> py bool
}.

Definition BasePermission : Permission :=
  {| has_permission := fun _ => Return true;
     has_object_permission := fun _ _ => Return true |}.

Definition OwnerAdminModeratorOrReadOnly : Permission :=
  {| has_permission := fun request =>
       Return (in_methods (method request) SAFE_METHODS
               || is_authenticated (user request));
     has_object_permission := fun request author_id =>
       if in_methods (method request) SAFE_METHODS then Return true
       else
         py_or (Return (author_eq author_id (user request)))
           (py_or
              (r <- get_role (user request) ;;
               Return (in_strings r [UserRole.MODERATOR; UserRole.ADMIN]))
              (Return (get_is_superuser (user request)))) |}.

Definition IsAuthenticated : Permission :=
  {| has_permission := fun request => Return (is_authenticated (user request));
     has_object_permission := has_object_permission BasePermission |}.

Definition IsAdmin : Permission :=
  {| has_permission := fun request =>
       py_and (has_permission IsAuthenticated request)
         (py_or
            (r <- get_role (user request) ;; Return (String.eqb r UserRole.ADMIN))
            (Return (get_is_superuser (user request))));
     has_object_permission := has_object_permission IsAuthenticated |}.

Definition IsAdminOrReadOnly : Permission :=
  {| has_permission := fun request =>
       py_or (Return (in_methods (method request) SAFE_METHODS))
         (has_permission IsAdmin request);
     has_object_permission := has_object_permission IsAdmin |}.

(** The framework's dispatch: [check_permissions] runs before the
    handler, [check_object_permissions] when the handler fetches the
    object of a detail route. *)
Inductive decision : Type := Allow | Deny.

Definition decide_of (b : bool) : decision := if b then Allow else Deny.

Definition check_permissions (p : Permission) (request : Request) : py decision :=
  b <- has_permission p request ;; Return (decide_of b).

Definition check_object_permissions (p : Permission) (request : Request)
    (author_id : nat) : py decision :=
  d <- check_permissions p request ;;
  match d with
  | Deny => Return Deny
  | Allow => b <- has_object_permission p request author_id ;; Return (decide_of b)
  end.

(** ** api/serializers.py *)

(** The outcome of one field: the internal value or its messages. *)
Inductive validated (A : Type) : Type :=
| Valid (a : A)
| Invalid (msgs : list string).
Arguments Valid {A} a.
Arguments Invalid {A} msgs.

Definition validator : Type := string -> option string.

Definition run_validators (vs : list validator) (value : string) : list string :=
  flat_map (fun v => match v value with Some m => [m] | None => [] end) vs.

Definition ProhibitNullCharactersValidator : validator :=
  fun s => if has_nul s then Some "Null characters are not allowed." else None.

Definition MaxLengthValidator (n : nat) : validator :=
  fun s => if py_len s <=? n then None
           else Some "Ensure this field has no more than the allowed characters.".

(** [validators=[UnicodeUsernameValidator]] hands over the class, not
    an instance: calling it on the value builds a validator object and
    reports nothing. *)
Definition UnicodeUsernameValidator_class : validator := fun _ => None.

Definition regex_validator (ok : string -> bool) (msg : string) : validator :=
  fun s => if ok s then None else Some msg.

(** The validators a [CharField] holds, in the order it runs them: the
    ones it was given, the length bound, the NUL check. *)
Definition char_validators (given : list validator) (max_length : option nat)
    : list validator :=
  given ++
  match max_length with Some n => [MaxLengthValidator n] | None => [] end ++
  [ProhibitNullCharactersValidator].

(** [serializers.CharField] with the validators [vs]: [None] is an
    absent key; [partial] skips it. *)
Definition CharField (partial required allow_blank : bool) (vs : list validator)
    (data : option string) : validated (option string) :=
  match data with
  | None => if partial || negb required then Valid None
            else Invalid ["This field is required."]
  | Some raw =>
      let value := strip raw in
      if String.eqb value "" then
        if allow_blank then Valid (Some "") else Invalid ["This field may not be blank."]
      else
        match run_validators vs value with
        | [] => Valid (Some value)
        | msgs => Invalid msgs
        end
  end.

(** [serializers.EmailField] appends the address check. *)
Definition EmailField `{Framework} (partial required : bool) (given : list validator)
    (max_length : option nat) :=
  CharField partial required false
    (char_validators given max_length ++
     [regex_validator EmailValidator "Enter a valid email address."]).

Definition ChoiceField (partial required : bool) (choices : list (string * string))
    (data : option string) : validated (option string) :=
  match data with
  | None => if partial || negb required then Valid None
            else Invalid ["This field is required."]
  | Some raw =>
      if in_strings raw (map fst choices) then Valid (Some raw)
      else Invalid ["This is not a valid choice."]
  end.

Definition IntegerField (required : bool) (min_value max_value : Z)
    (min_message max_message : string) (data : option Z) : validated (option Z) :=
  match data with
  | None => if required then Invalid ["This field is required."] else Valid None
  | Some n =>
      match (if (n <=? max_value)%Z then [] else [max_message]) ++
            (if (min_value <=? n)%Z then [] else [min_message]) with
      | [] => Valid (Some n)
      | msgs => Invalid msgs
      end
  end.

Definition field_errors {A : Type} (name : string) (v : validated A)
    : list (string * list string) :=
  match v with
  | Valid _ => []
  | Invalid msgs => [(name, msgs)]
  end.

(** [run_validation] turns what [validate] raises into a serializer error. *)
Definition as_serializer_error {A : Type} (m : py A) : py A :=
  match m with
  | Raise (DjangoValidationError msg) =>
      Raise (ValidationError [("non_field_errors", [msg])])
  | other => other
  end.

(** *** TokenSerializer *)

Record TokenData : Type := mkTokenData {
  td_username : option string;
  td_confirmation_code : option string
}.

Definition TokenSerializer_run_validation (data : TokenData) : py (string * string) :=
  let f_username := CharField false true false
                      (char_validators [UnicodeUsernameValidator_class] None)
                      (td_username data) in
  let f_code := CharField false true false (char_validators [] None)
                  (td_confirmation_code data) in
  match f_username, f_code with
  | Valid (Some u), Valid (Some c) => Return (u, c)
  | _, _ => Raise (ValidationError (field_errors "username" f_username ++
                                    field_errors "confirmation_code" f_code))
  end.

(** *** SignUpSerializer *)

Record SignUpData : Type := mkSignUpData {
  sd_email : option string;
  sd_username : option string
}.

Definition SignUpSerializer_validate (data : string * string) : py (string * string) :=
  let '(_, name) := data in
  if String.eqb name "me"
  then Raise (DjangoValidationError "Пользователь не может иметь имя 'me'")
  else Return data.

(** validated data: [(email, username)] *)
Definition SignUpSerializer_run_validation `{Framework} (data : SignUpData)
    : py (string * string) :=
  let f_email := EmailField false true [] None (sd_email data) in
  let f_username := CharField false true false
                      (char_validators [UnicodeUsernameValidator_class] None)
                      (sd_username data) in
  match f_email, f_username with
  | Valid (Some e), Valid (Some u) =>
      as_serializer_error (SignUpSerializer_validate (e, u))
  | _, _ => Raise (ValidationError (field_errors "email" f_email ++
                                    field_errors "username" f_username))
  end.

(** *** UserSerializer *)

Record UserData : Type := mkUserData {
  ud_username : option string;
  ud_first_name : option string;
  ud_last_name : option string;
  ud_email : option string;
  ud_bio : option string;
  ud_role : option string
}.

(** [UniqueValidator]: another row than [instance] holds the value. *)
Definition UniqueValidator (rows : list User) (field : User -> string)
    (instance : option User) (msg : string) : validator :=
  fun value =>
    let others := match instance with
                  | Some u => filter (fun x => negb (is_self pk (pk u) x)) rows
                  | None => rows
                  end in
    if existsb (fun x => String.eqb (field x) value) others then Some msg else None.

Definition UserSerializer_run_validation `{Framework} (rows : list User)
    (instance : option User) (partial : bool) (data : UserData) : py UserData :=
  let f_username :=
    CharField partial true false
      (char_validators
         [ regex_validator UnicodeUsernameValidator "Enter a valid username.";
           UniqueValidator rows username instance
             "Пользователь с таким именем уже существует." ]
         (Some 150))
      (ud_username data) in
  let f_first_name := CharField partial false true (char_validators [] (Some 150))
                        (ud_first_name data) in
  let f_last_name := CharField partial false true (char_validators [] (Some 150))
                       (ud_last_name data) in
  let f_email :=
    EmailField partial true
      [ UniqueValidator rows email instance "Электронная почта занята." ]
      (Some 254) (ud_email data) in
  let f_bio := CharField partial false true (char_validators [] None) (ud_bio data) in
  let f_role := ChoiceField partial false ROLE_CHOICES (ud_role data) in
  match f_username, f_first_name, f_last_name, f_email, f_bio, f_role with
  | Valid a, Valid b, Valid c, Valid d, Valid e, Valid f =>
      Return (mkUserData a b c d e f)
  | _, _, _, _, _, _ =>
      Raise (ValidationError
               (field_errors "username" f_username ++
                field_errors "first_name" f_first_name ++
                field_errors "last_name" f_last_name ++
                field_errors "email" f_email ++
                field_errors "bio" f_bio ++
                field_errors "role" f_role))
  end.

Definition or_else {A : Type} (o : option A) (d : A) : A :=
  match o with Some a => a | None => d end.

(** [ModelSerializer.update]'s [setattr] loop over the validated data. *)
Definition UserSerializer_setattrs (instance : User) (vd : UserData) : User :=
  mkUser (pk instance)
    (or_else (ud_username vd) (username instance))
    (or_else (ud_first_name vd) (first_name instance))
    (or_else (ud_last_name vd) (last_name instance))
    (or_else (ud_email vd) (email instance))
    (or_else (ud_bio vd) (bio instance))
    (is_active instance) (is_superuser instance)
    (or_else (ud_role vd) (role instance)).

(** [serializer.save] on an instance: its keyword arguments override
    the validated data, then [update] saves the instance. *)
Definition UserSerializer_save (rows : list User) (instance : User) (vd : UserData)
    (kw_role : option string) : py User * list User :=
  let vd' := mkUserData (ud_username vd) (ud_first_name vd) (ud_last_name vd)
               (ud_email vd) (ud_bio vd)
               (match kw_role with Some r => Some r | None => ud_role vd end) in
  match User_save rows (UserSerializer_setattrs instance vd') with
  | (Return (_, obj), rows') => (Return obj, rows')
  | (Raise e, rows') => (Raise e, rows')
  end.

(** *** ReviewSerializer *)

Record ReviewData : Type := mkReviewData {
  rd_text : option string;
  rd_score : option Z
}.

Definition review_exists (rows : list Review) (title_id author_id : nat) : bool :=
  existsb (fun r => (title r =? title_id) && (author r =? author_id)) rows.

Definition ReviewSerializer_validate (rows : list Review) (request : Request)
    (title_id : nat) (data : string * Z) : py (string * Z) :=
  if negb (method_eqb (method request) POST) then Return data
  else
    match user request with
    | AuthUser u =>
        if match pk u with
           | Some a => review_exists rows title_id a
           | None => false
           end
        then Raise (ValidationError
                      [("non_field_errors",
                        ["Автор может оставлять ревью на каждое произведение только один раз"])])
        else Return data
    | AnonymousUser => Raise (TypeError "AnonymousUser is not a model instance")
    end.

(** [score = serializers.IntegerField(max_value=10, min_value=1)] *)
Definition score_field : option Z -> validated (option Z) :=
  IntegerField true 1 10
    "Ensure this value is greater than or equal to 1."
    "Ensure this value is less than or equal to 10.".

Definition ReviewSerializer_run_validation (rows : list Review) (request : Request)
    (title_id : nat) (data : ReviewData) : py (string * Z) :=
  let f_text := CharField false true false (char_validators [] None) (rd_text data) in
  let f_score := score_field (rd_score data) in
  match f_text, f_score with
  | Valid (Some t), Valid (Some s) =>
      as_serializer_error (ReviewSerializer_validate rows request title_id (t, s))
  | _, _ => Raise (ValidationError (field_errors "text" f_text ++
                                    field_errors "score" f_score))
  end.

(** ** api/views.py *)

Inductive body : Type :=
| Errors (detail : list (string * list string))
| Text (s : string)
| TokenBody (name token : string)
| SignUpBody (mail name : string)
| UserBody (u : User)
| ReviewBody (r : Review)
| Empty.

Record Response : Type := mkResponse {
  status_code : nat;
  data : body
}.

Definition HTTP_200_OK := 200.
Definition HTTP_201_CREATED := 201.
Definition HTTP_400_BAD_REQUEST := 400.

(** The framework's exception handler; what it does not know is a
    server error. *)
Definition exception_handler (e : exn) : Response :=
  match e with
  | ValidationError d => mkResponse 400 (Errors d)
  | AuthenticationFailed => mkResponse 401 Empty
  | NotAuthenticated => mkResponse 401 Empty
  | PermissionDenied => mkResponse 403 Empty
  | Http404 => mkResponse 404 Empty
  | _ => mkResponse 500 Empty
  end.

Definition respond (m : py Response) : Response :=
  match m with
  | Return r => r
  | Raise e => exception_handler e
  end.

(** [permission_denied]: no credentials is 401, insufficient ones 403. *)
Definition permission_denied (request : Request) : exn :=
  if is_authenticated (user request) then PermissionDenied else NotAuthenticated.

Definition require (p : Permission) (request : Request) : py unit :=
  d <- check_permissions p request ;;
  match d with
  | Allow => Return tt
  | Deny => Raise (permission_denied request)
  end.

Definition token_view `{Framework} (now : nat) (st : State) (request_data : TokenData)
    : py Response :=
  match TokenSerializer_run_validation request_data with
  | Return _ =>
      name <- match td_username request_data with
              | Some s => Return s
              | None => Raise (KeyError "username")
              end ;;
      user <- get_object_or_404 (fun x => String.eqb (username x) name) (users st) ;;
      confirmation_code <- match td_confirmation_code request_data with
                           | Some s => Return s
                           | None => Raise (KeyError "confirmation_code")
                           end ;;
      if check_token now user confirmation_code
      then Return (mkResponse HTTP_200_OK
                     (TokenBody name (encode (AccessToken_for_user now user))))
      else Raise (ValidationError [("detail", ["Неверный код подтверждения."])])
  | Raise (ValidationError errors) =>
      Return (mkResponse HTTP_400_BAD_REQUEST (Errors errors))
  | Raise e => Raise e
  end.

(** [POST /auth/token/] *)
Definition token `{Framework} (now : nat) (st : State) (request_data : TokenData)
    : Response :=
  respond (token_view now st request_data).

Definition confirmation_mail `{Framework} (now : nat) (u : User) : Mail :=
  mkMail (email u) "Сonfirmation code"
    ("Yamdb. Код подтверждения -  " ++ make_token now u)%string
    "administration@yamdb.com".

Definition signup_view `{Framework} (now : nat) (st : State) (request_data : SignUpData)
    : py Response * State :=
  match SignUpSerializer_run_validation request_data with
  | Raise e => (Raise e, st)
  | Return (mail, name) =>
      match User_objects_get_or_create (users st) name mail with
      | (Raise (IntegrityError c), rows) =>
          (Return (mkResponse HTTP_400_BAD_REQUEST
                     (Text ("IntegrityError('" ++ c ++ "')")%string)),
           set_users rows st)
      | (Raise e, rows) => (Raise e, set_users rows st)
      | (Return user, rows) =>
          (Return (mkResponse HTTP_200_OK (SignUpBody mail name)),
           send_mail (confirmation_mail now user) (set_users rows st))
      end
  end.

(** [POST /auth/signup/] *)
Definition signup `{Framework} (now : nat) (st : State) (request_data : SignUpData)
    : Response * State :=
  let '(r, st') := signup_view now st request_data in (respond r, st').

(** [UserViewSet.get_self_user_page], behind [IsAuthenticated]. *)
Definition get_self_user_page_view `{Framework} (st : State) (request : Request)
    (request_data : UserData) : py Response * State :=
  match require IsAuthenticated request, user request with
  | Raise e, _ => (Raise e, st)
  | Return _, AnonymousUser => (Raise NotAuthenticated, st)
  | Return _, AuthUser request_user =>
      if method_eqb (method request) GET
      then (Return (mkResponse HTTP_200_OK (UserBody request_user)), st)
      else
        match UserSerializer_run_validation (users st) (Some request_user) true
                request_data with
        | Raise e => (Raise e, st)
        | Return vd =>
            match UserSerializer_save (users st) request_user vd
                    (Some (role request_user)) with
            | (Raise e, rows) => (Raise e, set_users rows st)
            | (Return obj, rows) =>
                (Return (mkResponse HTTP_200_OK (UserBody obj)), set_users rows st)
            end
        end
  end.

(** The route [/users/me/]: the action is bound to [GET] and [PATCH],
    and to [HEAD] as every action bound to [GET] is; [OPTIONS] is the
    framework's own handler; the permission check runs before any of
    them, also before the refusal of another method. *)
Definition get_self_user_page `{Framework} (st : State) (request : Request)
    (request_data : UserData) : Response * State :=
  match method request with
  | GET | HEAD | PATCH =>
      let '(r, st') := get_self_user_page_view st request request_data in
      (respond r, st')
  | OPTIONS =>
      (respond (ok <- require IsAuthenticated request ;;
                Return (mkResponse HTTP_200_OK Empty)), st)
  | POST | PUT | DELETE =>
      (respond (ok <- require IsAuthenticated request ;;
                Return (mkResponse 405 Empty)), st)
  end.

(** [JWTAuthentication]: no token is the anonymous user; a token must
    name, by its identity claim, an active stored user. *)
Definition authenticate (st : State) (claim : option nat) : py request_user :=
  match claim with
  | None => Return AnonymousUser
  | Some i =>
      match find (fun x => opt_nat_eqb (pk x) (Some i)) (users st) with
      | Some u => if is_active u then Return (AuthUser u)
                  else Raise AuthenticationFailed
      | None => Raise AuthenticationFailed
      end
  end.

(** [ReviewViewSet.create]: [POST /titles/{title_id}/reviews/] *)
Definition ReviewViewSet_create_view (now : nat) (st : State) (request : Request)
    (title_id : nat) (request_data : ReviewData) : py Response * State :=
  match require OwnerAdminModeratorOrReadOnly request with
  | Raise e => (Raise e, st)
  | Return _ =>
      match ReviewSerializer_run_validation (reviews st) request title_id request_data with
      | Raise e => (Raise e, st)
      | Return (t, s) =>
          match get_object_or_404 (fun x => opt_nat_eqb (title_pk x) (Some title_id))
                  (titles st),
                user request with
          | Raise e, _ => (Raise e, st)
          | Return _, AnonymousUser => (Raise NotAuthenticated, st)
          | Return _, AuthUser u =>
              match pk u with
              | None => (Raise (IntegrityError "reviews_review.author_id"), st)
              | Some a =>
                  match Review_objects_create (reviews st)
                          (mkReview None t title_id a s now) with
                  | (Raise e, rows) => (Raise e, set_reviews rows st)
                  | (Return obj, rows) =>
                      (Return (mkResponse HTTP_201_CREATED (ReviewBody obj)),
                       set_reviews rows st)
                  end
              end
          end
      end
  end.

Definition ReviewViewSet_create (now : nat) (st : State) (request : Request)
    (title_id : nat) (request_data : ReviewData) : Response * State :=
  let '(r, st') := ReviewViewSet_create_view now st request title_id request_data in
  (respond r, st').

(** *** The rating of [TitleViewSet.queryset] *)

(** [Avg("reviews__score")]: NULL over no row, else the exact mean. *)
Definition Avg (xs : list Z) : option Q :=
  match xs with
  | [] => None
  | _ :: _ => Some (Qmake (fold_right Z.add 0%Z xs) (Pos.of_nat (List.length xs)))
  end.

Definition reviews_score (st : State) (title_id : nat) : list Z :=
  map score (filter (fun r => title r =? title_id) (reviews st)).

(** [int(value)] of a number: the fraction is dropped. *)
Definition py_int (q : Q) : Z := Z.quot (Qnum q) (Zpos (Qden q)).

(** [ExpressionWrapper(..., output_field=fields.IntegerField())]: the
    value read back is converted with [int], NULL stays [None]. *)
Definition ExpressionWrapper_IntegerField (v : option Q) : option Z :=
  match v with
  | None => None
  | Some q => Some (py_int q)
  end.

(** [annotate(rating=...)] for the title [title_id]. *)
Definition annotate_rating (st : State) (title_id : nat) : option Z :=
  ExpressionWrapper_IntegerField (Avg (reviews_score st title_id)).

(** [IntegerField.to_representation]: [int(value)], of an integer. *)
Definition IntegerField_to_representation (value : Z) : Z := value.

(** [rating = serializers.IntegerField(read_only=True)] of
    [ReadTitleSerializer]: [None] stays [None], a number goes through
    [to_representation]. *)
Definition ReadTitleSerializer_rating (st : State) (title_id : nat) : option Z :=
  match annotate_rating st title_id with
  | None => None
  | Some v => Some (IntegerField_to_representation v)
  end.

(** ** The other views of api/views.py, with their serializers *)

(** What a view of this part answers with. *)
Inductive resource : Type :=
| Nothing
| Problem (detail : list (string * list string))
| CategoryRow (c : Category)
| GenreRow (g : Genre)
| ReviewRow (r : Review)
| CommentRow (c : Comment)
| UserRow (u : User).

Record Reply : Type := mkReply {
  reply_status : nat;
  reply_data : resource
}.

Definition HTTP_204_NO_CONTENT := 204.
Definition HTTP_405_METHOD_NOT_ALLOWED := 405.

Definition reply (m : py Reply) : Reply :=
  match m with
  | Return r => r
  | Raise e =>
      let r := exception_handler e in
      mkReply (status_code r)
        (match data r with Errors d => Problem d | _ => Nothing end)
  end.

(** [Model.delete] of an instance without primary key: Django raises
    [ValueError], which the handler answers like any error it does not
    know. *)
Definition no_primary_key : exn := TypeError "pk attribute is set to None".

(** [check_object_permissions] of [get_object], the view's own
    [check_permissions] having passed. *)
Definition require_object (p : Permission) (request : Request) (author_id : nat)
    : py unit :=
  b <- has_object_permission p request author_id ;;
  if b then Return tt else Raise (permission_denied request).

(** [UniqueValidator] over any table. *)
Definition UniqueValidator_on {R : Type} (get_pk : R -> option nat) (rows : list R)
    (field : R -> string) (instance : option R) (msg : string) : validator :=
  fun value =>
    let others := match instance with
                  | Some x => filter (fun y => negb (is_self get_pk (get_pk x) y)) rows
                  | None => rows
                  end in
    if existsb (fun y => String.eqb (field y) value) others then Some msg else None.

(** The pattern of [serializers.SlugField]: one or more of the letters,
    digits, hyphen and underscore, then the end of the string or a
    last line feed. *)
Definition is_slug_char (c : ascii) : bool :=
  let n := nat_of_ascii c in
  ((48 <=? n) && (n <=? 57)) || ((65 <=? n) && (n <=? 90)) ||
  ((97 <=? n) && (n <=? 122)) || (n =? 45) || (n =? 95).

Fixpoint slug_rest (s : string) : bool :=
  match s with
  | EmptyString => true
  | String c EmptyString => is_slug_char c || (nat_of_ascii c =? 10)
  | String c s' => is_slug_char c && slug_rest s'
  end.

Definition slug_pattern (s : string) : bool :=
  match s with
  | EmptyString => false
  | String c s' => is_slug_char c && slug_rest s'
  end.

Definition double_quote : string := String (ascii_of_nat 34) EmptyString.

Definition slug_message : string :=
  ("Enter a valid " ++ double_quote ++ "slug" ++ double_quote ++
   " consisting of letters, numbers, underscores or hyphens.")%string.

Definition SlugField (partial required : bool) (given : list validator)
    (max_length : option nat) :=
  CharField partial required false
    (char_validators given max_length ++ [regex_validator slug_pattern slug_message]).

(** *** CategorySerializer and CategoryViewSet *)

Record CategoryData : Type := mkCategoryData {
  cd_name : option string;
  cd_slug : option string
}.

(** validated data: [(name, slug)] *)
Definition CategorySerializer_run_validation (rows : list Category) (data : CategoryData)
    : py (string * string) :=
  let f_name :=
    CharField false true false
      (char_validators
         [UniqueValidator_on category_pk rows category_name None
            "Категория with this название already exists."]
         (Some 256))
      (cd_name data) in
  let f_slug :=
    SlugField false true
      [UniqueValidator_on category_pk rows category_slug None
         "Категория with this slug already exists."]
      (Some 50) (cd_slug data) in
  match f_name, f_slug with
  | Valid (Some n), Valid (Some s) => Return (n, s)
  | _, _ => Raise (ValidationError (field_errors "name" f_name ++
                                    field_errors "slug" f_slug))
  end.

(** [POST /categories/] *)
Definition CategoryViewSet_create_view `{Framework} (st : State) (request : Request)
    (request_data : CategoryData) : py Reply * State :=
  match require IsAdminOrReadOnly request with
  | Raise e => (Raise e, st)
  | Return _ =>
      match CategorySerializer_run_validation (categories st) request_data with
      | Raise e => (Raise e, st)
      | Return (n, s) =>
          match Category_save (categories st) (mkCategory None n s) with
          | (Raise e, rows) => (Raise e, set_categories rows st)
          | (Return obj, rows) =>
              (Return (mkReply HTTP_201_CREATED (CategoryRow obj)),
               set_categories rows st)
          end
      end
  end.

Definition CategoryViewSet_create `{Framework} (st : State) (request : Request)
    (request_data : CategoryData) : Reply * State :=
  let '(r, st') := CategoryViewSet_create_view st request request_data in
  (reply r, st').

(** [DELETE /categories/{slug}/] *)
Definition CategoryViewSet_destroy_view (st : State) (request : Request)
    (slug : string) : py Reply * State :=
  match require IsAdminOrReadOnly request with
  | Raise e => (Raise e, st)
  | Return _ =>
      match get_object_or_404 (fun c => String.eqb (category_slug c) slug)
              (categories st) with
      | Raise e => (Raise e, st)
      | Return obj =>
          match has_object_permission IsAdminOrReadOnly request 0, category_pk obj with
          | Raise e, _ => (Raise e, st)
          | Return false, _ => (Raise (permission_denied request), st)
          | Return true, None => (Raise no_primary_key, st)
          | Return true, Some c =>
              (Return (mkReply HTTP_204_NO_CONTENT Nothing), Category_delete c st)
          end
      end
  end.

Definition CategoryViewSet_destroy (st : State) (request : Request) (slug : string)
    : Reply * State :=
  let '(r, st') := CategoryViewSet_destroy_view st request slug in (reply r, st').

(** *** GenreSerializer and GenreViewSet *)

Definition GenreSerializer_run_validation (rows : list Genre) (data : CategoryData)
    : py (string * string) :=
  let f_name :=
    CharField false true false
      (char_validators
         [UniqueValidator_on genre_pk rows genre_name None
            "жанр with this название жанра already exists."]
         (Some 256))
      (cd_name data) in
  let f_slug :=
    SlugField false true
      [UniqueValidator_on genre_pk rows genre_slug None
         "жанр with this slug already exists."]
      (Some 50) (cd_slug data) in
  match f_name, f_slug with
  | Valid (Some n), Valid (Some s) => Return (n, s)
  | _, _ => Raise (ValidationError (field_errors "name" f_name ++
                                    field_errors "slug" f_slug))
  end.

(** [POST /genres/] *)
Definition GenreViewSet_create_view `{Framework} (st : State) (request : Request)
    (request_data : CategoryData) : py Reply * State :=
  match require IsAdminOrReadOnly request with
  | Raise e => (Raise e, st)
  | Return _ =>
      match GenreSerializer_run_validation (genres st) request_data with
      | Raise e => (Raise e, st)
      | Return (n, s) =>
          match Genre_save (genres st) (mkGenre None n s) with
          | (Raise e, rows) => (Raise e, set_genres rows st)
          | (Return obj, rows) =>
              (Return (mkReply HTTP_201_CREATED (GenreRow obj)), set_genres rows st)
          end
      end
  end.

Definition GenreViewSet_create `{Framework} (st : State) (request : Request)
    (request_data : CategoryData) : Reply * State :=
  let '(r, st') := GenreViewSet_create_view st request request_data in
  (reply r, st').

(** [DELETE /genres/{slug}/] *)
Definition GenreViewSet_destroy_view (st : State) (request : Request)
    (slug : string) : py Reply * State :=
  match require IsAdminOrReadOnly request with
  | Raise e => (Raise e, st)
  | Return _ =>
      match get_object_or_404 (fun g => String.eqb (genre_slug g) slug) (genres st) with
      | Raise e => (Raise e, st)
      | Return obj =>
          match has_object_permission IsAdminOrReadOnly request 0, genre_pk obj with
          | Raise e, _ => (Raise e, st)
          | Return false, _ => (Raise (permission_denied request), st)
          | Return true, None => (Raise no_primary_key, st)
          | Return true, Some g =>
              (Return (mkReply HTTP_204_NO_CONTENT Nothing), Genre_delete g st)
          end
      end
  end.

Definition GenreViewSet_destroy (st : State) (request : Request) (slug : string)
    : Reply * State :=
  let '(r, st') := GenreViewSet_destroy_view st request slug in (reply r, st').

(** *** ReviewViewSet: the queryset and the detail routes *)

(** [ReviewViewSet.get_queryset] *)
Definition ReviewViewSet_get_queryset (st : State) (title_id : nat) : py (list Review) :=
  found <- get_object_or_404 (fun x => opt_nat_eqb (title_pk x) (Some title_id))
             (titles st) ;;
  Return (filter (fun r => title r =? title_id) (reviews st)).

(** [get_object]: the review of that key within the queryset, then the
    object permission. *)
Definition ReviewViewSet_get_object (st : State) (request : Request)
    (title_id review_id : nat) : py Review :=
  queryset <- ReviewViewSet_get_queryset st title_id ;;
  obj <- get_object_or_404 (fun r => opt_nat_eqb (review_pk r) (Some review_id))
           queryset ;;
  ok <- require_object OwnerAdminModeratorOrReadOnly request (author obj) ;;
  Return obj.

(** [ReviewSerializer.validate] on any validated data. *)
Definition ReviewSerializer_validate_for {D : Type} (rows : list Review)
    (request : Request) (title_id : nat) (data : D) : py D :=
  if negb (method_eqb (method request) POST) then Return data
  else
    match user request with
    | AuthUser u =>
        if match pk u with
           | Some a => review_exists rows title_id a
           | None => false
           end
        then Raise (ValidationError
                      [("non_field_errors",
                        ["Автор может оставлять ревью на каждое произведение только один раз"])])
        else Return data
    | AnonymousUser => Raise (TypeError "AnonymousUser is not a model instance")
    end.

(** The serializer on an instance: [partial] leaves absent keys out. *)
Definition ReviewSerializer_run_validation_update (partial : bool) (rows : list Review)
    (request : Request) (title_id : nat) (data : ReviewData)
    : py (option string * option Z) :=
  let f_text := CharField partial true false (char_validators [] None) (rd_text data) in
  let f_score := IntegerField (negb partial) 1 10
                   "Ensure this value is greater than or equal to 1."
                   "Ensure this value is less than or equal to 10."
                   (rd_score data) in
  match f_text, f_score with
  | Valid t, Valid s =>
      as_serializer_error (ReviewSerializer_validate_for rows request title_id (t, s))
  | _, _ => Raise (ValidationError (field_errors "text" f_text ++
                                    field_errors "score" f_score))
  end.

(** [ModelSerializer.update]: the validated keys are set, the instance saved. *)
Definition ReviewSerializer_update (rows : list Review) (instance : Review)
    (vd : option string * option Z) : py Review * list Review :=
  Model_save review_pk set_review_pk Review_violated rows
    (mkReview (review_pk instance) (or_else (fst vd) (text instance))
       (title instance) (author instance) (or_else (snd vd) (score instance))
       (pub_date instance)).

Definition ReviewViewSet_retrieve_view (st : State) (request : Request)
    (title_id review_id : nat) : py Reply * State :=
  match ReviewViewSet_get_object st request title_id review_id with
  | Raise e => (Raise e, st)
  | Return obj => (Return (mkReply HTTP_200_OK (ReviewRow obj)), st)
  end.

Definition ReviewViewSet_update_view (partial : bool) (st : State) (request : Request)
    (title_id review_id : nat) (request_data : ReviewData) : py Reply * State :=
  match ReviewViewSet_get_object st request title_id review_id with
  | Raise e => (Raise e, st)
  | Return obj =>
      match ReviewSerializer_run_validation_update partial (reviews st) request
              title_id request_data with
      | Raise e => (Raise e, st)
      | Return vd =>
          match ReviewSerializer_update (reviews st) obj vd with
          | (Raise e, rows) => (Raise e, set_reviews rows st)
          | (Return saved, rows) =>
              (Return (mkReply HTTP_200_OK (ReviewRow saved)), set_reviews rows st)
          end
      end
  end.

Definition ReviewViewSet_destroy_view (st : State) (request : Request)
    (title_id review_id : nat) : py Reply * State :=
  match ReviewViewSet_get_object st request title_id review_id with
  | Raise e => (Raise e, st)
  | Return obj =>
      match review_pk obj with
      | None => (Raise no_primary_key, st)
      | Some r => (Return (mkReply HTTP_204_NO_CONTENT Nothing), Review_delete r st)
      end
  end.

(** The routes of [/titles/{title_id}/reviews/{id}/]: permissions
    first, then the handler of the method. *)
Definition ReviewViewSet_detail (st : State) (request : Request)
    (title_id review_id : nat) (request_data : ReviewData) : Reply * State :=
  match require OwnerAdminModeratorOrReadOnly request with
  | Raise e => (reply (Raise e), st)
  | Return _ =>
      let '(r, st') :=
        match method request with
        | GET | HEAD => ReviewViewSet_retrieve_view st request title_id review_id
        | PUT => ReviewViewSet_update_view false st request title_id review_id
                   request_data
        | PATCH => ReviewViewSet_update_view true st request title_id review_id
                     request_data
        | DELETE => ReviewViewSet_destroy_view st request title_id review_id
        | OPTIONS => (Return (mkReply HTTP_200_OK Nothing), st)
        | POST => (Return (mkReply HTTP_405_METHOD_NOT_ALLOWED Nothing), st)
        end in
      (reply r, st')
  end.

(** *** CommentSerializer and CommentViewSet *)

Definition CommentSerializer_run_validation (partial : bool) (text_data : option string)
    : py (option string) :=
  match CharField partial true false (char_validators [] None) text_data with
  | Valid t => Return t
  | Invalid msgs => Raise (ValidationError [("text", msgs)])
  end.

(** [CommentViewSet.get_queryset]: the review is looked up by its key
    alone. *)
Definition CommentViewSet_get_queryset (st : State) (review_id : nat)
    : py (list Comment) :=
  found <- get_object_or_404 (fun r => opt_nat_eqb (review_pk r) (Some review_id))
             (reviews st) ;;
  Return (filter (fun c => review c =? review_id) (comments st)).

Definition CommentViewSet_get_object (st : State) (request : Request)
    (review_id comment_id : nat) : py Comment :=
  queryset <- CommentViewSet_get_queryset st review_id ;;
  obj <- get_object_or_404 (fun c => opt_nat_eqb (comment_pk c) (Some comment_id))
           queryset ;;
  ok <- require_object OwnerAdminModeratorOrReadOnly request (comment_author obj) ;;
  Return obj.

(** [POST /titles/{title_id}/reviews/{review_id}/comments/] *)
Definition CommentViewSet_create_view (now : nat) (st : State) (request : Request)
    (review_id : nat) (text_data : option string) : py Reply * State :=
  match require OwnerAdminModeratorOrReadOnly request with
  | Raise e => (Raise e, st)
  | Return _ =>
      match CommentSerializer_run_validation false text_data with
      | Raise e => (Raise e, st)
      | Return None => (Raise (KeyError "text"), st)
      | Return (Some t) =>
          match get_object_or_404 (fun r => opt_nat_eqb (review_pk r) (Some review_id))
                  (reviews st),
                user request with
          | Raise e, _ => (Raise e, st)
          | Return _, AnonymousUser => (Raise NotAuthenticated, st)
          | Return _, AuthUser u =>
              match pk u with
              | None => (Raise (IntegrityError "reviews_comment.author_id"), st)
              | Some a =>
                  match Comment_objects_create (comments st)
                          (mkComment None t review_id a now) with
                  | (Raise e, rows) => (Raise e, set_comments rows st)
                  | (Return obj, rows) =>
                      (Return (mkReply HTTP_201_CREATED (CommentRow obj)),
                       set_comments rows st)
                  end
              end
          end
      end
  end.

Definition CommentViewSet_create (now : nat) (st : State) (request : Request)
    (review_id : nat) (text_data : option string) : Reply * State :=
  let '(r, st') := CommentViewSet_create_view now st request review_id text_data in
  (reply r, st').

Definition CommentViewSet_update_view (partial : bool) (st : State) (request : Request)
    (review_id comment_id : nat) (text_data : option string) : py Reply * State :=
  match CommentViewSet_get_object st request review_id comment_id with
  | Raise e => (Raise e, st)
  | Return obj =>
      match CommentSerializer_run_validation partial text_data with
      | Raise e => (Raise e, st)
      | Return vd =>
          match Model_save comment_pk set_comment_pk Comment_violated (comments st)
                  (mkComment (comment_pk obj) (or_else vd (comment_text obj))
                     (review obj) (comment_author obj) (comment_pub_date obj)) with
          | (Raise e, rows) => (Raise e, set_comments rows st)
          | (Return saved, rows) =>
              (Return (mkReply HTTP_200_OK (CommentRow saved)), set_comments rows st)
          end
      end
  end.

Definition CommentViewSet_destroy_view (st : State) (request : Request)
    (review_id comment_id : nat) : py Reply * State :=
  match CommentViewSet_get_object st request review_id comment_id with
  | Raise e => (Raise e, st)
  | Return obj =>
      match comment_pk obj with
      | None => (Raise no_primary_key, st)
      | Some c => (Return (mkReply HTTP_204_NO_CONTENT Nothing), Comment_delete c st)
      end
  end.

(** The routes of [/titles/{title_id}/reviews/{review_id}/comments/{id}/] *)
Definition CommentViewSet_detail (st : State) (request : Request)
    (review_id comment_id : nat) (text_data : option string) : Reply * State :=
  match require OwnerAdminModeratorOrReadOnly request with
  | Raise e => (reply (Raise e), st)
  | Return _ =>
      let '(r, st') :=
        match method request with
        | GET | HEAD =>
            match CommentViewSet_get_object st request review_id comment_id with
            | Raise e => (Raise e, st)
            | Return obj => (Return (mkReply HTTP_200_OK (CommentRow obj)), st)
            end
        | PUT => CommentViewSet_update_view false st request review_id comment_id
                   text_data
        | PATCH => CommentViewSet_update_view true st request review_id comment_id
                     text_data
        | DELETE => CommentViewSet_destroy_view st request review_id comment_id
        | OPTIONS => (Return (mkReply HTTP_200_OK Nothing), st)
        | POST => (Return (mkReply HTTP_405_METHOD_NOT_ALLOWED Nothing), st)
        end in
      (reply r, st')
  end.

(** *** UserViewSet: the administration of accounts *)

(** [User.objects.create] with the validated data of [UserSerializer]. *)
Definition User_from (vd : UserData) : User :=
  mkUser None (or_else (ud_username vd) "") (or_else (ud_first_name vd) "")
    (or_else (ud_last_name vd) "") (or_else (ud_email vd) "")
    (or_else (ud_bio vd) "") true false (or_else (ud_role vd) UserRole.USER).

(** [POST /users/] *)
Definition UserViewSet_create_view `{Framework} (st : State) (request : Request)
    (request_data : UserData) : py Reply * State :=
  match require IsAdmin request with
  | Raise e => (Raise e, st)
  | Return _ =>
      match UserSerializer_run_validation (users st) None false request_data with
      | Raise e => (Raise e, st)
      | Return vd =>
          match User_save (users st) (User_from vd) with
          | (Raise e, rows) => (Raise e, set_users rows st)
          | (Return (_, obj), rows) =>
              (Return (mkReply HTTP_201_CREATED (UserRow obj)), set_users rows st)
          end
      end
  end.

Definition UserViewSet_create `{Framework} (st : State) (request : Request)
    (request_data : UserData) : Reply * State :=
  let '(r, st') := UserViewSet_create_view st request request_data in (reply r, st').

(** [get_object] by [lookup_field = "username"] *)
Definition UserViewSet_get_object (st : State) (request : Request) (name : string)
    : py User :=
  obj <- get_object_or_404 (fun u => String.eqb (username u) name) (users st) ;;
  ok <- require_object IsAdmin request 0 ;;
  Return obj.

Definition UserViewSet_update_view `{Framework} (partial : bool) (st : State)
    (request : Request) (name : string) (request_data : UserData)
    : py Reply * State :=
  match UserViewSet_get_object st request name with
  | Raise e => (Raise e, st)
  | Return obj =>
      match UserSerializer_run_validation (users st) (Some obj) partial request_data with
      | Raise e => (Raise e, st)
      | Return vd =>
          match UserSerializer_save (users st) obj vd None with
          | (Raise e, rows) => (Raise e, set_users rows st)
          | (Return saved, rows) =>
              (Return (mkReply HTTP_200_OK (UserRow saved)), set_users rows st)
          end
      end
  end.

Definition UserViewSet_destroy_view (st : State) (request : Request) (name : string)
    : py Reply * State :=
  match UserViewSet_get_object st request name with
  | Raise e => (Raise e, st)
  | Return obj =>
      match pk obj with
      | None => (Raise no_primary_key, st)
      | Some u => (Return (mkReply HTTP_204_NO_CONTENT Nothing), User_delete u st)
      end
  end.

(** The routes of [/users/{username}/], behind [IsAdmin]. *)
Definition UserViewSet_detail `{Framework} (st : State) (request : Request)
    (name : string) (request_data : UserData) : Reply * State :=
  match require IsAdmin request with
  | Raise e => (reply (Raise e), st)
  | Return _ =>
      let '(r, st') :=
        match method request with
        | GET | HEAD =>
            match UserViewSet_get_object st request name with
            | Raise e => (Raise e, st)
            | Return obj => (Return (mkReply HTTP_200_OK (UserRow obj)), st)
            end
        | PUT => UserViewSet_update_view false st request name request_data
        | PATCH => UserViewSet_update_view true st request name request_data
        | DELETE => UserViewSet_destroy_view st request name
        | OPTIONS => (Return (mkReply HTTP_200_OK Nothing), st)
        | POST => (Return (mkReply HTTP_405_METHOD_NOT_ALLOWED Nothing), st)
        end in
      (reply r, st')
  end.

(** * Properties *)

(** ** The vocabulary of the statements *)

(** The three conditions of the rules of access, as propositions. *)
Definition authenticated (actor : request_user) : Prop :=
  exists u, actor = AuthUser u.

Definition admin_or_superuser (actor : request_user) : Prop :=
  exists u, actor = AuthUser u /\
            (role u = UserRole.ADMIN \/ is_superuser u = true).

Definition author_or_staff (actor : request_user) (author_id : nat) : Prop :=
  exists u, actor = AuthUser u /\
            (pk u = Some author_id \/ role u = UserRole.MODERATOR \/
             role u = UserRole.ADMIN \/ is_superuser u = true).

(** An evaluation [d] decides [P]: it never raises, allows when [P]
    holds and denies when it does not. *)
Definition decides (d : py decision) (P : Prop) : Prop :=
  (P /\ d = Return Allow) \/ (~ P /\ d = Return Deny).

Definition review_key (r : Review) : nat * nat := (author r, title r).

(** At most one review for every (author, title) pair. *)
Definition one_review_per_pair (rows : list Review) : Prop :=
  NoDup (map review_key rows).

Definition conflict_detail : list (string * list string) :=
  [("non_field_errors",
    ["Автор может оставлять ревью на каждое произведение только один раз"])].

(** The payload passes the field validation of [ReviewSerializer]. *)
Definition review_fields_valid (d : ReviewData) : Prop :=
  exists t s, CharField false true false (char_validators [] None) (rd_text d)
              = Valid (Some t) /\
              score_field (rd_score d) = Valid (Some s).

(** The messages of the fields of a payload that does not pass it. *)
Definition review_field_errors (d : ReviewData) : list (string * list string) :=
  field_errors "text"
    (CharField false true false (char_validators [] None) (rd_text d)) ++
  field_errors "score" (score_field (rd_score d)).

Definition total (xs : list Z) : Z := fold_right Z.add 0%Z xs.

(** The role the store holds for the user of primary key [i]. *)
Definition stored_role (st : State) (i : nat) : option string :=
  option_map role (find (fun x => opt_nat_eqb (pk x) (Some i)) (users st)).

(** The unique constraints of the user table. *)
Definition users_unique (rows : list User) : Prop :=
  NoDup (map username rows) /\ NoDup (map email rows).

(** A [CharField] accepts the value: not blank once trimmed, no NUL. *)
Definition accepted (raw : string) : bool :=
  negb (String.eqb (strip raw) "") && negb (has_nul (strip raw)).

Definition token_fields_valid (d : TokenData) : Prop :=
  exists name code, td_username d = Some name /\ td_confirmation_code d = Some code /\
                    accepted name = true /\ accepted code = true.

Definition invalid_code_detail : list (string * list string) :=
  [("detail", ["Неверный код подтверждения."])].

(** The pair clashes with a stored user on one of its two components. *)
Definition pair_conflicts (rows : list User) (name mail : string) : Prop :=
  exists x, In x rows /\
            ((username x = name /\ email x <> mail) \/
             (email x = mail /\ username x <> name)).

(** Some row of the table has the primary key [i]. *)
Definition has_pk {R : Type} (get_pk : R -> option nat) (rows : list R) (i : nat) : Prop :=
  exists x, In x rows /\ get_pk x = Some i.

(** Every foreign key of the store names a row that is there. *)
Definition references_hold (st : State) : Prop :=
  (forall r, In r (reviews st) ->
     has_pk title_pk (titles st) (title r) /\ has_pk pk (users st) (author r)) /\
  (forall c, In c (comments st) ->
     has_pk review_pk (reviews st) (review c) /\
     has_pk pk (users st) (comment_author c)) /\
  (forall x, In x (genre_titles st) ->
     has_pk title_pk (titles st) (gt_title x) /\
     forall g, gt_genre x = Some g -> has_pk genre_pk (genres st) g) /\
  (forall t, In t (titles st) ->
     forall c, category t = Some c -> has_pk category_pk (categories st) c).

(** Every stored score lies between 1 and 10. *)
Definition scores_in_range (rows : list Review) : Prop :=
  forall r, In r rows -> (1 <= score r <= 10)%Z.

Definition clear_category (t : Title) : Title :=
  mkTitle (title_pk t) (title_name t) (year t) (description t) None.

(** ** A sample store *)

(** A framework to evaluate the views with. *)
Definition sample_framework : Framework :=
  {| slugify := fun s => s;
     EmailValidator := fun s => match index 0 "@" s with Some _ => true | None => false end;
     UnicodeUsernameValidator := fun s => negb (has_nul s);
     make_token := fun now u => ("code-" ++ username u ++ "-" ++ email u)%string;
     check_token := fun now u c =>
       String.eqb c ("code-" ++ username u ++ "-" ++ email u)%string;
     AccessToken := string;
     AccessToken_for_user := fun now u => username u;
     encode := fun t => ("jwt." ++ t)%string |}.

Definition bob : User :=
  mkUser (Some 1) "bob" "" "" "bob@example.org" "" true false UserRole.USER.

Definition eve : User :=
  mkUser (Some 2) "eve" "" "" "eve@example.org" "" true false UserRole.MODERATOR.

Definition sample_state : State :=
  mkState [bob; eve] [] [] [mkTitle (Some 1) "Solaris" 1972 "нет описания" None] []
    [mkReview (Some 1) "fine" 1 1 8%Z 0] [] [].

(** Title 1 with one review for each of the [scores]. *)
Definition with_scores (scores : list Z) : State :=
  mkState [] [] [] [mkTitle (Some 1) "Solaris" 1972 "нет описания" None] []
    (map (fun s => mkReview (Some (Z.to_nat s)) "text" 1 (Z.to_nat s) s 0) scores)
    [] [].

(** An actor of primary key 7 with the given role and superuser flag. *)
Definition sample_actor (r : string) (super : bool) : request_user :=
  AuthUser (mkUser (Some 7) "ann" "" "" "ann@example.org" "" true super r).

Definition ann : User :=
  mkUser (Some 3) "ann" "" "" "ann@example.org" "" true false UserRole.ADMIN.

(** A store with every table filled: three users, two titles, two
    reviews and a comment. *)
Definition library_state : State :=
  mkState [bob; eve; ann]
    [mkCategory (Some 1) "Films" "films"]
    [mkGenre (Some 1) "Drama" "drama"]
    [mkTitle (Some 1) "Solaris" 1972 "нет описания" (Some 1);
     mkTitle (Some 2) "Stalker" 1979 "нет описания" None]
    [mkGenreTitle (Some 1) 1 (Some 1)]
    [mkReview (Some 1) "fine" 1 1 8%Z 0; mkReview (Some 2) "great" 2 2 10%Z 1]
    [mkComment (Some 1) "agreed" 1 2 2]
    [].

(** A framework whose generator hands every user the same code. *)
Definition fixed_code_framework : Framework :=
  {| slugify := fun s => s;
     EmailValidator := fun s => match index 0 "@" s with Some _ => true | None => false end;
     UnicodeUsernameValidator := fun s => negb (has_nul s);
     make_token := fun now u => "c0de";
     check_token := fun now u c => String.eqb c "c0de";
     AccessToken := string;
     AccessToken_for_user := fun now u => username u;
     encode := fun t => ("jwt." ++ t)%string |}.

(** ** The permission evaluator *)

Lemma in_methods_In (m : http_method) (l : list http_method) :
  in_methods m l = true <-> In m l.
Proof.
  unfold in_methods. rewrite existsb_exists. split.
  - intros [x [Hin Heq]]. destruct m, x; simpl in Heq; congruence.
  - intros Hin. exists m. split; [assumption | now destruct m].
Qed.

Lemma opt_nat_eqb_eq (a b : option nat) : opt_nat_eqb a b = true <-> a = b.
Proof.
  destruct a as [x|], b as [y|]; simpl; try (split; congruence).
  rewrite Nat.eqb_eq. split; congruence.
Qed.

Lemma decides_allow (d : py decision) (P : Prop) :
  decides d P -> (d = Return Allow <-> P).
Proof.
  intros [[HP Hd] | [HP Hd]]; rewrite Hd; split; intros H;
    solve [assumption | reflexivity | discriminate | contradiction].
Qed.

Lemma admin_decided (u : User) (m : http_method) :
  in_methods m SAFE_METHODS = false ->
  decides (check_permissions IsAdminOrReadOnly (mkRequest m (AuthUser u)))
          (admin_or_superuser (AuthUser u)).
Proof.
  intros Hm. unfold decides, check_permissions, admin_or_superuser.
  cbn -[in_methods String.eqb]. rewrite Hm. cbn -[String.eqb].
  destruct (String.eqb_spec (role u) UserRole.ADMIN) as [Hr | Hr]; cbn.
  - left. split; [exists u; auto | reflexivity].
  - destruct (is_superuser u) eqn:Hs; simpl.
    + left. split; [exists u; auto | reflexivity].
    + right. split; [| reflexivity].
      intros [v [Hv [H | H]]]; inversion Hv; subst; congruence.
Qed.

Lemma IsAdmin_decided (actor : request_user) (m : http_method) :
  decides (check_permissions IsAdmin (mkRequest m actor)) (admin_or_superuser actor).
Proof.
  unfold decides, check_permissions, admin_or_superuser.
  destruct actor as [| u]; cbn -[String.eqb].
  - right. split; [| reflexivity]. intros [v [Hv _]]. discriminate.
  - destruct (String.eqb_spec (role u) UserRole.ADMIN) as [Hr | Hr]; cbn.
    + left. split; [exists u; auto | reflexivity].
    + destruct (is_superuser u) eqn:Hs; simpl.
      * left. split; [exists u; auto | reflexivity].
      * right. split; [| reflexivity].
        intros [v [Hv [H | H]]]; inversion Hv; subst; congruence.
Qed.

Lemma owner_decided (u : User) (m : http_method) (author_id : nat) :
  in_methods m SAFE_METHODS = false ->
  decides (check_object_permissions OwnerAdminModeratorOrReadOnly
             (mkRequest m (AuthUser u)) author_id)
          (author_or_staff (AuthUser u) author_id).
Proof.
  intros Hm. unfold decides, check_object_permissions, check_permissions,
    author_or_staff.
  cbn -[in_methods opt_nat_eqb String.eqb]. rewrite Hm.
  cbn -[opt_nat_eqb String.eqb].
  destruct (opt_nat_eqb (Some author_id) (pk u)) eqn:Hpk; cbn -[String.eqb].
  { apply opt_nat_eqb_eq in Hpk. left. split; [exists u; auto | reflexivity]. }
  destruct (String.eqb_spec (role u) UserRole.MODERATOR) as [Hmod | Hmod];
    cbn -[String.eqb].
  { left. split; [exists u; auto | reflexivity]. }
  destruct (String.eqb_spec (role u) UserRole.ADMIN) as [Hadm | Hadm];
    cbn -[String.eqb].
  { left. split; [exists u; auto | reflexivity]. }
  destruct (is_superuser u) eqn:Hs; cbn.
  { left. split; [exists u; auto 6 | reflexivity]. }
  right. split; [| reflexivity].
  intros [v [Hv H]]. inversion Hv; subst v.
  destruct H as [H | [H | [H | H]]]; try congruence.
  symmetry in H. apply opt_nat_eqb_eq in H. congruence.
Qed.

(** C1. The permission evaluator follows the table of rules for every
    actor, verb and ownership state: a safe read is allowed to everyone
    on every resource; a write on Category, Genre or Title is allowed
    exactly to an authenticated actor of role admin or with the superuser
    flag; a write on the list of Reviews or Comments is allowed exactly
    to an authenticated actor; an update or delete of one Review or
    Comment is allowed exactly when the actor is its author, or has role
    moderator or admin, or is a superuser.  The administration of user
    accounts is allowed, for every verb, exactly to an admin or
    superuser, and the self-profile endpoint exactly to an authenticated
    actor.  No evaluation raises. *)
Theorem permission_table :
  forall (actor : request_user) (m : http_method) (author_id : nat),
    let request := mkRequest m actor in
    (In m SAFE_METHODS ->
       check_permissions IsAdminOrReadOnly request = Return Allow /\
       check_object_permissions IsAdminOrReadOnly request author_id = Return Allow /\
       check_permissions OwnerAdminModeratorOrReadOnly request = Return Allow /\
       check_object_permissions OwnerAdminModeratorOrReadOnly request author_id
         = Return Allow)
    /\
    (~ In m SAFE_METHODS ->
       decides (check_permissions IsAdminOrReadOnly request)
               (admin_or_superuser actor) /\
       decides (check_object_permissions IsAdminOrReadOnly request author_id)
               (admin_or_superuser actor) /\
       decides (check_permissions OwnerAdminModeratorOrReadOnly request)
               (authenticated actor) /\
       decides (check_object_permissions OwnerAdminModeratorOrReadOnly request
                  author_id)
               (author_or_staff actor author_id))
    /\
    decides (check_permissions IsAdmin request) (admin_or_superuser actor)
    /\
    decides (check_permissions IsAuthenticated request) (authenticated actor).
Proof.
  intros actor m author_id request.
  split; [| split; [| split; [apply IsAdmin_decided |]]]; cycle 2.
  { unfold decides, check_permissions, authenticated. subst request.
    destruct actor as [| u]; cbn.
    - right. split; [| reflexivity]. intros [v Hv]. discriminate.
    - left. split; [exists u; reflexivity | reflexivity]. }
  - intros Hsafe. apply in_methods_In in Hsafe.
    unfold check_object_permissions, check_permissions. subst request.
    destruct m; try discriminate Hsafe; repeat split; reflexivity.
  - intros Hunsafe.
    assert (Hm : in_methods m SAFE_METHODS = false).
    { destruct (in_methods m SAFE_METHODS) eqn:E; [| reflexivity].
      apply in_methods_In in E. contradiction. }
    subst request. destruct actor as [| u].
    + unfold decides, check_object_permissions, check_permissions.
      cbn -[in_methods]. rewrite Hm. simpl.
      repeat split; right; (split; [| reflexivity]);
        intros [v Hv]; solve [discriminate Hv | destruct Hv; discriminate].
    + pose proof (admin_decided u m Hm) as Hadm.
      pose proof (owner_decided u m author_id Hm) as Hown.
      repeat split.
      * exact Hadm.
      * unfold check_object_permissions.
        destruct Hadm as [[HP Hd] | [HP Hd]]; rewrite Hd; simpl;
          [left | right]; split; auto.
      * unfold decides, check_permissions.
        cbn -[in_methods]. rewrite Hm. simpl.
        left. split; [exists u; reflexivity | reflexivity].
      * exact Hown.
Qed.

Example permission_table_rows :
  map (fun a => map (fun m =>
         ( check_permissions IsAdminOrReadOnly (mkRequest m a),
           check_permissions OwnerAdminModeratorOrReadOnly (mkRequest m a),
           check_object_permissions OwnerAdminModeratorOrReadOnly (mkRequest m a) 7,
           check_object_permissions OwnerAdminModeratorOrReadOnly (mkRequest m a) 8 ))
         [GET; PATCH])
      [ AnonymousUser; sample_actor "user" false; sample_actor "moderator" false;
        sample_actor "admin" false; sample_actor "user" true ]
  = [ [ (Return Allow, Return Allow, Return Allow, Return Allow);
        (Return Deny, Return Deny, Return Deny, Return Deny) ];
      [ (Return Allow, Return Allow, Return Allow, Return Allow);
        (Return Deny, Return Allow, Return Allow, Return Deny) ];
      [ (Return Allow, Return Allow, Return Allow, Return Allow);
        (Return Deny, Return Allow, Return Allow, Return Allow) ];
      [ (Return Allow, Return Allow, Return Allow, Return Allow);
        (Return Allow, Return Allow, Return Allow, Return Allow) ];
      [ (Return Allow, Return Allow, Return Allow, Return Allow);
        (Return Allow, Return Allow, Return Allow, Return Allow) ] ].
Proof. reflexivity. Qed.

(** ** One review per author and title *)

Lemma filter_all {A : Type} (l : list A) : filter (fun _ => true) l = l.
Proof. induction l as [| x l IH]; simpl; [reflexivity | now rewrite IH]. Qed.

Lemma existsb_none {A : Type} (l : list A) : existsb (fun _ => false) l = false.
Proof. induction l as [| x l IH]; simpl; [reflexivity | exact IH]. Qed.

Lemma same_author_title_key (a b : Review) :
  same_author_title a b = true <-> review_key a = review_key b.
Proof.
  unfold same_author_title, review_key.
  rewrite andb_true_iff, !Nat.eqb_eq. split.
  - intros [H1 H2]. now rewrite H1, H2.
  - intros H. inversion H. split; reflexivity.
Qed.

Lemma key_taken (rows : list Review) (r : Review) :
  existsb (same_author_title r) rows = true <-> In (review_key r) (map review_key rows).
Proof.
  rewrite existsb_exists, in_map_iff. split.
  - intros [x [Hin Hk]]. exists x. apply same_author_title_key in Hk. auto.
  - intros [x [Hk Hin]]. exists x. split; [assumption |].
    apply same_author_title_key. auto.
Qed.

Lemma review_exists_key (rows : list Review) (t a : nat) :
  review_exists rows t a = true <-> In (a, t) (map review_key rows).
Proof.
  unfold review_exists. rewrite existsb_exists, in_map_iff. split.
  - intros [x [Hin Hk]]. exists x. apply andb_true_iff in Hk.
    destruct Hk as [H1 H2]. apply Nat.eqb_eq in H1, H2.
    unfold review_key. now rewrite H1, H2.
  - intros [x [Hk Hin]]. exists x. split; [assumption |].
    unfold review_key in Hk. inversion Hk. now rewrite !Nat.eqb_refl.
Qed.

(** What [Review.objects.create] does, by cases on the constraint. *)
Lemma Review_objects_create_cases (rows : list Review) (r : Review) :
  (existsb (same_author_title r) rows = true /\
   Review_objects_create rows r
   = (Raise (IntegrityError "author_title_only_on_review"), rows))
  \/
  (existsb (same_author_title r) rows = false /\
   exists r', review_key r' = review_key r /\
              Review_objects_create rows r = (Return r', rows ++ [r'])).
Proof.
  unfold Review_objects_create, Model_save, Review_violated. cbn [review_pk set_review_pk is_self].
  cbn [negb]. rewrite filter_all, existsb_none.
  change (same_author_title (set_review_pk None r)) with (same_author_title r).
  destruct (existsb (same_author_title r) rows) eqn:E.
  - left. split; reflexivity.
  - right. split; [reflexivity |]. eexists. split; [| reflexivity]. reflexivity.
Qed.

Lemma Review_objects_create_preserves (rows : list Review) (r : Review) :
  one_review_per_pair rows ->
  one_review_per_pair (snd (Review_objects_create rows r)).
Proof.
  intros Hinv.
  destruct (Review_objects_create_cases rows r) as [[_ Heq] | [Hfree [r' [Hk Heq]]]];
    rewrite Heq; simpl; [assumption |].
  unfold one_review_per_pair. rewrite map_app. simpl.
  apply NoDup_app; [assumption | repeat constructor; simpl; tauto |].
  intros k Hin [Hk' | []]. subst k. rewrite Hk in Hin.
  apply key_taken in Hin. congruence.
Qed.

(** The store keeps the invariant under every save, insert or update,
    as long as primary keys are unique. *)
Lemma replace_keys (rows : list Review) (p : option nat) (r : Review) :
  NoDup (map review_pk rows) ->
  one_review_per_pair rows ->
  ~ In (review_key r)
       (map review_key (filter (fun x => negb (is_self review_pk p x)) rows)) ->
  one_review_per_pair (map (fun x => if is_self review_pk p x then r else x) rows).
Proof.
  unfold one_review_per_pair.
  induction rows as [| x rows IH]; [intros; constructor |].
  cbn [map filter]. intros Hpk Hkeys Hfree.
  inversion Hpk as [| k ks Hpk_x Hpk_rest]; subst.
  inversion Hkeys as [| k ks Hkey_x Hkeys_rest]; subst.
  destruct (is_self review_pk p x) eqn:Hself; cbn [negb] in Hfree.
  - assert (Hnone : forall y, In y rows -> is_self review_pk p y = false).
    { intros y Hy. destruct (is_self review_pk p y) eqn:E; [| reflexivity].
      exfalso. apply Hpk_x. unfold is_self in Hself, E. destruct p as [i |]; [| discriminate].
      apply opt_nat_eqb_eq in Hself, E. rewrite Hself, <- E. now apply in_map. }
    assert (Hsame : map (fun y => if is_self review_pk p y then r else y) rows = rows).
    { clear - Hnone. induction rows as [| y rows IH]; [reflexivity |].
      cbn [map]. rewrite (Hnone y) by now left.
      rewrite IH; [reflexivity |]. intros z Hz. apply Hnone. now right. }
    assert (Hall : filter (fun y => negb (is_self review_pk p y)) rows = rows).
    { clear - Hnone. induction rows as [| y rows IH]; [reflexivity |].
      cbn [filter]. rewrite (Hnone y) by now left. cbn [negb].
      rewrite IH; [reflexivity |]. intros z Hz. apply Hnone. now right. }
    rewrite Hsame. rewrite Hall in Hfree. now constructor.
  - cbn [map] in Hfree. constructor.
    + intros Hin. apply in_map_iff in Hin. destruct Hin as [z [Hz Hin]].
      apply in_map_iff in Hin. destruct Hin as [y [Hy Hin]]. subst z.
      destruct (is_self review_pk p y).
      * apply Hfree. left. now symmetry.
      * apply Hkey_x. rewrite <- Hz. now apply in_map.
    + apply IH; try assumption. intros Hin. apply Hfree. now right.
Qed.

Lemma store_keeps_one_review_per_pair (rows : list Review) (r : Review) :
  NoDup (map review_pk rows) ->
  one_review_per_pair rows ->
  one_review_per_pair (snd (Model_save review_pk set_review_pk Review_violated rows r)).
Proof.
  intros Hpk Hinv. unfold Model_save, Review_violated.
  destruct (existsb (same_author_title r) _) eqn:Hfree; [assumption |].
  assert (Hnot : ~ In (review_key r)
                     (map review_key
                        (filter (fun x => negb (is_self review_pk (review_pk r) x)) rows))).
  { intros Hin. apply key_taken in Hin. congruence. }
  destruct (existsb (is_self review_pk (review_pk r)) rows) eqn:Hex; cbn [snd].
  - now apply replace_keys.
  - assert (Hall : filter (fun x => negb (is_self review_pk (review_pk r) x)) rows = rows).
    { clear - Hex. induction rows as [| y rows IH]; [reflexivity |].
      cbn [existsb filter] in *. apply orb_false_iff in Hex. destruct Hex as [Hy Hrest].
      rewrite Hy. cbn [negb]. now rewrite IH. }
    rewrite Hall in Hnot.
    unfold one_review_per_pair. rewrite map_app. cbn [map].
    assert (Hk : review_key (match review_pk r with
                             | Some _ => r
                             | None => set_review_pk (Some (next_pk review_pk rows)) r
                             end) = review_key r)
      by (destruct (review_pk r); reflexivity).
    rewrite Hk.
    apply NoDup_app; [assumption | repeat constructor; simpl; tauto |].
    intros k Hin [<- | []]. contradiction.
Qed.

(** The rows after a create request: untouched or one [create] later. *)
Lemma ReviewViewSet_create_rows (now : nat) (st : State) (request : Request)
    (title_id : nat) (request_data : ReviewData) :
  snd (ReviewViewSet_create now st request title_id request_data) = st \/
  exists r, reviews (snd (ReviewViewSet_create now st request title_id request_data))
            = snd (Review_objects_create (reviews st) r).
Proof.
  unfold ReviewViewSet_create, ReviewViewSet_create_view.
  destruct (require OwnerAdminModeratorOrReadOnly request); [| now left].
  destruct (ReviewSerializer_run_validation (reviews st) request title_id request_data)
    as [[t s] |]; [| now left].
  destruct (get_object_or_404 _ (titles st)) as [found |]; [| now left].
  destruct (user request) as [| u]; [now left |].
  destruct (pk u) as [i |]; [| now left].
  right. exists (mkReview None t title_id i s now).
  destruct (Review_objects_create (reviews st) (mkReview None t title_id i s now))
    as [[obj | e] rows]; reflexivity.
Qed.

Lemma duplicate_fails_validation (rows : list Review) (u : User) (a title_id : nat)
    (request_data : ReviewData) :
  pk u = Some a ->
  review_exists rows title_id a = true ->
  (exists d, ReviewSerializer_run_validation rows (mkRequest POST (AuthUser u))
               title_id request_data = Raise (ValidationError d)) /\
  (review_fields_valid request_data ->
   ReviewSerializer_run_validation rows (mkRequest POST (AuthUser u))
     title_id request_data = Raise (ValidationError conflict_detail)).
Proof.
  intros Hpk Hdup. unfold ReviewSerializer_run_validation, review_fields_valid.
  assert (Hv : forall d, ReviewSerializer_validate rows (mkRequest POST (AuthUser u))
                           title_id d = Raise (ValidationError conflict_detail)).
  { intros d. unfold ReviewSerializer_validate. simpl. rewrite Hpk, Hdup. reflexivity. }
  split.
  - destruct (CharField false true false _ (rd_text request_data)) as [[t |] | m1];
      destruct (score_field (rd_score request_data)) as [[s |] | m2];
      try (eexists; reflexivity).
    rewrite Hv. eexists; reflexivity.
  - intros [t [s [Ht Hs]]]. rewrite Ht, Hs, Hv. reflexivity.
Qed.

Lemma invalid_fields_reported (rows : list Review) (request : Request)
    (title_id : nat) (request_data : ReviewData) :
  ~ review_fields_valid request_data ->
  ReviewSerializer_run_validation rows request title_id request_data
  = Raise (ValidationError (review_field_errors request_data)).
Proof.
  intros Hbad. unfold ReviewSerializer_run_validation, review_field_errors.
  destruct (CharField false true false _ (rd_text request_data)) as [[t |] | m1] eqn:Et;
    destruct (score_field (rd_score request_data)) as [[s |] | m2] eqn:Es;
    try reflexivity.
  exfalso. apply Hbad. exists t, s. split; assumption.
Qed.

(** C2, as amended. At most one review exists for every (author,
    title) pair: a create request keeps the store in that state; when
    the author already has a review of the title, the request fails
    with a validation error (status 400) and changes nothing, the error
    being the descriptive conflict message of the serializer's check
    when the fields of the payload pass their own validation and the
    messages of the fields when they do not; and the store's
    uniqueness constraint by itself refuses any row of that author and
    title. *)
Theorem one_review_per_author_and_title :
  forall (now : nat) (st : State) (u : User) (a title_id : nat)
         (request_data : ReviewData),
    pk u = Some a ->
    one_review_per_pair (reviews st) ->
    let request := mkRequest POST (AuthUser u) in
    let result := ReviewViewSet_create now st request title_id request_data in
    one_review_per_pair (reviews (snd result)) /\
    (review_exists (reviews st) title_id a = true ->
       snd result = st /\
       (exists d, fst result = mkResponse 400 (Errors d)) /\
       (review_fields_valid request_data ->
          fst result = mkResponse 400 (Errors conflict_detail)) /\
       (~ review_fields_valid request_data ->
          fst result = mkResponse 400 (Errors (review_field_errors request_data))) /\
       (forall r, author r = a -> title r = title_id ->
          Review_objects_create (reviews st) r
          = (Raise (IntegrityError "author_title_only_on_review"), reviews st))).
Proof.
  intros now st u a title_id request_data Hpk Hinv request result. split.
  - destruct (ReviewViewSet_create_rows now st request title_id request_data)
      as [Heq | [r Heq]]; subst result.
    + rewrite Heq. assumption.
    + rewrite Heq. apply Review_objects_create_preserves. assumption.
  - intros Hdup.
    destruct (duplicate_fails_validation (reviews st) u a title_id request_data
                Hpk Hdup) as [[d Hd] Hvalid].
    subst result request.
    unfold ReviewViewSet_create, ReviewViewSet_create_view.
    change (require OwnerAdminModeratorOrReadOnly (mkRequest POST (AuthUser u)))
      with (@Return unit tt).
    repeat split.
    + rewrite Hd. reflexivity.
    + exists d. rewrite Hd. reflexivity.
    + intros Hok. rewrite (Hvalid Hok). reflexivity.
    + intros Hbad. rewrite (invalid_fields_reported _ _ _ _ Hbad). reflexivity.
    + intros r Ha Ht.
      destruct (Review_objects_create_cases (reviews st) r)
        as [[_ Heq] | [Hfree _]]; [exact Heq |].
      exfalso. apply review_exists_key in Hdup.
      assert (Hin : In (review_key r) (map review_key (reviews st))).
      { unfold review_key at 1. now rewrite Ha, Ht. }
      apply key_taken in Hin. congruence.
Qed.

(** C2, counterexample. bob has a review of title 1; his second
    review of it, sent with the score 11, is refused with the message
    of the score field, not with the conflict message of the
    serializer's check. *)
Lemma duplicate_with_bad_score_is_not_conflict :
  review_exists (reviews sample_state) 1 1 = true /\
  fst (ReviewViewSet_create 5 sample_state (mkRequest POST (AuthUser bob)) 1
         (mkReviewData (Some "again") (Some 11%Z)))
  = mkResponse 400
      (Errors [("score", ["Ensure this value is less than or equal to 10."])]) /\
  fst (ReviewViewSet_create 5 sample_state (mkRequest POST (AuthUser bob)) 1
         (mkReviewData (Some "again") (Some 11%Z)))
  <> mkResponse 400 (Errors conflict_detail).
Proof.
  split; [reflexivity |]. split; [reflexivity | discriminate].
Qed.

(** ** The rating of a title *)

Example rating_8_10 : ReadTitleSerializer_rating (with_scores [8; 10]%Z) 1 = Some 9%Z.
Proof. reflexivity. Qed.

Example rating_no_review : ReadTitleSerializer_rating (with_scores []) 1 = None.
Proof. reflexivity. Qed.

Lemma Zpos_of_nat_S (n : nat) : Zpos (Pos.of_nat (S n)) = Z.of_nat (S n).
Proof.
  rewrite <- Pos.of_nat_succ, Zpos_P_of_succ_nat, Nat2Z.inj_succ. reflexivity.
Qed.

(** C3, counterexample. Reviews scored 8 and 9: the mean is 17/2 and
    the rating reported is 8, which is not the mean. *)
Lemma rating_is_not_the_mean :
  Avg (reviews_score (with_scores [8; 9]%Z) 1) = Some (17 # 2)%Q /\
  ReadTitleSerializer_rating (with_scores [8; 9]%Z) 1 = Some 8%Z /\
  ~ (inject_Z 8 == 17 # 2)%Q.
Proof.
  repeat split; try reflexivity.
  unfold Qeq. simpl. discriminate.
Qed.

(** C3, as amended. The rating reported for a title is the arithmetic
    mean of the scores of its reviews with the fraction dropped, an
    integer (for scores that are not negative, the greatest integer
    not above the mean); it is the mean itself whenever the mean is an
    integer (scores 8 and 10 give 9), and a title without reviews
    reports no rating, not 0. *)
Theorem rating_is_truncated_mean :
  forall (st : State) (title_id : nat),
    let xs := reviews_score st title_id in
    let n := Z.of_nat (List.length xs) in
    match xs with
    | [] => Avg xs = None /\
            ReadTitleSerializer_rating st title_id = None
    | _ :: _ =>
        exists mean : Q,
          Avg xs = Some mean /\
          (mean * inject_Z n == inject_Z (total xs))%Q /\
          ReadTitleSerializer_rating st title_id = Some (Z.quot (total xs) n) /\
          ((n | total xs)%Z -> (inject_Z (Z.quot (total xs) n) == mean)%Q) /\
          ((0 <= total xs)%Z ->
             (inject_Z (Z.quot (total xs) n) <= mean)%Q /\
             (mean < inject_Z (Z.quot (total xs) n + 1))%Q)
    end.
Proof.
  intros st title_id. cbv zeta.
  unfold ReadTitleSerializer_rating, annotate_rating, ExpressionWrapper_IntegerField,
    IntegerField_to_representation.
  destruct (reviews_score st title_id) as [| x xs']; [split; reflexivity |].
  set (n := Z.of_nat (List.length (x :: xs'))).
  assert (Hn : n = Zpos (Pos.of_nat (S (List.length xs')))).
  { subst n. simpl List.length. now rewrite Zpos_of_nat_S. }
  exists (Qmake (total (x :: xs')) (Pos.of_nat (S (List.length xs')))).
  repeat split.
  - unfold Qeq, Qmult, inject_Z. cbn [Qnum Qden]. rewrite Hn. lia.
  - unfold Avg, py_int. cbn [Qnum Qden List.length]. now rewrite Hn.
  - intros [k Hk]. rewrite Hk, Z.quot_mul by (rewrite Hn; discriminate).
    unfold Qeq, inject_Z. cbn [Qnum Qden]. rewrite Hn. lia.
  - unfold Qle, inject_Z. cbn [Qnum Qden]. rewrite <- Hn.
    rewrite Z.quot_div_nonneg by (rewrite ?Hn; lia).
    rewrite Z.mul_1_r, Z.mul_comm. apply Z.mul_div_le. rewrite Hn. lia.
  - unfold Qlt, inject_Z. cbn [Qnum Qden]. rewrite <- Hn.
    rewrite Z.quot_div_nonneg by (rewrite ?Hn; lia).
    rewrite Z.mul_1_r, Z.mul_comm. apply Z.mul_succ_div_gt. rewrite Hn. lia.
Qed.

(** ** The self-profile endpoint *)

Section SelfProfile.
Context `{Framework}.

Lemma find_replace_same (rows : list User) (c : nat) (inst : User) :
  pk inst = Some c ->
  find (fun x => opt_nat_eqb (pk x) (Some c))
    (map (fun x => if is_self pk (Some c) x then inst else x) rows)
  = if existsb (is_self pk (Some c)) rows then Some inst else None.
Proof.
  intros Hpk. induction rows as [| x rows IH]; [reflexivity |].
  cbn [map find existsb is_self] in *.
  destruct (opt_nat_eqb (pk x) (Some c)) eqn:E.
  - rewrite Hpk. simpl. now rewrite Nat.eqb_refl.
  - rewrite E. simpl. exact IH.
Qed.

Lemma find_replace_other (rows : list User) (c i : nat) (inst : User) :
  pk inst = Some c -> i <> c ->
  find (fun x => opt_nat_eqb (pk x) (Some i))
    (map (fun x => if is_self pk (Some c) x then inst else x) rows)
  = find (fun x => opt_nat_eqb (pk x) (Some i)) rows.
Proof.
  intros Hpk Hne. induction rows as [| x rows IH]; [reflexivity |].
  cbn [map find is_self] in *.
  destruct (opt_nat_eqb (pk x) (Some c)) eqn:E.
  - apply opt_nat_eqb_eq in E.
    assert (Hx : opt_nat_eqb (pk x) (Some i) = false).
    { rewrite E. simpl. apply Nat.eqb_neq. congruence. }
    assert (Hi : opt_nat_eqb (pk inst) (Some i) = false).
    { rewrite Hpk. simpl. apply Nat.eqb_neq. congruence. }
    rewrite Hx, Hi. exact IH.
  - destruct (opt_nat_eqb (pk x) (Some i)); [reflexivity | exact IH].
Qed.

Lemma find_existsb (rows : list User) (c : nat) (u : User) :
  find (fun x => opt_nat_eqb (pk x) (Some c)) rows = Some u ->
  existsb (is_self pk (Some c)) rows = true /\ pk u = Some c.
Proof.
  intros Hf. split.
  - apply existsb_exists. exists u. apply find_some in Hf. exact Hf.
  - apply find_some in Hf. destruct Hf as [_ Hf]. now apply opt_nat_eqb_eq.
Qed.

(** Saving the instance of a stored user whose role was not changed
    keeps every stored role. *)
Lemma User_save_keeps_roles (st : State) (c : nat) (u inst : User) :
  find (fun x => opt_nat_eqb (pk x) (Some c)) (users st) = Some u ->
  pk inst = Some c ->
  role inst = role u ->
  forall i, stored_role (set_users (snd (User_save (users st) inst)) st) i
            = stored_role st i.
Proof.
  intros Hfind Hpk Hrole i. unfold stored_role, User_save.
  destruct (String.eqb (username inst) "me"); [reflexivity |].
  unfold Model_save. rewrite Hpk.
  destruct (User_violated _ inst); [reflexivity |].
  destruct (find_existsb _ _ _ Hfind) as [Hex _]. rewrite Hex.
  cbn [snd set_users users].
  destruct (Nat.eq_dec i c) as [-> | Hne].
  - rewrite find_replace_same, Hex, Hfind by assumption. simpl. now rewrite Hrole.
  - now rewrite find_replace_other by assumption.
Qed.

(** C4. For every authenticated actor and every payload, whatever
    role it asks for, the PATCH of the self-profile endpoint leaves
    the role stored for the actor as it was (and every other stored
    role as well). *)
Theorem self_patch_keeps_role :
  forall (st : State) (claim : nat) (u : User) (request_data : UserData),
    authenticate st (Some claim) = Return (AuthUser u) ->
    let request := mkRequest PATCH (AuthUser u) in
    let st' := snd (get_self_user_page st request request_data) in
    stored_role st' claim = stored_role st claim /\
    stored_role st claim = Some (role u) /\
    forall i, stored_role st' i = stored_role st i.
Proof.
  intros st claim u request_data Hauth request st'.
  assert (Hfind : find (fun x => opt_nat_eqb (pk x) (Some claim)) (users st) = Some u).
  { unfold authenticate in Hauth.
    destruct (find _ (users st)) as [v |]; [| discriminate].
    destruct (is_active v); [congruence | discriminate]. }
  assert (Hall : forall i, stored_role st' i = stored_role st i).
  { intros i. subst st' request.
    unfold get_self_user_page, get_self_user_page_view.
    cbn [in_methods existsb method method_eqb orb user require check_permissions
         IsAuthenticated has_permission is_authenticated bind decide_of].
    destruct (UserSerializer_run_validation (users st) (Some u) true request_data)
      as [vd | e]; [| reflexivity].
    unfold UserSerializer_save.
    set (inst := UserSerializer_setattrs u _).
    pose proof (User_save_keeps_roles st claim u inst Hfind) as Hkeep.
    destruct (find_existsb _ _ _ Hfind) as [_ Hpk].
    specialize (Hkeep Hpk eq_refl i).
    destruct (User_save (users st) inst) as [[[ret obj] | e] rows]; exact Hkeep. }
  repeat split.
  - apply Hall.
  - unfold stored_role. now rewrite Hfind.
  - exact Hall.
Qed.
End SelfProfile.

(** ** Signup and token exchange *)

Lemma set_users_same (st : State) : set_users (users st) st = st.
Proof. destruct st; reflexivity. Qed.

Lemma CharField_plain (raw : string) :
  CharField false true false (char_validators [] None) (Some raw)
  = if accepted raw then Valid (Some (strip raw))
    else if String.eqb (strip raw) "" then Invalid ["This field may not be blank."]
    else Invalid ["Null characters are not allowed."].
Proof.
  unfold CharField, accepted, char_validators, run_validators,
    ProhibitNullCharactersValidator.
  destruct (String.eqb (strip raw) ""); [reflexivity |].
  simpl. destruct (has_nul (strip raw)); reflexivity.
Qed.

Lemma CharField_username (raw : string) :
  CharField false true false (char_validators [UnicodeUsernameValidator_class] None)
    (Some raw)
  = CharField false true false (char_validators [] None) (Some raw).
Proof. reflexivity. Qed.

Lemma CharField_value (vs : list validator) (raw : string) (v : option string) :
  CharField false true false vs (Some raw) = Valid v ->
  v = Some (strip raw) /\ strip raw <> "".
Proof.
  unfold CharField. destruct (String.eqb_spec (strip raw) ""); [discriminate |].
  destruct (run_validators _ _); [| discriminate].
  intros Heq. inversion Heq. auto.
Qed.

Lemma TokenSerializer_valid_iff (d : TokenData) :
  (exists v, TokenSerializer_run_validation d = Return v) <-> token_fields_valid d.
Proof.
  unfold TokenSerializer_run_validation, token_fields_valid.
  destruct d as [[name |] [code |]]; cbn [td_username td_confirmation_code].
  - rewrite CharField_username, !CharField_plain.
    destruct (accepted name) eqn:En, (accepted code) eqn:Ec; split;
      try (intros _; eauto 6; fail);
      try (intros [v Hv];
           repeat match type of Hv with
                  | context [if ?b then _ else _] => destruct b
                  end; discriminate);
      try (intros [n [c [Hn [Hc [H1 H2]]]]]; inversion Hn; inversion Hc; congruence).
  - rewrite CharField_username, CharField_plain. simpl. split.
    + intros [v Hv].
      repeat match type of Hv with
             | context [if ?b then _ else _] => destruct b
             end; discriminate.
    + intros [n [c [_ [Hc _]]]]. discriminate.
  - simpl. split.
    + intros [v Hv]. discriminate.
    + intros [n [c [Hn _]]]. discriminate.
  - simpl. split.
    + intros [v Hv]. discriminate.
    + intros [n [c [Hn _]]]. discriminate.
Qed.

Lemma TokenSerializer_outcome (d : TokenData) :
  (exists v, TokenSerializer_run_validation d = Return v) \/
  (exists errs, TokenSerializer_run_validation d = Raise (ValidationError errs)).
Proof.
  unfold TokenSerializer_run_validation.
  destruct (CharField _ _ _ _ (td_username d)) as [[u |] |];
    destruct (CharField _ _ _ _ (td_confirmation_code d)) as [[c |] |]; eauto.
Qed.

Section Keys.
Variable key : User -> string.

Lemma unique_key_eq (rows : list User) (x y : User) :
  NoDup (map key rows) -> In x rows -> In y rows -> key x = key y -> x = y.
Proof.
  induction rows as [| z rows IH]; simpl; [tauto |].
  intros Hnd [Hx | Hx] [Hy | Hy] Hk; inversion Hnd as [| k ks Hnot Hnd']; subst.
  - reflexivity.
  - exfalso. apply Hnot. rewrite Hk. now apply in_map.
  - exfalso. apply Hnot. rewrite <- Hk. now apply in_map.
  - now apply IH.
Qed.

Lemma filter_unique_key (rows : list User) (u : User) :
  NoDup (map key rows) -> In u rows ->
  filter (fun x => String.eqb (key x) (key u)) rows = [u].
Proof.
  induction rows as [| z rows IH]; simpl; [tauto |].
  intros Hnd Hin. inversion Hnd as [| k ks Hnot Hnd']; subst.
  assert (Hrest : forall l, ~ In (key u) (map key l) ->
                    filter (fun x => String.eqb (key x) (key u)) l = []).
  { induction l as [| w l IHl]; simpl; [reflexivity |].
    intros Hno. destruct (String.eqb_spec (key w) (key u)) as [E | E].
    - exfalso. apply Hno. now left.
    - apply IHl. tauto. }
  destruct Hin as [-> | Hin].
  - rewrite String.eqb_refl. now rewrite Hrest.
  - destruct (String.eqb_spec (key z) (key u)) as [E | E].
    + exfalso. apply Hnot. rewrite E. now apply in_map.
    + now apply IH.
Qed.
End Keys.

Lemma objects_get_none (f : User -> bool) (rows : list User) :
  (forall x, In x rows -> f x = false) -> objects_get f rows = Raise DoesNotExist.
Proof.
  intros Hf. unfold objects_get.
  assert (E : filter f rows = []).
  { induction rows as [| x rows IH]; simpl; [reflexivity |].
    rewrite (Hf x) by now left. apply IH. intros y Hy. apply Hf. now right. }
  now rewrite E.
Qed.

Section TokenExchange.
Context `{Framework}.

(** C5, as amended. For a request whose username and confirmation
    code both pass field validation (present, not blank once trimmed,
    no NUL): when no user has that username the exchange fails with
    not-found (404); when the user exists and the code does not
    validate, it fails with a validation error (400); when the code
    validates, it answers 200 with that username and the signed access
    token of the user of that username.  A request that fails field
    validation is answered 400 with the field errors, before any
    lookup. *)
Theorem token_exchange :
  forall (now : nat) (st : State) (request_data : TokenData),
    NoDup (map username (users st)) ->
    (forall name code,
       request_data = mkTokenData (Some name) (Some code) ->
       token_fields_valid request_data ->
       ((forall u, In u (users st) -> username u <> name) ->
          token now st request_data = mkResponse 404 Empty) /\
       (forall u, In u (users st) -> username u = name ->
          (check_token now u code = false ->
             token now st request_data = mkResponse 400 (Errors invalid_code_detail)) /\
          (check_token now u code = true ->
             token now st request_data
             = mkResponse 200 (TokenBody name (encode (AccessToken_for_user now u))))))
    /\
    (~ token_fields_valid request_data ->
       exists errs, errs <> [] /\
                    token now st request_data = mkResponse 400 (Errors errs)).
Proof.
  intros now st request_data Hnd. split.
  - intros name code -> Hvalid.
    apply TokenSerializer_valid_iff in Hvalid. destruct Hvalid as [v Hv].
    unfold token, token_view. rewrite Hv. cbn [td_username td_confirmation_code bind].
    split.
    + intros Hnone. unfold get_object_or_404.
      rewrite objects_get_none; [reflexivity |].
      intros x Hx. apply String.eqb_neq. now apply Hnone.
    + intros u Hin Hname. unfold get_object_or_404, objects_get.
      rewrite <- Hname, (filter_unique_key username) by assumption.
      cbn [bind]. split; intros Hc; rewrite Hc; reflexivity.
  - intros Hinvalid.
    destruct (TokenSerializer_outcome request_data) as [Hv | [errs He]].
    + apply TokenSerializer_valid_iff in Hv. contradiction.
    + exists errs. split.
      * intros ->. revert He. unfold TokenSerializer_run_validation.
        destruct (CharField _ _ _ _ (td_username request_data)) as [[u |] |] eqn:E1;
          destruct (CharField _ _ _ _ (td_confirmation_code request_data))
            as [[c |] |] eqn:E2; simpl; try discriminate.
        -- unfold CharField in E2.
           destruct (td_confirmation_code request_data); [| discriminate].
           destruct (String.eqb _ ""); [discriminate |].
           destruct (run_validators _ _); discriminate.
        -- unfold CharField in E1.
           destruct (td_username request_data); [| discriminate].
           destruct (String.eqb _ ""); [discriminate |].
           destruct (run_validators _ _); discriminate.
        -- unfold CharField in E1.
           destruct (td_username request_data); [| discriminate].
           destruct (String.eqb _ ""); [discriminate |].
           destruct (run_validators _ _); discriminate.
      * unfold token, token_view. rewrite He. reflexivity.
Qed.
End TokenExchange.

(** C5, counterexample. No user is called ghost, and the exchange for
    ghost with a blank confirmation code fails with a validation error
    (400) on the field, not with not-found. *)
Lemma token_blank_code_is_not_404 :
  (forall u, In u (users sample_state) -> username u <> "ghost") /\
  token (H := sample_framework) 0 sample_state (mkTokenData (Some "ghost") (Some ""))
  = mkResponse 400 (Errors [("confirmation_code", ["This field may not be blank."])]) /\
  status_code (token (H := sample_framework) 0 sample_state
                 (mkTokenData (Some "ghost") (Some ""))) <> 404.
Proof.
  repeat split.
  - intros u [<- | [<- | []]]; discriminate.
  - discriminate.
Qed.

Section Signup.
Context `{Framework}.

Lemma SignUpSerializer_raises (d : SignUpData) (e : exn) :
  SignUpSerializer_run_validation d = Raise e -> exists errs, e = ValidationError errs.
Proof.
  unfold SignUpSerializer_run_validation, SignUpSerializer_validate.
  destruct (EmailField _ _ _ _ (sd_email d)) as [[m |] |];
    destruct (CharField _ _ _ _ (sd_username d)) as [[n |] |];
    try (intros Heq; inversion Heq; eauto; fail).
  destruct (String.eqb n "me"); simpl; intros Heq; inversion Heq; eauto.
Qed.

Lemma SignUpSerializer_returns (mail name : option string) (m n : string) :
  SignUpSerializer_run_validation (mkSignUpData mail name) = Return (m, n) ->
  (exists raw, mail = Some raw /\ m = strip raw) /\
  (exists raw, name = Some raw /\ n = strip raw) /\
  n <> "me".
Proof.
  unfold SignUpSerializer_run_validation, SignUpSerializer_validate, EmailField.
  cbn [sd_email sd_username].
  destruct (CharField _ _ _ _ mail) as [[m' |] |] eqn:Em; try discriminate.
  destruct (CharField _ _ _ _ name) as [[n' |] |] eqn:En; try discriminate.
  destruct (String.eqb_spec n' "me"); simpl; [discriminate |].
  intros Heq. inversion Heq; subst.
  destruct mail as [rawm |]; [| discriminate Em].
  destruct name as [rawn |]; [| discriminate En].
  apply CharField_value in Em, En. destruct Em as [Em _], En as [En _].
  inversion Em; inversion En. repeat split; eauto. congruence.
Qed.

(** C6. For every e-mail value, valid, invalid or absent, a signup
    request with username "me" fails with a validation error (status
    400); the store is left as it was: no user is created and no
    mail is sent. *)
Theorem signup_me_rejected :
  forall (now : nat) (st : State) (mail : option string),
    let result := signup now st (mkSignUpData mail (Some "me")) in
    status_code (fst result) = 400 /\
    (exists errs, SignUpSerializer_run_validation (mkSignUpData mail (Some "me"))
                  = Raise (ValidationError errs) /\
                  data (fst result) = Errors errs) /\
    snd result = st.
Proof.
  intros now st mail result. subst result. unfold signup, signup_view.
  destruct (SignUpSerializer_run_validation (mkSignUpData mail (Some "me")))
    as [[m n] | e] eqn:E.
  - apply SignUpSerializer_returns in E.
    destruct E as [_ [[raw [Hraw Hn]] Hme]]. inversion Hraw; subst. now elim Hme.
  - destruct (SignUpSerializer_raises _ _ E) as [errs ->].
    simpl. repeat split. exists errs. split; reflexivity.
Qed.

Lemma no_exact_match (rows : list User) (name mail : string) :
  users_unique rows -> pair_conflicts rows name mail ->
  forall x, In x rows ->
    String.eqb (username x) name && String.eqb (email x) mail = false.
Proof.
  intros [Hnames Hmails] [y [Hy Hc]] x Hx.
  destruct (String.eqb_spec (username x) name) as [En | En]; [| reflexivity].
  destruct (String.eqb_spec (email x) mail) as [Em | Em]; [| reflexivity].
  exfalso. destruct Hc as [[Hn Hm] | [Hm Hn]].
  - assert (x = y) by (apply (unique_key_eq username rows); congruence).
    subst y. contradiction.
  - assert (x = y) by (apply (unique_key_eq email rows); congruence).
    subst y. contradiction.
Qed.

Lemma conflicting_insert_refused (rows : list User) (name mail : string) :
  pair_conflicts rows name mail -> name <> "me" ->
  exists c, User_objects_create rows name mail = (Raise (IntegrityError c), rows).
Proof.
  intros [y [Hy Hc]] Hme. unfold User_objects_create, User_save, new_User.
  cbn [username]. apply String.eqb_neq in Hme. rewrite Hme.
  unfold Model_save. cbn [pk is_self negb]. rewrite filter_all.
  unfold User_violated. cbn [username email].
  destruct (existsb (fun x => String.eqb (username x) name) rows) eqn:E1;
    [eexists; reflexivity |].
  destruct (existsb (fun x => String.eqb (email x) mail) rows) eqn:E2;
    [eexists; reflexivity |].
  exfalso. destruct Hc as [[Hn _] | [Hm _]].
  - assert (existsb (fun x => String.eqb (username x) name) rows = true).
    { apply existsb_exists. exists y. split; [assumption |]. now apply String.eqb_eq. }
    congruence.
  - assert (existsb (fun x => String.eqb (email x) mail) rows = true).
    { apply existsb_exists. exists y. split; [assumption |]. now apply String.eqb_eq. }
    congruence.
Qed.

(** Signup keeps the user table within its unique constraints. *)
Lemma User_objects_create_rows (rows : list User) (name mail : string) :
  snd (User_objects_create rows name mail) = rows \/
  exists u, snd (User_objects_create rows name mail) = rows ++ [u] /\
            username u = name /\ email u = mail /\
            ~ In name (map username rows) /\ ~ In mail (map email rows).
Proof.
  unfold User_objects_create, User_save, new_User. cbn [username].
  destruct (String.eqb name "me"); [now left |].
  unfold Model_save. cbn [pk is_self negb existsb]. rewrite filter_all, existsb_none.
  unfold User_violated. cbn [username email].
  destruct (existsb (fun x => String.eqb (username x) name) rows) eqn:E1; [now left |].
  destruct (existsb (fun x => String.eqb (email x) mail) rows) eqn:E2; [now left |].
  destruct (String.eqb name "me"); [now left |].
  right. eexists. cbn [snd]. split; [reflexivity |]. repeat split.
  - intros Hin. apply in_map_iff in Hin. destruct Hin as [x [Hx Hin]].
    assert (existsb (fun x => String.eqb (username x) name) rows = true).
    { apply existsb_exists. exists x. split; [assumption |]. now apply String.eqb_eq. }
    congruence.
  - intros Hin. apply in_map_iff in Hin. destruct Hin as [x [Hx Hin]].
    assert (existsb (fun x => String.eqb (email x) mail) rows = true).
    { apply existsb_exists. exists x. split; [assumption |]. now apply String.eqb_eq. }
    congruence.
Qed.

Lemma signup_keeps_users_unique (now : nat) (st : State) (d : SignUpData) :
  users_unique (users st) ->
  users_unique (users (snd (signup now st d))).
Proof.
  intros Huniq. unfold signup, signup_view.
  destruct (SignUpSerializer_run_validation d) as [[m n] | e]; [| assumption].
  assert (Hrows : users_unique (snd (User_objects_get_or_create (users st) n m))).
  { unfold User_objects_get_or_create.
    destruct (objects_get _ (users st)) as [u | []]; try assumption.
    pose proof (User_objects_create_rows (users st) n m) as Hcreate.
    destruct (User_objects_create (users st) n m) as [[obj | e] rows'];
      cbn [snd] in Hcreate.
    - cbn [snd]. destruct Hcreate as [-> | [u [-> [Hn [Hm [Hfn Hfm]]]]]]; [assumption |].
      destruct Huniq as [Hnames Hmails]. split; rewrite map_app; cbn [map].
      + apply NoDup_app; [assumption | repeat constructor; simpl; tauto |].
        intros k Hin [<- | []]. congruence.
      + apply NoDup_app; [assumption | repeat constructor; simpl; tauto |].
        intros k Hin [<- | []]. congruence.
    - assert (Hsame : users_unique rows').
      { destruct Hcreate as [-> | [u [-> [Hn [Hm [Hfn Hfm]]]]]]; [assumption |].
        destruct Huniq as [Hnames Hmails]. split; rewrite map_app; cbn [map].
        + apply NoDup_app; [assumption | repeat constructor; simpl; tauto |].
          intros k Hin [<- | []]. congruence.
        + apply NoDup_app; [assumption | repeat constructor; simpl; tauto |].
          intros k Hin [<- | []]. congruence. }
      destruct e; cbn [snd]; try assumption.
      destruct (objects_get _ rows') as [u | []]; assumption. }
  destruct (User_objects_get_or_create (users st) n m) as [[u | e] rows];
    cbn [snd] in Hrows; [assumption |].
  destruct e; assumption.
Qed.

(** C9. When the user table satisfies its unique constraints and the
    submitted pair, as validated, clashes with a stored user on the
    username alone or on the e-mail alone, signup answers 400 and
    the store is left as it was. *)
Theorem signup_conflict_rejected :
  forall (now : nat) (st : State) (name mail : string),
    users_unique (users st) ->
    pair_conflicts (users st) (strip name) (strip mail) ->
    let result := signup now st (mkSignUpData (Some mail) (Some name)) in
    status_code (fst result) = 400 /\ snd result = st.
Proof.
  intros now st name mail Huniq Hconf result. subst result.
  unfold signup, signup_view.
  destruct (SignUpSerializer_run_validation (mkSignUpData (Some mail) (Some name)))
    as [[m n] | e] eqn:E.
  - apply SignUpSerializer_returns in E.
    destruct E as [[rm [Hrm Hm]] [[rn [Hrn Hn]] Hme]].
    inversion Hrm; inversion Hrn; subst rm rn. subst m n.
    unfold User_objects_get_or_create.
    rewrite (objects_get_none _ (users st))
      by (apply no_exact_match; assumption).
    destruct (conflicting_insert_refused _ _ _ Hconf Hme) as [c Hc].
    rewrite Hc.
    rewrite (objects_get_none _ (users st))
      by (apply no_exact_match; assumption).
    simpl. now rewrite set_users_same.
  - destruct (SignUpSerializer_raises _ _ E) as [errs ->]. simpl. auto.
Qed.
End Signup.

(** ** Saving users, categories and genres *)

(** C7. [User.save] on a user named "me" does not surface a validation
    error: it hands the error object back as the value of the call,
    nothing is raised, and the store is left as it was. *)
Theorem User_save_me_returns_the_error :
  forall (rows : list User) (p : option nat) (f l e b : string) (a s : bool)
         (r : string),
    let self := mkUser p "me" f l e b a s r in
    User_save rows self
    = (Return (PyExc (DjangoValidationError "Username не может быть 'me'."), self),
       rows).
Proof. reflexivity. Qed.

(** Through the API: renaming oneself to "me" is answered 200 and the
    store keeps the old name. *)
Example patch_username_me :
  get_self_user_page (H := sample_framework) sample_state
    (mkRequest PATCH (AuthUser bob))
    (mkUserData (Some "me") None None None None None)
  = (mkResponse 200
       (UserBody (mkUser (Some 1) "me" "" "" "bob@example.org" "" true false "user")),
     sample_state).
Proof. reflexivity. Qed.

(** The store itself refuses a row named "me", whatever reaches it. *)
Lemma store_refuses_me (rows : list User) (u : User) :
  username u = "me" ->
  exists c, Model_save pk set_user_pk User_violated rows u
            = (Raise (IntegrityError c), rows).
Proof.
  intros Hme. unfold Model_save, User_violated. rewrite Hme.
  destruct (existsb _ _); [eexists; reflexivity |].
  destruct (existsb _ _); [eexists; reflexivity |].
  simpl. eexists; reflexivity.
Qed.

Section Slugs.
Context `{Framework}.

(** C8. Saving a Category or a Genre without a slug does not derive
    one: the expression adds the function [rand_slug] to a string,
    the save raises [TypeError] and stores nothing. *)
Theorem save_without_slug_raises :
  forall (cs : list Category) (gs : list Genre) (p : option nat) (name : string),
    Category_save cs (mkCategory p name "")
    = (Raise (TypeError "unsupported operand type(s) for +"), cs) /\
    Genre_save gs (mkGenre p name "")
    = (Raise (TypeError "unsupported operand type(s) for +"), gs).
Proof. intros cs gs p name. split; reflexivity. Qed.

(** A record that comes with a slug is saved as it is. *)
Lemma Category_save_keeps_slug (cs : list Category) (c saved : Category) :
  category_slug c <> "" ->
  fst (Category_save cs c) = Return saved ->
  category_slug saved = category_slug c /\ category_name saved = category_name c /\
  In saved (snd (Category_save cs c)).
Proof.
  intros Hslug. unfold Category_save. apply String.eqb_neq in Hslug.
  rewrite Hslug. unfold Model_save.
  destruct (Category_violated _ c); [discriminate |].
  destruct (existsb _ cs) eqn:Hex; cbn [fst snd]; intros Heq; inversion Heq; subst.
  - repeat split. apply existsb_exists in Hex. destruct Hex as [x [Hin Hx]].
    apply in_map_iff. exists x. rewrite Hx. auto.
  - destruct (category_pk c); repeat split; apply in_or_app; right; now left.
Qed.

Lemma Genre_save_keeps_slug (gs : list Genre) (g saved : Genre) :
  genre_slug g <> "" ->
  fst (Genre_save gs g) = Return saved ->
  genre_slug saved = genre_slug g /\ genre_name saved = genre_name g /\
  In saved (snd (Genre_save gs g)).
Proof.
  intros Hslug. unfold Genre_save. apply String.eqb_neq in Hslug.
  rewrite Hslug. unfold Model_save.
  destruct (Genre_violated _ g); [discriminate |].
  destruct (existsb _ gs) eqn:Hex; cbn [fst snd]; intros Heq; inversion Heq; subst.
  - repeat split. apply existsb_exists in Hex. destruct Hex as [x [Hin Hx]].
    apply in_map_iff. exists x. rewrite Hx. auto.
  - destruct (genre_pk g); repeat split; apply in_or_app; right; now left.
Qed.
End Slugs.

Example Category_save_with_slug :
  Category_save (H := sample_framework) [] (mkCategory None "Films" "films")
  = (Return (mkCategory (Some 1) "Films" "films"), [mkCategory (Some 1) "Films" "films"]).
Proof. reflexivity. Qed.

(** ** Deleting a genre *)

(** C10. Deleting a genre deletes no row of the Genre-Title join: the
    rows, their keys and their titles stay, each row that referred to
    the genre has its genre reference set to null and every other row
    is untouched; deleting a title, by contrast, removes the join rows
    of that title. *)
Theorem Genre_delete_nulls_join_rows :
  forall (st : State) (g : nat),
    let rows := genre_titles st in
    let rows' := genre_titles (Genre_delete g st) in
    List.length rows' = List.length rows /\
    map gt_pk rows' = map gt_pk rows /\
    map gt_title rows' = map gt_title rows /\
    (forall x, In x rows -> gt_genre x = Some g -> In (clear_genre x) rows') /\
    (forall x, In x rows -> gt_genre x <> Some g -> In x rows') /\
    (forall x, In x rows' -> gt_genre x <> Some g) /\
    (forall t x, In x (genre_titles (Title_delete t st)) <-> In x rows /\ gt_title x <> t).
Proof.
  intros st g rows rows'. subst rows'. unfold Genre_delete. cbn [genre_titles].
  unfold GenreTitle_genre_on_delete, apply_on_delete. fold rows.
  assert (Hrefers : forall x, refers gt_genre g x = true <-> gt_genre x = Some g).
  { intros x. unfold refers. apply opt_nat_eqb_eq. }
  assert (Htitle : forall t x, In x (genre_titles (Title_delete t st)) <->
                               In x rows /\ gt_title x <> t).
  { intros t x. unfold Title_delete. cbn [genre_titles].
    unfold GenreTitle_title_on_delete, apply_on_delete, refers. fold rows.
    rewrite filter_In. cbn [opt_nat_eqb]. rewrite negb_true_iff, Nat.eqb_neq.
    reflexivity. }
  repeat match goal with |- _ /\ _ => split end.
  - apply length_map.
  - rewrite map_map. apply map_ext. intros x. now destruct (refers gt_genre g x).
  - rewrite map_map. apply map_ext. intros x. now destruct (refers gt_genre g x).
  - intros x Hin Hg. apply in_map_iff. exists x. split; [| assumption].
    apply Hrefers in Hg. now rewrite Hg.
  - intros x Hin Hg. apply in_map_iff. exists x. split; [| assumption].
    destruct (refers gt_genre g x) eqn:E; [| reflexivity].
    apply Hrefers in E. contradiction.
  - intros x Hin. apply in_map_iff in Hin. destruct Hin as [y [Hy Hin]].
    destruct (refers gt_genre g y) eqn:E; subst x.
    + discriminate.
    + intros Hg. apply Hrefers in Hg. congruence.
  - exact Htitle.
Qed.

(** ** The operations at work on a sample store *)

Example signup_new_user :
  let '(response, st) := signup (H := sample_framework) 3 sample_state
                           (mkSignUpData (Some "zed@example.org") (Some " zed ")) in
  response = mkResponse 200 (SignUpBody "zed@example.org" "zed") /\
  map username (users st) = ["bob"; "eve"; "zed"] /\
  map pk (users st) = [Some 1; Some 2; Some 3] /\
  map mail_to (outbox st) = ["zed@example.org"].
Proof. repeat split. Qed.

Example signup_again :
  let '(response, st) := signup (H := sample_framework) 3 sample_state
                           (mkSignUpData (Some "bob@example.org") (Some "bob")) in
  response = mkResponse 200 (SignUpBody "bob@example.org" "bob") /\
  users st = users sample_state /\
  map mail_to (outbox st) = ["bob@example.org"].
Proof. repeat split. Qed.

Example token_wrong_code :
  token (H := sample_framework) 0 sample_state (mkTokenData (Some "bob") (Some "guess"))
  = mkResponse 400 (Errors invalid_code_detail).
Proof. reflexivity. Qed.

Example review_created :
  let '(response, st) := ReviewViewSet_create 5 sample_state
                           (mkRequest POST (AuthUser eve)) 1
                           (mkReviewData (Some "good") (Some 10%Z)) in
  status_code response = 201 /\
  map review_key (reviews st) = [(1, 1); (2, 1)] /\
  ReadTitleSerializer_rating st 1 = Some 9%Z.
Proof. repeat split. Qed.

Example review_by_anonymous :
  ReviewViewSet_create 5 sample_state (mkRequest POST AnonymousUser) 1
    (mkReviewData (Some "good") (Some 10%Z))
  = (mkResponse 401 Empty, sample_state).
Proof. reflexivity. Qed.

Example patch_bio :
  let '(response, st) := get_self_user_page (H := sample_framework) sample_state
                           (mkRequest PATCH (AuthUser bob))
                           (mkUserData None None None None (Some "reader") (Some "admin")) in
  status_code response = 200 /\
  map bio (users st) = ["reader"; ""] /\
  map role (users st) = ["user"; "moderator"].
Proof. repeat split. Qed.

Lemma sample_users_unique : users_unique (users sample_state).
Proof.
  split; simpl; repeat constructor; simpl; intuition discriminate.
Qed.

Lemma sample_reviews_unique : one_review_per_pair (reviews sample_state).
Proof. unfold one_review_per_pair. simpl. repeat constructor. simpl. tauto. Qed.

(** C2 at work: bob has reviewed title 1 and posts a second review. *)
Lemma one_review_per_author_and_title_witness :
  pk bob = Some 1 /\
  one_review_per_pair (reviews sample_state) /\
  review_exists (reviews sample_state) 1 1 = true /\
  snd (ReviewViewSet_create 5 sample_state (mkRequest POST (AuthUser bob)) 1
         (mkReviewData (Some "again") (Some 9%Z))) = sample_state /\
  fst (ReviewViewSet_create 5 sample_state (mkRequest POST (AuthUser bob)) 1
         (mkReviewData (Some "again") (Some 9%Z)))
  = mkResponse 400 (Errors conflict_detail).
Proof.
  split; [reflexivity |]. split; [exact sample_reviews_unique |].
  split; [reflexivity |].
  destruct (one_review_per_author_and_title 5 sample_state bob 1 1
              (mkReviewData (Some "again") (Some 9%Z)) eq_refl sample_reviews_unique)
    as [_ Hdup].
  destruct (Hdup eq_refl) as [Hst [_ [Hmsg _]]].
  split; [exact Hst |]. apply Hmsg.
  exists "again", 9%Z. split; reflexivity.
Defined.

(** C4 at work: bob asks for the role admin. *)
Lemma self_patch_keeps_role_witness :
  authenticate sample_state (Some 1) = Return (AuthUser bob) /\
  stored_role
    (snd (get_self_user_page (H := sample_framework) sample_state
            (mkRequest PATCH (AuthUser bob))
            (mkUserData None None None None None (Some "admin")))) 1
  = stored_role sample_state 1.
Proof.
  split; [reflexivity |].
  apply (@self_patch_keeps_role sample_framework sample_state 1 bob
           (mkUserData None None None None None (Some "admin")) eq_refl).
Defined.

(** C5 at work: bob exchanges the code he was sent. *)
Lemma token_exchange_witness :
  NoDup (map username (users sample_state)) /\
  token (H := sample_framework) 0 sample_state
    (mkTokenData (Some "bob") (Some "code-bob-bob@example.org"))
  = mkResponse 200 (TokenBody "bob" "jwt.bob").
Proof.
  split; [exact (proj1 sample_users_unique) |].
  destruct (@token_exchange sample_framework 0 sample_state
              (mkTokenData (Some "bob") (Some "code-bob-bob@example.org"))
              (proj1 sample_users_unique)) as [Hvalid _].
  assert (Hok : token_fields_valid
                  (mkTokenData (Some "bob") (Some "code-bob-bob@example.org"))).
  { exists "bob", "code-bob-bob@example.org". repeat split. }
  destruct (Hvalid "bob" "code-bob-bob@example.org" eq_refl Hok) as [_ Huser].
  destruct (Huser bob (or_introl eq_refl) eq_refl) as [_ Hgood].
  exact (Hgood eq_refl).
Defined.

(** C9 at work: the name bob with another address. *)
Lemma signup_conflict_rejected_witness :
  users_unique (users sample_state) /\
  pair_conflicts (users sample_state) (strip "bob") (strip "other@example.org") /\
  status_code (fst (signup (H := sample_framework) 3 sample_state
                      (mkSignUpData (Some "other@example.org") (Some "bob")))) = 400 /\
  snd (signup (H := sample_framework) 3 sample_state
         (mkSignUpData (Some "other@example.org") (Some "bob"))) = sample_state.
Proof.
  assert (Hc : pair_conflicts (users sample_state) (strip "bob") (strip "other@example.org")).
  { exists bob. split; [now left |]. left. split; [reflexivity | discriminate]. }
  split; [exact sample_users_unique |]. split; [exact Hc |].
  exact (@signup_conflict_rejected sample_framework 3 sample_state "bob"
           "other@example.org" sample_users_unique Hc).
Defined.

(** * Further properties of the code *)

(** The key of a new row is held by no row of the table. *)
Lemma next_pk_bound {R : Type} (get_pk : R -> option nat) (rows : list R) (x : R)
    (i : nat) :
  In x rows -> get_pk x = Some i -> i < next_pk get_pk rows.
Proof.
  unfold next_pk. induction rows as [| y rows IH]; [intros [] |].
  intros [-> | Hin] Hx; cbn [fold_right].
  - rewrite Hx. lia.
  - specialize (IH Hin Hx). destruct (get_pk y); lia.
Qed.

Lemma next_pk_fresh {R : Type} (get_pk : R -> option nat) (rows : list R) :
  ~ In (Some (next_pk get_pk rows)) (map get_pk rows).
Proof.
  intros Hin. apply in_map_iff in Hin. destruct Hin as [x [Hx Hin]].
  pose proof (next_pk_bound get_pk rows x _ Hin Hx). lia.
Qed.

(** ** reviews/models.py *)

Lemma alphabet_chars (k : nat) :
  k < 62 ->
  exists c, String.get k ascii_letters_digits = Some c /\ is_slug_char c = true.
Proof.
  intros Hk.
  do 62 (destruct k as [| k]; [eexists; split; reflexivity |]).
  lia.
Qed.

Lemma random_choice_char (n : nat) :
  exists c, random_choice ascii_letters_digits n = String c EmptyString /\
            is_slug_char c = true.
Proof.
  unfold random_choice.
  assert (Hk : n mod String.length ascii_letters_digits < 62).
  { change (String.length ascii_letters_digits) with 62.
    apply Nat.mod_upper_bound. discriminate. }
  destruct (alphabet_chars _ Hk) as [c [Hc Hs]].
  exists c. now rewrite Hc.
Qed.

(** X1. Whatever the generator draws, [rand_slug] returns six
    characters, each a letter or a digit, so the result matches the
    pattern of a slug field. *)
Theorem rand_slug_is_a_slug :
  forall draw : nat -> nat,
    String.length (rand_slug draw) = 6 /\
    (forall c, In c (list_ascii_of_string (rand_slug draw)) -> is_slug_char c = true) /\
    slug_pattern (rand_slug draw) = true.
Proof.
  intros draw. unfold rand_slug. cbn [seq map].
  destruct (random_choice_char (draw 0)) as [c0 [-> H0]].
  destruct (random_choice_char (draw 1)) as [c1 [-> H1]].
  destruct (random_choice_char (draw 2)) as [c2 [-> H2]].
  destruct (random_choice_char (draw 3)) as [c3 [-> H3]].
  destruct (random_choice_char (draw 4)) as [c4 [-> H4]].
  destruct (random_choice_char (draw 5)) as [c5 [-> H5]].
  cbn [String.concat String.append String.length list_ascii_of_string].
  split; [reflexivity |]. split.
  - intros c [<- | [<- | [<- | [<- | [<- | [<- | []]]]]]]; assumption.
  - cbn [slug_pattern slug_rest]. now rewrite H0, H1, H2, H3, H4, H5.
Qed.

(** X3. The permission classes agree with the role properties of the
    model: for a stored user, [IsAdmin] grants exactly when [is_admin]
    holds, and a write on one review or comment is granted exactly to
    its author, to a moderator ([is_moderator]) and to an admin
    ([is_admin]). *)
Theorem permissions_follow_role_properties :
  forall (u : User) (m : http_method) (author_id : nat),
    has_permission IsAdmin (mkRequest m (AuthUser u)) = Return (is_admin u) /\
    (in_methods m SAFE_METHODS = false ->
     has_permission IsAdminOrReadOnly (mkRequest m (AuthUser u)) = Return (is_admin u) /\
     has_object_permission OwnerAdminModeratorOrReadOnly (mkRequest m (AuthUser u))
       author_id
     = Return (author_eq author_id (AuthUser u) || is_moderator u || is_admin u)).
Proof.
  intros u m author_id. unfold is_admin, is_moderator. split.
  - cbn -[String.eqb]. destruct (String.eqb (role u) UserRole.ADMIN), (is_superuser u);
      reflexivity.
  - intros Hm. cbn -[in_methods String.eqb author_eq]. rewrite Hm.
    cbn -[String.eqb author_eq]. split.
    + destruct (String.eqb (role u) UserRole.ADMIN), (is_superuser u); reflexivity.
    + destruct (author_eq author_id (AuthUser u)),
        (String.eqb (role u) UserRole.MODERATOR),
        (String.eqb (role u) UserRole.ADMIN), (is_superuser u); reflexivity.
Qed.

(** ** What a delete takes along *)

Lemma not_pk_In {R : Type} (get_pk : R -> option nat) (rows : list R) (i : nat) (x : R) :
  In x (filter (not_pk get_pk i) rows) <-> In x rows /\ get_pk x <> Some i.
Proof.
  rewrite filter_In. unfold not_pk. rewrite negb_true_iff. split; intros [Hin H]; split;
    try assumption.
  - intros E. apply opt_nat_eqb_eq in E. congruence.
  - destruct (opt_nat_eqb (get_pk x) (Some i)) eqn:E; [| reflexivity].
    apply opt_nat_eqb_eq in E. contradiction.
Qed.

Lemma cascade_In {R : Type} (fk : R -> nat) (i : nat) (rows : list R) (x : R) :
  In x (apply_on_delete CASCADE (fun y => Some (fk y)) (fun y => y) i rows)
  <-> In x rows /\ fk x <> i.
Proof.
  unfold apply_on_delete, refers. rewrite filter_In. cbn [opt_nat_eqb].
  now rewrite negb_true_iff, Nat.eqb_neq.
Qed.

Lemma cascade_comments_In (victims : list Review) (cs : list Comment) (c : Comment) :
  In c (cascade_comments victims cs) <->
  In c cs /\ forall v, In v victims -> review_pk v <> Some (review c).
Proof.
  induction victims as [| v victims IH]; cbn [cascade_comments fold_right].
  - split; [intros H; split; [assumption | intros v []] | tauto].
  - fold (cascade_comments victims cs). destruct (review_pk v) as [i |] eqn:Hv.
    + unfold Comment_review_on_delete. rewrite cascade_In, IH. split.
      * intros [[Hin Hall] Hne]. split; [assumption |].
        intros w [<- | Hw]; [rewrite Hv; congruence | now apply Hall].
      * intros [Hin Hall]. repeat split; try assumption.
        -- intros w Hw. apply Hall. now right.
        -- intros E. apply (Hall v); [now left |]. rewrite Hv. now rewrite E.
    + rewrite IH. split; intros [Hin Hall]; split; try assumption.
      * intros w [<- | Hw]; [rewrite Hv; discriminate | now apply Hall].
      * intros w Hw. apply Hall. now right.
Qed.

Lemma has_pk_filter {R : Type} (get_pk : R -> option nat) (rows : list R) (i j : nat) :
  has_pk get_pk rows j -> j <> i -> has_pk get_pk (filter (not_pk get_pk i) rows) j.
Proof.
  intros [x [Hin Hx]] Hne. exists x. split; [| assumption].
  apply not_pk_In. split; [assumption |]. rewrite Hx. congruence.
Qed.

Lemma has_pk_map {R : Type} (get_pk : R -> option nat) (f : R -> R) (rows : list R)
    (j : nat) :
  (forall x, get_pk (f x) = get_pk x) ->
  has_pk get_pk rows j -> has_pk get_pk (map f rows) j.
Proof.
  intros Hf [x [Hin Hx]]. exists (f x). split; [now apply in_map | now rewrite Hf].
Qed.

(** X4. Deleting a category deletes no title: the titles keep their
    number, keys, names and years, each title of the category has its
    category reference set to null and every other title is untouched;
    genres, reviews and comments are left as they were. *)
Theorem Category_delete_nulls_titles :
  forall (st : State) (c : nat),
    let st' := Category_delete c st in
    List.length (titles st') = List.length (titles st) /\
    map title_pk (titles st') = map title_pk (titles st) /\
    map title_name (titles st') = map title_name (titles st) /\
    (forall t, In t (titles st) -> category t = Some c ->
       In (clear_category t) (titles st')) /\
    (forall t, In t (titles st) -> category t <> Some c -> In t (titles st')) /\
    (forall t, In t (titles st') -> category t <> Some c) /\
    (forall x, In x (categories st') <-> In x (categories st) /\ category_pk x <> Some c) /\
    genre_titles st' = genre_titles st /\ reviews st' = reviews st /\
    comments st' = comments st.
Proof.
  intros st c st'. subst st'. unfold Category_delete. cbn [titles categories
    genre_titles reviews comments].
  unfold Title_category_on_delete, apply_on_delete. fold clear_category.
  assert (Hrefers : forall t, refers category c t = true <-> category t = Some c).
  { intros t. unfold refers. apply opt_nat_eqb_eq. }
  repeat match goal with |- _ /\ _ => split end; try reflexivity.
  - apply length_map.
  - rewrite map_map. apply map_ext. intros t. now destruct (refers category c t).
  - rewrite map_map. apply map_ext. intros t. now destruct (refers category c t).
  - intros t Hin Hc. apply in_map_iff. exists t. split; [| assumption].
    apply Hrefers in Hc. now rewrite Hc.
  - intros t Hin Hc. apply in_map_iff. exists t. split; [| assumption].
    destruct (refers category c t) eqn:E; [| reflexivity].
    apply Hrefers in E. contradiction.
  - intros t Hin. apply in_map_iff in Hin. destruct Hin as [y [Hy Hin]].
    destruct (refers category c y) eqn:E; subst t.
    + discriminate.
    + intros Hc. apply Hrefers in Hc. congruence.
  - intros x. apply not_pk_In.
Qed.

Lemma deletes_cascade_facts (st : State) (t : nat) :
  (forall x, In x (reviews (Title_delete t st)) <-> In x (reviews st) /\ title x <> t) /\
  (forall c, In c (comments (Title_delete t st)) <->
     In c (comments st) /\
     forall v, In v (reviews st) -> title v = t -> review_pk v <> Some (review c)).
Proof.
  split.
  - intros x. unfold Title_delete. cbn [reviews]. apply cascade_In.
  - intros c. unfold Title_delete. cbn [comments]. rewrite cascade_comments_In.
    split; intros [Hin Hall]; split; try assumption.
    + intros v Hv Ht. apply Hall. apply filter_In. split; [assumption |].
      unfold refers. cbn [opt_nat_eqb]. now apply Nat.eqb_eq.
    + intros v Hv. apply filter_In in Hv. destruct Hv as [Hv Ht].
      unfold refers in Ht. cbn [opt_nat_eqb] in Ht. apply Nat.eqb_eq in Ht.
      now apply Hall.
Qed.

(** X5. Deleting a title removes exactly its reviews and exactly the
    comments of those reviews; deleting a review removes exactly its
    comments; users, categories and genres are left as they were. *)
Theorem deletes_cascade :
  forall (st : State) (t r : nat),
    (forall x, In x (reviews (Title_delete t st)) <-> In x (reviews st) /\ title x <> t) /\
    (forall c, In c (comments (Title_delete t st)) <->
       In c (comments st) /\
       forall v, In v (reviews st) -> title v = t -> review_pk v <> Some (review c)) /\
    (forall x, In x (reviews (Review_delete r st)) <->
       In x (reviews st) /\ review_pk x <> Some r) /\
    (forall c, In c (comments (Review_delete r st)) <-> In c (comments st) /\ review c <> r) /\
    users (Title_delete t st) = users st /\ users (Review_delete r st) = users st /\
    categories (Title_delete t st) = categories st /\
    genres (Title_delete t st) = genres st /\
    titles (Review_delete r st) = titles st.
Proof.
  intros st t r. destruct (deletes_cascade_facts st t) as [Hr Hc].
  repeat match goal with |- _ /\ _ => split end; try reflexivity.
  - exact Hr.
  - exact Hc.
  - intros x. unfold Review_delete. cbn [reviews]. apply not_pk_In.
  - intros c. unfold Review_delete. cbn [comments]. apply cascade_In.
Qed.

Lemma references_after_Title_delete (st : State) (t : nat) :
  references_hold st -> references_hold (Title_delete t st).
Proof.
  intros [Hrev [Hcom [Hgt Htit]]].
  destruct (deletes_cascade_facts st t) as [Hr Hc].
  split; [| split; [| split]].
  - intros r H. apply Hr in H. destruct H as [Hin Hne].
    destruct (Hrev r Hin) as [Ht Ha]. split; [| exact Ha].
    unfold Title_delete. cbn [titles]. now apply has_pk_filter.
  - intros c H. apply Hc in H. destruct H as [Hin Hall].
    destruct (Hcom c Hin) as [[y [Hy Hpk]] Ha]. split; [| exact Ha].
    exists y. split; [| assumption]. apply Hr. split; [assumption |].
    intros Ht. now apply (Hall y Hy Ht).
  - intros x H. unfold Title_delete in *. cbn [genre_titles titles genres] in *.
    unfold GenreTitle_title_on_delete in H. apply cascade_In in H.
    destruct H as [Hin Hne]. destruct (Hgt x Hin) as [Ht Hg]. split; [| exact Hg].
    now apply has_pk_filter.
  - intros x H c Hc'. unfold Title_delete in *. cbn [titles categories] in *.
    apply not_pk_In in H. destruct H as [Hin _]. now apply (Htit x Hin).
Qed.

Lemma references_after_Review_delete (st : State) (r : nat) :
  references_hold st -> references_hold (Review_delete r st).
Proof.
  intros [Hrev [Hcom [Hgt Htit]]]. unfold Review_delete.
  split; [| split; [| split]]; cbn [reviews comments genre_titles titles users
    genres categories].
  - intros x H. apply not_pk_In in H. destruct H as [Hin _]. now apply Hrev.
  - intros c H. unfold Comment_review_on_delete in H. apply cascade_In in H.
    destruct H as [Hin Hne]. destruct (Hcom c Hin) as [Hr Ha]. split; [| exact Ha].
    now apply has_pk_filter.
  - exact Hgt.
  - exact Htit.
Qed.

Lemma references_after_Comment_delete (st : State) (c : nat) :
  references_hold st -> references_hold (Comment_delete c st).
Proof.
  intros [Hrev [Hcom [Hgt Htit]]]. unfold Comment_delete, set_comments.
  split; [| split; [| split]]; cbn [reviews comments genre_titles titles users
    genres categories]; try assumption.
  intros x H. apply not_pk_In in H. destruct H as [Hin _]. now apply Hcom.
Qed.

Lemma references_after_User_delete (st : State) (u : nat) :
  references_hold st -> references_hold (User_delete u st).
Proof.
  intros [Hrev [Hcom [Hgt Htit]]]. unfold User_delete.
  split; [| split; [| split]]; cbn [reviews comments genre_titles titles users
    genres categories]; try assumption.
  - intros x H. unfold Review_author_on_delete in H. apply cascade_In in H.
    destruct H as [Hin Hne]. destruct (Hrev x Hin) as [Ht Ha]. split; [exact Ht |].
    now apply has_pk_filter.
  - intros c H. unfold Comment_author_on_delete in H. apply cascade_In in H.
    destruct H as [H Hne]. apply cascade_comments_In in H. destruct H as [Hin Hall].
    destruct (Hcom c Hin) as [[y [Hy Hpk]] Ha]. split; [| now apply has_pk_filter].
    exists y. split; [| assumption]. unfold Review_author_on_delete.
    apply cascade_In. split; [assumption |].
    intros Hau. apply (Hall y); [| assumption].
    apply filter_In. split; [assumption |]. unfold refers. cbn [opt_nat_eqb].
    now apply Nat.eqb_eq.
Qed.

Lemma references_after_Genre_delete (st : State) (g : nat) :
  references_hold st -> references_hold (Genre_delete g st).
Proof.
  intros [Hrev [Hcom [Hgt Htit]]]. unfold Genre_delete.
  split; [| split; [| split]]; cbn [reviews comments genre_titles titles users
    genres categories]; try assumption.
  intros x H. unfold GenreTitle_genre_on_delete, apply_on_delete in H.
  apply in_map_iff in H. destruct H as [y [Hy Hin]]. destruct (Hgt y Hin) as [Ht Hg].
  destruct (refers gt_genre g y) eqn:E; subst x.
  - split; [exact Ht | intros g' Hg'; discriminate].
  - split; [exact Ht |]. intros g' Hg'. apply has_pk_filter; [now apply Hg |].
    intros ->. unfold refers in E. rewrite Hg' in E. cbn in E.
    now rewrite Nat.eqb_refl in E.
Qed.

Lemma references_after_Category_delete (st : State) (c : nat) :
  references_hold st -> references_hold (Category_delete c st).
Proof.
  intros [Hrev [Hcom [Hgt Htit]]]. unfold Category_delete.
  unfold Title_category_on_delete, apply_on_delete. fold clear_category.
  assert (Hpk : forall x, title_pk (if refers category c x then clear_category x else x)
                          = title_pk x)
    by (intros x; now destruct (refers category c x)).
  split; [| split; [| split]]; cbn [reviews comments genre_titles titles users
    genres categories]; try assumption.
  - intros r H. destruct (Hrev r H) as [Ht Ha]. split; [| exact Ha].
    now apply has_pk_map.
  - intros x H. destruct (Hgt x H) as [Ht Hg]. split; [| exact Hg].
    now apply has_pk_map.
  - intros x H c' Hc'. apply in_map_iff in H. destruct H as [y [Hy Hin]].
    destruct (refers category c y) eqn:E; subst x; [discriminate |].
    apply has_pk_filter; [now apply (Htit y Hin) |].
    intros ->. unfold refers in E. rewrite Hc' in E. cbn in E.
    now rewrite Nat.eqb_refl in E.
Qed.

(** X6. No delete leaves a dangling reference: when every foreign key
    of the store names a row that is there, the same holds after
    deleting a title, a review, a comment, a user, a genre or a
    category. *)
Theorem deletes_keep_references :
  forall (st : State) (i : nat),
    references_hold st ->
    references_hold (Title_delete i st) /\
    references_hold (Review_delete i st) /\
    references_hold (Comment_delete i st) /\
    references_hold (User_delete i st) /\
    references_hold (Genre_delete i st) /\
    references_hold (Category_delete i st).
Proof.
  intros st i H. repeat match goal with |- _ /\ _ => split end.
  - now apply references_after_Title_delete.
  - now apply references_after_Review_delete.
  - now apply references_after_Comment_delete.
  - now apply references_after_User_delete.
  - now apply references_after_Genre_delete.
  - now apply references_after_Category_delete.
Qed.

(** ** ReviewViewSet: the detail routes *)

Lemma get_object_or_404_In {R : Type} (f : R -> bool) (rows : list R) (x : R) :
  get_object_or_404 f rows = Return x -> In x rows /\ f x = true.
Proof.
  unfold get_object_or_404, objects_get.
  destruct (filter f rows) as [| y [| z l]] eqn:E; try discriminate.
  intros Heq. inversion Heq; subst y. apply filter_In. rewrite E. now left.
Qed.

Lemma NoDup_map_eq {R K : Type} (key : R -> K) (rows : list R) (x y : R) :
  NoDup (map key rows) -> In x rows -> In y rows -> key x = key y -> x = y.
Proof.
  induction rows as [| z rows IH]; simpl; [tauto |].
  intros Hnd [Hx | Hx] [Hy | Hy] Hk; inversion Hnd as [| k ks Hnot Hnd']; subst.
  - reflexivity.
  - exfalso. apply Hnot. rewrite Hk. now apply in_map.
  - exfalso. apply Hnot. rewrite <- Hk. now apply in_map.
  - now apply IH.
Qed.

Lemma ReviewViewSet_get_object_found (st : State) (request : Request)
    (title_id review_id : nat) (obj : Review) :
  ReviewViewSet_get_object st request title_id review_id = Return obj ->
  In obj (reviews st) /\ review_pk obj = Some review_id /\ title obj = title_id /\
  require_object OwnerAdminModeratorOrReadOnly request (author obj) = Return tt.
Proof.
  unfold ReviewViewSet_get_object, ReviewViewSet_get_queryset.
  destruct (get_object_or_404 _ (titles st)) as [found |]; [| discriminate].
  cbn [bind].
  destruct (get_object_or_404 _ (filter _ (reviews st))) as [x |] eqn:E; [| discriminate].
  cbn [bind]. apply get_object_or_404_In in E. destruct E as [Hin Hpk].
  apply filter_In in Hin. destruct Hin as [Hin Ht].
  apply opt_nat_eqb_eq in Hpk. apply Nat.eqb_eq in Ht.
  destruct (require_object _ request (author x)) as [[] |] eqn:Hp; [| discriminate].
  intros Heq. inversion Heq; subst x. auto.
Qed.

Lemma object_permission_granted (request : Request) (author_id : nat) :
  in_methods (method request) SAFE_METHODS = false ->
  require OwnerAdminModeratorOrReadOnly request = Return tt ->
  require_object OwnerAdminModeratorOrReadOnly request author_id = Return tt ->
  author_or_staff (user request) author_id.
Proof.
  destruct request as [m [| u]]; intros Hm Hreq Hobj.
  - exfalso. revert Hreq. unfold require, check_permissions.
    cbn -[in_methods]. cbn [method] in Hm. rewrite Hm. discriminate.
  - cbn [method] in Hm. pose proof (owner_decided u m author_id Hm) as Hdec.
    cbn [user]. destruct Hdec as [[HP _] | [_ Hd]]; [exact HP |].
    exfalso. revert Hobj Hd. unfold require_object, check_object_permissions,
      check_permissions.
    cbn -[in_methods has_object_permission]. rewrite Hm. cbn -[has_object_permission].
    destruct (has_object_permission _ _ author_id) as [[] |]; cbn; discriminate.
Qed.

(** X7. On the detail routes of reviews nothing changes unless the
    actor is the author of the addressed review, a moderator, an admin
    or a superuser: either the store is left as it was, or the review
    of that key under that title exists and the actor is its author or
    staff. *)
Theorem review_changes_need_author_or_staff :
  forall (st : State) (request : Request) (title_id review_id : nat)
         (request_data : ReviewData),
    snd (ReviewViewSet_detail st request title_id review_id request_data) = st \/
    exists obj, In obj (reviews st) /\ review_pk obj = Some review_id /\
                title obj = title_id /\ author_or_staff (user request) (author obj).
Proof.
  intros st request title_id review_id request_data. unfold ReviewViewSet_detail.
  destruct (require OwnerAdminModeratorOrReadOnly request) as [[] |] eqn:Hreq;
    [| now left].
  assert (Hobj : forall obj,
            in_methods (method request) SAFE_METHODS = false ->
            ReviewViewSet_get_object st request title_id review_id = Return obj ->
            exists o, In o (reviews st) /\ review_pk o = Some review_id /\
                      title o = title_id /\ author_or_staff (user request) (author o)).
  { intros obj Hm Hget. apply ReviewViewSet_get_object_found in Hget.
    destruct Hget as [Hin [Hpk [Ht Hp]]]. exists obj. repeat split; try assumption.
    now apply object_permission_granted. }
  destruct (method request) eqn:Hmeth; try (now left).
  - unfold ReviewViewSet_retrieve_view.
    destruct (ReviewViewSet_get_object _ _ _ _); now left.
  - unfold ReviewViewSet_retrieve_view.
    destruct (ReviewViewSet_get_object _ _ _ _); now left.
  - unfold ReviewViewSet_update_view.
    destruct (ReviewViewSet_get_object _ _ _ _) as [obj |] eqn:Hget; [| now left].
    right. now apply (Hobj obj).
  - unfold ReviewViewSet_update_view.
    destruct (ReviewViewSet_get_object _ _ _ _) as [obj |] eqn:Hget; [| now left].
    right. now apply (Hobj obj).
  - unfold ReviewViewSet_destroy_view.
    destruct (ReviewViewSet_get_object _ _ _ _) as [obj |] eqn:Hget; [| now left].
    right. now apply (Hobj obj).
Qed.

Lemma existsb_self (rows : list Review) (obj : Review) (i : nat) :
  In obj rows -> review_pk obj = Some i ->
  existsb (is_self review_pk (Some i)) rows = true.
Proof.
  intros Hin Hpk. apply existsb_exists. exists obj. split; [assumption |].
  unfold is_self. rewrite Hpk. cbn. apply Nat.eqb_refl.
Qed.

(** The rows after an update of the stored review [obj]. *)
Lemma ReviewSerializer_update_rows (rows : list Review) (obj : Review)
    (vd : option string * option Z) (i : nat) :
  In obj rows -> review_pk obj = Some i ->
  snd (ReviewSerializer_update rows obj vd) = rows \/
  snd (ReviewSerializer_update rows obj vd)
  = map (fun x => if is_self review_pk (Some i) x
                  then mkReview (Some i) (or_else (fst vd) (text obj)) (title obj)
                         (author obj) (or_else (snd vd) (score obj)) (pub_date obj)
                  else x) rows.
Proof.
  intros Hin Hpk. unfold ReviewSerializer_update, Model_save.
  cbn [review_pk]. rewrite Hpk.
  destruct (Review_violated _ _); [now left |].
  rewrite (existsb_self rows obj i Hin Hpk). now right.
Qed.

Lemma update_view_rows (partial : bool) (st : State) (request : Request)
    (title_id review_id : nat) (request_data : ReviewData) :
  snd (ReviewViewSet_update_view partial st request title_id review_id request_data) = st \/
  exists obj vd,
    In obj (reviews st) /\ review_pk obj = Some review_id /\
    ReviewSerializer_run_validation_update partial (reviews st) request title_id
      request_data = Return vd /\
    snd (ReviewViewSet_update_view partial st request title_id review_id request_data)
    = set_reviews (snd (ReviewSerializer_update (reviews st) obj vd)) st.
Proof.
  unfold ReviewViewSet_update_view.
  destruct (ReviewViewSet_get_object _ _ _ _) as [obj |] eqn:Hget; [| now left].
  apply ReviewViewSet_get_object_found in Hget. destruct Hget as [Hin [Hpk _]].
  destruct (ReviewSerializer_run_validation_update _ _ _ _ _) as [vd |] eqn:Hv;
    [| now left].
  right. exists obj, vd. repeat split; try assumption.
  destruct (ReviewSerializer_update (reviews st) obj vd) as [[saved | e] rows];
    reflexivity.
Qed.

Lemma detail_keeps_identity :
  forall (st : State) (request : Request) (title_id review_id : nat)
         (request_data : ReviewData),
    NoDup (map review_pk (reviews st)) ->
    method request <> DELETE ->
    let st' := snd (ReviewViewSet_detail st request title_id review_id request_data) in
    map review_pk (reviews st') = map review_pk (reviews st) /\
    map review_key (reviews st') = map review_key (reviews st) /\
    map pub_date (reviews st') = map pub_date (reviews st) /\
    st' = set_reviews (reviews st') st.
Proof.
  intros st request title_id review_id request_data Hnd Hmeth st'.
  assert (Hsame : forall s : State, s = st ->
            map review_pk (reviews s) = map review_pk (reviews st) /\
            map review_key (reviews s) = map review_key (reviews st) /\
            map pub_date (reviews s) = map pub_date (reviews st) /\
            s = set_reviews (reviews s) st).
  { intros s ->. repeat split. now destruct st. }
  assert (Hupd : forall partial,
            let s := snd (ReviewViewSet_update_view partial st request title_id
                            review_id request_data) in
            map review_pk (reviews s) = map review_pk (reviews st) /\
            map review_key (reviews s) = map review_key (reviews st) /\
            map pub_date (reviews s) = map pub_date (reviews st) /\
            s = set_reviews (reviews s) st).
  { intros partial s. subst s.
    destruct (update_view_rows partial st request title_id review_id request_data)
      as [Heq | [obj [vd [Hin [Hpk [_ Heq]]]]]]; [now apply Hsame |].
    rewrite Heq. cbn [set_reviews reviews].
    destruct (ReviewSerializer_update_rows (reviews st) obj vd review_id Hin Hpk)
      as [-> | ->]; [repeat split |].
    assert (Hrow : forall x, In x (reviews st) ->
              is_self review_pk (Some review_id) x = true -> x = obj).
    { intros x Hx Hself. unfold is_self in Hself. apply opt_nat_eqb_eq in Hself.
      apply (NoDup_map_eq review_pk (reviews st)); try assumption. congruence. }
    repeat split; rewrite map_map; apply map_ext_in; intros x Hx;
      destruct (is_self review_pk (Some review_id) x) eqn:E; try reflexivity;
      rewrite (Hrow x Hx E); unfold review_key; cbn; congruence. }
  subst st'. unfold ReviewViewSet_detail.
  destruct (require OwnerAdminModeratorOrReadOnly request); [| now apply Hsame].
  destruct (method request); try contradiction; try (now apply Hsame).
  - unfold ReviewViewSet_retrieve_view.
    destruct (ReviewViewSet_get_object _ _ _ _); now apply Hsame.
  - unfold ReviewViewSet_retrieve_view.
    destruct (ReviewViewSet_get_object _ _ _ _); now apply Hsame.
  - specialize (Hupd false).
    destruct (ReviewViewSet_update_view false st request title_id review_id request_data).
    exact Hupd.
  - specialize (Hupd true).
    destruct (ReviewViewSet_update_view true st request title_id review_id request_data).
    exact Hupd.
Qed.

(** X8. With primary keys unique, no request on a detail route of
    reviews other than DELETE adds or removes a review or changes the
    key, the author, the title or the date of one: an update rewrites
    text and score only, and the other tables are left as they were. *)
Theorem review_update_keeps_identity :
  forall (st : State) (request : Request) (title_id review_id : nat)
         (request_data : ReviewData),
    NoDup (map review_pk (reviews st)) ->
    method request <> DELETE ->
    let st' := snd (ReviewViewSet_detail st request title_id review_id request_data) in
    map review_pk (reviews st') = map review_pk (reviews st) /\
    map review_key (reviews st') = map review_key (reviews st) /\
    map pub_date (reviews st') = map pub_date (reviews st) /\
    st' = set_reviews (reviews st') st.
Proof.
  intros st request title_id review_id request_data Hnd Hmeth.
  now apply detail_keeps_identity.
Qed.

Lemma IntegerField_range (required : bool) (lo hi : Z) (m1 m2 : string)
    (d : option Z) (s : Z) :
  IntegerField required lo hi m1 m2 d = Valid (Some s) -> (lo <= s <= hi)%Z.
Proof.
  unfold IntegerField. destruct d as [n |]; [| destruct required; discriminate].
  destruct (Z.leb_spec n hi), (Z.leb_spec lo n); cbn; try discriminate.
  intros Heq. inversion Heq; subst. lia.
Qed.

Lemma created_score_in_range (rows : list Review) (request : Request) (title_id : nat)
    (d : ReviewData) (t : string) (s : Z) :
  ReviewSerializer_run_validation rows request title_id d = Return (t, s) ->
  (1 <= s <= 10)%Z.
Proof.
  unfold ReviewSerializer_run_validation.
  destruct (CharField _ _ _ _ (rd_text d)) as [[t' |] |];
    destruct (score_field (rd_score d)) as [[s' |] |] eqn:Hs; try discriminate.
  unfold score_field in Hs. apply IntegerField_range in Hs.
  unfold ReviewSerializer_validate.
  destruct (negb _); [intros Heq; inversion Heq; subst; exact Hs |].
  destruct (user request) as [| u]; [discriminate |].
  destruct (match pk u with Some a => _ | None => false end);
    [discriminate | intros Heq; inversion Heq; subst; exact Hs].
Qed.

Lemma updated_score_in_range (partial : bool) (rows : list Review) (request : Request)
    (title_id : nat) (d : ReviewData) (vd : option string * option Z) (s : Z) :
  ReviewSerializer_run_validation_update partial rows request title_id d = Return vd ->
  snd vd = Some s -> (1 <= s <= 10)%Z.
Proof.
  unfold ReviewSerializer_run_validation_update.
  destruct (CharField _ _ _ _ (rd_text d)) as [t' |];
    destruct (IntegerField _ _ _ _ _ (rd_score d)) as [s' |] eqn:Hs; try discriminate.
  unfold ReviewSerializer_validate_for.
  assert (Hgoal : forall v : option string * option Z,
            v = (t', s') -> snd v = Some s -> (1 <= s <= 10)%Z).
  { intros v -> Hv. cbn in Hv. subst s'. now apply IntegerField_range in Hs. }
  destruct (negb (method_eqb (method request) POST));
    [intros Heq Hv; cbn in Heq; inversion Heq; subst; now apply (Hgoal (t', s')) |].
  destruct (user request) as [| u]; [discriminate |].
  destruct (match pk u with Some a => _ | None => false end);
    [discriminate
    | intros Heq Hv; cbn in Heq; inversion Heq; subst; now apply (Hgoal (t', s'))].
Qed.

(** X9. Every review the API stores has a score between 1 and 10:
    when all stored scores are in that range, they still are after a
    create request and after any request on a detail route. *)
Theorem scores_stay_in_range :
  forall (now : nat) (st : State) (request : Request) (title_id review_id : nat)
         (request_data : ReviewData),
    scores_in_range (reviews st) ->
    scores_in_range
      (reviews (snd (ReviewViewSet_create now st request title_id request_data))) /\
    scores_in_range
      (reviews (snd (ReviewViewSet_detail st request title_id review_id request_data))).
Proof.
  intros now st request title_id review_id request_data Hinv. split.
  - unfold ReviewViewSet_create, ReviewViewSet_create_view.
    destruct (require OwnerAdminModeratorOrReadOnly request); [| assumption].
    destruct (ReviewSerializer_run_validation _ _ _ _) as [[t s] |] eqn:Hv;
      [| assumption].
    apply created_score_in_range in Hv.
    destruct (get_object_or_404 _ (titles st)) as [found |]; [| assumption].
    destruct (user request) as [| u]; [assumption |].
    destruct (pk u) as [actor |]; [| assumption].
    destruct (Review_objects_create_cases (reviews st)
                (mkReview None t title_id actor s now))
      as [[_ Heq] | [_ [r' [_ Heq]]]]; rewrite Heq; cbn [snd set_reviews reviews];
      [assumption |].
    assert (Hscore : score r' = s).
    { revert Heq. unfold Review_objects_create, Model_save.
      destruct (Review_violated _ _); [discriminate |].
      destruct (existsb _ _); cbn [review_pk set_review_pk];
        intros Heq; inversion Heq; reflexivity. }
    intros x Hx. apply in_app_or in Hx. destruct Hx as [Hx | [<- | []]];
      [now apply Hinv | now rewrite Hscore].
  - unfold ReviewViewSet_detail.
    destruct (require OwnerAdminModeratorOrReadOnly request); [| assumption].
    assert (Hupd : forall partial,
              scores_in_range
                (reviews (snd (ReviewViewSet_update_view partial st request title_id
                                 review_id request_data)))).
    { intros partial.
      destruct (update_view_rows partial st request title_id review_id request_data)
        as [-> | [obj [vd [Hin [Hpk [Hv ->]]]]]]; [assumption |].
      cbn [set_reviews reviews].
      destruct (ReviewSerializer_update_rows (reviews st) obj vd review_id Hin Hpk)
        as [-> | ->]; [assumption |].
      intros x Hx. apply in_map_iff in Hx. destruct Hx as [y [Hy Hin']].
      destruct (is_self review_pk (Some review_id) y); subst x; [| now apply Hinv].
      cbn [score]. destruct (snd vd) as [s |] eqn:Hs; cbn [or_else].
      - now apply (updated_score_in_range _ _ _ _ _ _ s Hv).
      - now apply Hinv. }
    destruct (method request).
    + unfold ReviewViewSet_retrieve_view.
      destruct (ReviewViewSet_get_object _ _ _ _); assumption.
    + unfold ReviewViewSet_retrieve_view.
      destruct (ReviewViewSet_get_object _ _ _ _); assumption.
    + assumption.
    + assumption.
    + specialize (Hupd false).
      destruct (ReviewViewSet_update_view false st request title_id review_id
                  request_data). exact Hupd.
    + specialize (Hupd true).
      destruct (ReviewViewSet_update_view true st request title_id review_id
                  request_data). exact Hupd.
    + unfold ReviewViewSet_destroy_view.
      destruct (ReviewViewSet_get_object _ _ _ _) as [obj |]; [| assumption].
      destruct (review_pk obj) as [r |]; [| assumption].
      cbn [snd]. unfold Review_delete. cbn [reviews].
      intros x Hx. apply not_pk_In in Hx. now apply Hinv.
Qed.

Lemma total_bounds (xs : list Z) :
  (forall x, In x xs -> (1 <= x <= 10)%Z) ->
  (Z.of_nat (List.length xs) <= total xs <= 10 * Z.of_nat (List.length xs))%Z.
Proof.
  induction xs as [| x xs IH]; intros H; [cbn; lia |].
  assert (Hx : (1 <= x <= 10)%Z) by (apply H; now left).
  assert (Hxs : (Z.of_nat (List.length xs) <= total xs <= 10 * Z.of_nat (List.length xs))%Z)
    by (apply IH; intros y Hy; apply H; now right).
  unfold total in *. cbn [fold_right List.length]. rewrite Nat2Z.inj_succ. lia.
Qed.

Lemma rating_shape (st : State) (title_id : nat) :
  ReadTitleSerializer_rating st title_id
  = match reviews_score st title_id with
    | [] => None
    | x :: xs => Some (Z.quot (total (x :: xs)) (Z.of_nat (List.length (x :: xs))))
    end.
Proof.
  unfold ReadTitleSerializer_rating, annotate_rating, ExpressionWrapper_IntegerField,
    IntegerField_to_representation.
  destruct (reviews_score st title_id) as [| x xs]; [reflexivity |].
  unfold Avg, py_int. cbn [Qnum Qden List.length].
  now rewrite Zpos_of_nat_S.
Qed.

(** X10. When every stored score is between 1 and 10, the rating
    reported for a title, when there is one, is an integer between 1
    and 10. *)
Theorem rating_in_range :
  forall (st : State) (title_id : nat) (z : Z),
    scores_in_range (reviews st) ->
    ReadTitleSerializer_rating st title_id = Some z ->
    (1 <= z <= 10)%Z.
Proof.
  intros st title_id z Hinv.
  assert (Hscores : forall x, In x (reviews_score st title_id) -> (1 <= x <= 10)%Z).
  { intros x Hx. unfold reviews_score in Hx. apply in_map_iff in Hx.
    destruct Hx as [r [<- Hr]]. apply filter_In in Hr. now apply Hinv. }
  pose proof (rating_shape st title_id) as Hshape.
  destruct (reviews_score st title_id) as [| x xs] eqn:E.
  - rewrite Hshape. discriminate.
  - rewrite Hshape. intros Heq.
    pose proof (total_bounds (x :: xs) Hscores) as Hb.
    remember (Z.of_nat (List.length (x :: xs))) as n eqn:En.
    remember (total (x :: xs)) as sum eqn:Es.
    assert (Hn : (0 < n)%Z) by (subst n; cbn [List.length]; lia).
    inversion Heq; subst z.
    rewrite Z.quot_div_nonneg by lia. split.
    + apply Z.div_le_lower_bound; lia.
    + apply Z.div_le_upper_bound; lia.
Qed.

Lemma filter_key_at_most_one {R : Type} (key : R -> option nat) (rows : list R) (i : nat) :
  NoDup (map key rows) ->
  filter (fun x => opt_nat_eqb (key x) (Some i)) rows = [] \/
  exists x, filter (fun x => opt_nat_eqb (key x) (Some i)) rows = [x].
Proof.
  induction rows as [| y rows IH]; cbn [map filter]; [now left |].
  intros Hnd. inversion Hnd as [| k ks Hnot Hnd']; subst.
  destruct (opt_nat_eqb (key y) (Some i)) eqn:E.
  - right. exists y. f_equal.
    destruct (filter _ rows) as [| z l] eqn:F; [reflexivity |].
    exfalso. apply Hnot.
    assert (Hz : In z (filter (fun x => opt_nat_eqb (key x) (Some i)) rows))
      by (rewrite F; now left).
    apply filter_In in Hz. destruct Hz as [Hz Hk].
    apply opt_nat_eqb_eq in E, Hk. rewrite E, <- Hk. now apply in_map.
  - now apply IH.
Qed.

Lemma get_by_key_outcome {R : Type} (key : R -> option nat) (rows : list R) (i : nat) :
  NoDup (map key rows) ->
  get_object_or_404 (fun x => opt_nat_eqb (key x) (Some i)) rows = Raise Http404 \/
  exists x, get_object_or_404 (fun x => opt_nat_eqb (key x) (Some i)) rows = Return x.
Proof.
  intros Hnd. unfold get_object_or_404, objects_get.
  destruct (filter_key_at_most_one key rows i Hnd) as [-> | [x ->]]; eauto.
Qed.

(** X11. A review is looked up within its title: with unique title
    keys, when the title under which a review is addressed has no
    review of that key, reading, updating and deleting it are answered
    not-found and change nothing, wherever else the review may be. *)
Theorem review_lookup_is_scoped_by_title :
  forall (st : State) (request : Request) (title_id review_id : nat)
         (request_data : ReviewData),
    NoDup (map title_pk (titles st)) ->
    require OwnerAdminModeratorOrReadOnly request = Return tt ->
    In (method request) [GET; HEAD; PUT; PATCH; DELETE] ->
    (forall r, In r (reviews st) -> review_pk r = Some review_id -> title r <> title_id) ->
    ReviewViewSet_detail st request title_id review_id request_data
    = (mkReply 404 Nothing, st).
Proof.
  intros st request title_id review_id request_data Hnd Hreq Hmeth Hnone.
  assert (Hget : ReviewViewSet_get_object st request title_id review_id = Raise Http404).
  { unfold ReviewViewSet_get_object, ReviewViewSet_get_queryset.
    destruct (get_by_key_outcome title_pk (titles st) title_id Hnd) as [-> | [x ->]];
      [reflexivity |].
    cbn [bind]. unfold get_object_or_404, objects_get.
    assert (E : filter (fun r => opt_nat_eqb (review_pk r) (Some review_id))
                  (filter (fun r => title r =? title_id) (reviews st)) = []).
    { destruct (filter _ (filter _ (reviews st))) as [| y l] eqn:F; [reflexivity |].
      exfalso.
      assert (Hy : In y (filter (fun r => opt_nat_eqb (review_pk r) (Some review_id))
                           (filter (fun r => title r =? title_id) (reviews st))))
        by (rewrite F; now left).
      apply filter_In in Hy. destruct Hy as [Hy Hpk]. apply filter_In in Hy.
      destruct Hy as [Hy Ht]. apply opt_nat_eqb_eq in Hpk. apply Nat.eqb_eq in Ht.
      now apply (Hnone y). }
    now rewrite E. }
  unfold ReviewViewSet_detail. rewrite Hreq.
  unfold ReviewViewSet_retrieve_view, ReviewViewSet_update_view,
    ReviewViewSet_destroy_view. rewrite Hget.
  destruct (method request); try reflexivity; exfalso; cbn in Hmeth;
    intuition discriminate.
Qed.

(** ** CommentViewSet *)

(** X12. A comment is created for the acting user and for no one
    else: a create request is either answered 201, and then the actor
    is authenticated, the review exists and exactly one comment was
    appended, with a key no comment had, the trimmed text, that
    review, the actor as author and the current date, nothing else
    being touched;
    or it is answered otherwise and the store is left as it was.  An
    anonymous POST is answered 401. *)
Theorem comment_create_contract :
  forall (now : nat) (st : State) (request : Request) (review_id : nat)
         (text_data : option string),
    let result := CommentViewSet_create now st request review_id text_data in
    ((reply_status (fst result) = 201 /\
      exists u a raw k,
        user request = AuthUser u /\ pk u = Some a /\ text_data = Some raw /\
        has_pk review_pk (reviews st) review_id /\
        ~ In (Some k) (map comment_pk (comments st)) /\
        snd result
        = set_comments
            (comments st ++ [mkComment (Some k) (strip raw) review_id a now]) st)
     \/
     (reply_status (fst result) <> 201 /\ snd result = st))
    /\
    (method request = POST -> user request = AnonymousUser ->
     fst result = mkReply 401 Nothing).
Proof.
  intros now st request review_id text_data result. subst result.
  unfold CommentViewSet_create, CommentViewSet_create_view. split.
  - destruct (require OwnerAdminModeratorOrReadOnly request) as [[] | e];
      [| right; split; [destruct e; cbn; discriminate | reflexivity]].
    unfold CommentSerializer_run_validation.
    destruct (CharField _ _ _ _ text_data) as [[t |] | msgs] eqn:Hf;
      try (right; split; [cbn; discriminate | reflexivity]).
    destruct (get_object_or_404 _ (reviews st)) as [found | e] eqn:Hget;
      [| right; split; [destruct e; cbn; discriminate | reflexivity]].
    destruct (user request) as [| u];
      [right; split; [cbn; discriminate | reflexivity] |].
    destruct (pk u) as [a |] eqn:Hpk;
      [| right; split; [cbn; discriminate | reflexivity]].
    left. unfold Comment_objects_create, Model_save, Comment_violated.
    cbn [comment_pk set_comment_pk is_self negb]. rewrite existsb_none.
    cbn [fst snd reply reply_status HTTP_201_CREATED]. split; [reflexivity |].
    destruct text_data as [raw |]; [| discriminate Hf].
    apply CharField_value in Hf. destruct Hf as [Hf _]. inversion Hf; subst t.
    apply get_object_or_404_In in Hget. destruct Hget as [Hin Hk].
    apply opt_nat_eqb_eq in Hk.
    exists u, a, raw, (next_pk comment_pk (comments st)).
    split; [reflexivity |]. split; [assumption |]. split; [reflexivity |].
    split; [now exists found |]. split; [apply next_pk_fresh | reflexivity].
  - intros Hpost Hanon. destruct request as [m usr]. cbn [method user] in *.
    subst m usr. reflexivity.
Qed.

(** ** CategoryViewSet and GenreViewSet *)

Lemma run_validators_nil (vs : list validator) (v : string) :
  run_validators vs v = [] -> forall f, In f vs -> f v = None.
Proof.
  unfold run_validators. induction vs as [| g vs IH]; cbn [flat_map]; [intros _ f [] |].
  intros Hnil f [<- | Hf].
  - destruct (g v); [discriminate | reflexivity].
  - apply IH; [| assumption]. destruct (g v); [discriminate | exact Hnil].
Qed.

Lemma CharField_checked (vs : list validator) (data : option string) (v : string) :
  CharField false true false vs data = Valid (Some v) ->
  (exists raw, data = Some raw /\ v = strip raw) /\ v <> "" /\
  forall f, In f vs -> f v = None.
Proof.
  unfold CharField. destruct data as [raw |]; [| discriminate].
  destruct (String.eqb_spec (strip raw) ""); [discriminate |].
  destruct (run_validators vs (strip raw)) eqn:E; [| discriminate].
  intros Heq. inversion Heq; subst v. repeat split; eauto.
  now apply run_validators_nil.
Qed.

Lemma unique_passed {R : Type} (get_pk : R -> option nat) (rows : list R)
    (field : R -> string) (msg v : string) :
  UniqueValidator_on get_pk rows field None msg v = None ->
  ~ In v (map field rows).
Proof.
  unfold UniqueValidator_on.
  destruct (existsb (fun y => String.eqb (field y) v) rows) eqn:E; [discriminate |].
  intros _ Hin. apply in_map_iff in Hin. destruct Hin as [y [Hy Hin]].
  assert (existsb (fun y => String.eqb (field y) v) rows = true).
  { apply existsb_exists. exists y. split; [assumption |]. now apply String.eqb_eq. }
  congruence.
Qed.

Lemma fresh_not_exists {R : Type} (rows : list R) (field : R -> string) (v : string) :
  ~ In v (map field rows) -> existsb (fun x => String.eqb (field x) v) rows = false.
Proof.
  intros Hno. destruct (existsb _ rows) eqn:E; [| reflexivity].
  exfalso. apply Hno. apply existsb_exists in E. destruct E as [x [Hx Hv]].
  apply String.eqb_eq in Hv. subst v. now apply in_map.
Qed.

Lemma CategorySerializer_checked (rows : list Category) (d : CategoryData)
    (n s : string) :
  CategorySerializer_run_validation rows d = Return (n, s) ->
  ~ In n (map category_name rows) /\ ~ In s (map category_slug rows) /\
  s <> "" /\ slug_pattern s = true.
Proof.
  unfold CategorySerializer_run_validation, SlugField.
  destruct (CharField _ _ _ _ (cd_name d)) as [[n' |] |] eqn:Hn; try discriminate;
    destruct (CharField _ _ _ _ (cd_slug d)) as [[s' |] |] eqn:Hs; try discriminate.
  intros Heq. inversion Heq; subst n' s'.
  apply CharField_checked in Hn, Hs.
  destruct Hn as [_ [_ Hn]], Hs as [_ [Hne Hs]].
  repeat split; try assumption.
  - eapply unique_passed. apply Hn. unfold char_validators. now left.
  - eapply unique_passed. apply Hs. unfold char_validators. apply in_or_app.
    left. now left.
  - assert (Hr : regex_validator slug_pattern slug_message s = None)
      by (apply Hs; apply in_or_app; right; now left).
    unfold regex_validator in Hr.
    destruct (slug_pattern s); [reflexivity | discriminate].
Qed.

Lemma CategorySerializer_raises (rows : list Category) (d : CategoryData) (e : exn) :
  CategorySerializer_run_validation rows d = Raise e -> exists errs, e = ValidationError errs.
Proof.
  unfold CategorySerializer_run_validation.
  destruct (CharField _ _ _ _ (cd_name d)) as [[n' |] |];
    destruct (SlugField _ _ _ _ (cd_slug d)) as [[s' |] |];
    intros Heq; inversion Heq; eauto.
Qed.

Lemma GenreSerializer_checked (rows : list Genre) (d : CategoryData) (n s : string) :
  GenreSerializer_run_validation rows d = Return (n, s) ->
  ~ In n (map genre_name rows) /\ ~ In s (map genre_slug rows) /\
  s <> "" /\ slug_pattern s = true.
Proof.
  unfold GenreSerializer_run_validation, SlugField.
  destruct (CharField _ _ _ _ (cd_name d)) as [[n' |] |] eqn:Hn; try discriminate;
    destruct (CharField _ _ _ _ (cd_slug d)) as [[s' |] |] eqn:Hs; try discriminate.
  intros Heq. inversion Heq; subst n' s'.
  apply CharField_checked in Hn, Hs.
  destruct Hn as [_ [_ Hn]], Hs as [_ [Hne Hs]].
  repeat split; try assumption.
  - eapply unique_passed. apply Hn. unfold char_validators. now left.
  - eapply unique_passed. apply Hs. unfold char_validators. apply in_or_app.
    left. now left.
  - assert (Hr : regex_validator slug_pattern slug_message s = None)
      by (apply Hs; apply in_or_app; right; now left).
    unfold regex_validator in Hr.
    destruct (slug_pattern s); [reflexivity | discriminate].
Qed.

Lemma GenreSerializer_raises (rows : list Genre) (d : CategoryData) (e : exn) :
  GenreSerializer_run_validation rows d = Raise e -> exists errs, e = ValidationError errs.
Proof.
  unfold GenreSerializer_run_validation.
  destruct (CharField _ _ _ _ (cd_name d)) as [[n' |] |];
    destruct (SlugField _ _ _ _ (cd_slug d)) as [[s' |] |];
    intros Heq; inversion Heq; eauto.
Qed.

Lemma catalog_write_needs_admin (request : Request) :
  in_methods (method request) SAFE_METHODS = false ->
  require IsAdminOrReadOnly request = Return tt ->
  admin_or_superuser (user request).
Proof.
  destruct request as [m [| u]]; cbn [method user]; intros Hm Hreq.
  - exfalso. revert Hreq. unfold require, check_permissions.
    cbn -[in_methods]. rewrite Hm. discriminate.
  - destruct (admin_decided u m Hm) as [[HP _] | [_ Hd]]; [exact HP |].
    exfalso. revert Hreq. unfold require. rewrite Hd. discriminate.
Qed.

Lemma require_outcome (p : Permission) (request : Request) (e : exn) :
  (forall r, exists b, has_permission p r = Return b) ->
  require p request = Raise e -> e = NotAuthenticated \/ e = PermissionDenied.
Proof.
  intros Htotal. unfold require, check_permissions.
  destruct (Htotal request) as [b ->]. cbn. destruct b; cbn; [discriminate |].
  unfold permission_denied. destruct (is_authenticated (user request));
    intros Heq; inversion Heq; auto.
Qed.

Lemma IsAdminOrReadOnly_total (r : Request) :
  exists b, has_permission IsAdminOrReadOnly r = Return b.
Proof.
  destruct r as [m [| u]]; cbn -[in_methods String.eqb].
  - destruct (in_methods m SAFE_METHODS); cbn; eauto.
  - destruct (in_methods m SAFE_METHODS); cbn -[String.eqb]; [eauto |].
    destruct (String.eqb (role u) UserRole.ADMIN); cbn; eauto.
Qed.

Section Catalog.
Context `{Framework}.

Lemma category_create_cases :
  forall (st : State) (request : Request) (request_data : CategoryData),
    let result := CategoryViewSet_create st request request_data in
    (reply_status (fst result) = 201 /\
     (method request = POST -> admin_or_superuser (user request)) /\
     exists n s k,
       ~ In n (map category_name (categories st)) /\
       ~ In s (map category_slug (categories st)) /\
       slug_pattern s = true /\
       ~ In (Some k) (map category_pk (categories st)) /\
       snd result
       = set_categories
           (categories st ++ [mkCategory (Some k) n s]) st)
    \/
    (In (reply_status (fst result)) [400; 401; 403] /\ snd result = st).
Proof.
  intros st request request_data result. subst result.
  unfold CategoryViewSet_create, CategoryViewSet_create_view.
  destruct (require IsAdminOrReadOnly request) as [[] | e] eqn:Hreq.
  2: { right. apply require_outcome in Hreq; [| apply IsAdminOrReadOnly_total].
       destruct Hreq as [-> | ->]; cbn; auto. }
  destruct (CategorySerializer_run_validation _ _) as [[n s] | e] eqn:Hv.
  2: { right. destruct (CategorySerializer_raises _ _ _ Hv) as [errs ->]. cbn. auto. }
  apply CategorySerializer_checked in Hv. destruct Hv as [Hn [Hs [Hne Hpat]]].
  left. unfold Category_save. cbn [category_slug category_name category_pk].
  apply String.eqb_neq in Hne. rewrite Hne.
  unfold Model_save, Category_violated.
  cbn [category_pk category_name category_slug is_self negb].
  rewrite filter_all, existsb_none, !fresh_not_exists by assumption.
  cbn [fst snd reply reply_status HTTP_201_CREATED]. split; [reflexivity |]. split.
  - intros Hpost. apply catalog_write_needs_admin; [| assumption].
    now rewrite Hpost.
  - eexists n, s, _. repeat split; solve [eassumption | apply next_pk_fresh].
Qed.

Lemma genre_create_cases :
  forall (st : State) (request : Request) (request_data : CategoryData),
    let result := GenreViewSet_create st request request_data in
    (reply_status (fst result) = 201 /\
     (method request = POST -> admin_or_superuser (user request)) /\
     exists n s k,
       ~ In n (map genre_name (genres st)) /\
       ~ In s (map genre_slug (genres st)) /\
       slug_pattern s = true /\
       ~ In (Some k) (map genre_pk (genres st)) /\
       snd result
       = set_genres
           (genres st ++ [mkGenre (Some k) n s]) st)
    \/
    (In (reply_status (fst result)) [400; 401; 403] /\ snd result = st).
Proof.
  intros st request request_data result. subst result.
  unfold GenreViewSet_create, GenreViewSet_create_view.
  destruct (require IsAdminOrReadOnly request) as [[] | e] eqn:Hreq.
  2: { right. apply require_outcome in Hreq; [| apply IsAdminOrReadOnly_total].
       destruct Hreq as [-> | ->]; cbn; auto. }
  destruct (GenreSerializer_run_validation _ _) as [[n s] | e] eqn:Hv.
  2: { right. destruct (GenreSerializer_raises _ _ _ Hv) as [errs ->]. cbn. auto. }
  apply GenreSerializer_checked in Hv. destruct Hv as [Hn [Hs [Hne Hpat]]].
  left. unfold Genre_save. cbn [genre_slug genre_name genre_pk].
  apply String.eqb_neq in Hne. rewrite Hne.
  unfold Model_save, Genre_violated.
  cbn [genre_pk genre_name genre_slug is_self negb].
  rewrite filter_all, existsb_none, !fresh_not_exists by assumption.
  cbn [fst snd reply reply_status HTTP_201_CREATED]. split; [reflexivity |]. split.
  - intros Hpost. apply catalog_write_needs_admin; [| assumption].
    now rewrite Hpost.
  - eexists n, s, _. repeat split; solve [eassumption | apply next_pk_fresh].
Qed.

(** X13. Through the API a category or a genre is never saved without
    a slug, so the creation never fails on deriving one: a create
    request is either answered 201, exactly one row having been
    appended with a fresh key, a name and a slug no stored row has,
    the slug matching the pattern of slugs, by an admin or superuser
    when the method is POST; or it is answered 400, 401 or 403 and
    the store is left as it was. *)
Theorem catalog_create_contract :
  forall (st : State) (request : Request) (request_data : CategoryData),
    (let result := CategoryViewSet_create st request request_data in
     (reply_status (fst result) = 201 /\
      (method request = POST -> admin_or_superuser (user request)) /\
      exists n s k,
        ~ In n (map category_name (categories st)) /\
        ~ In s (map category_slug (categories st)) /\
        slug_pattern s = true /\
        ~ In (Some k) (map category_pk (categories st)) /\
        snd result
        = set_categories
            (categories st ++ [mkCategory (Some k) n s]) st)
     \/
     (In (reply_status (fst result)) [400; 401; 403] /\ snd result = st))
    /\
    (let result := GenreViewSet_create st request request_data in
     (reply_status (fst result) = 201 /\
      (method request = POST -> admin_or_superuser (user request)) /\
      exists n s k,
        ~ In n (map genre_name (genres st)) /\
        ~ In s (map genre_slug (genres st)) /\
        slug_pattern s = true /\
        ~ In (Some k) (map genre_pk (genres st)) /\
        snd result
        = set_genres
            (genres st ++ [mkGenre (Some k) n s]) st)
     \/
     (In (reply_status (fst result)) [400; 401; 403] /\ snd result = st)).
Proof.
  intros st request request_data. split.
  - apply category_create_cases.
  - apply genre_create_cases.
Qed.
End Catalog.

Lemma Category_delete_keeps_titles (c : nat) (st : State) :
  map title_pk (titles (Category_delete c st)) = map title_pk (titles st) /\
  reviews (Category_delete c st) = reviews st /\
  comments (Category_delete c st) = comments st /\
  users (Category_delete c st) = users st.
Proof.
  unfold Category_delete, Title_category_on_delete, apply_on_delete.
  cbn [titles reviews comments users]. repeat split.
  rewrite map_map. apply map_ext. intros t. now destruct (refers category c t).
Qed.

Lemma Genre_delete_keeps_rows (g : nat) (st : State) :
  map gt_pk (genre_titles (Genre_delete g st)) = map gt_pk (genre_titles st) /\
  titles (Genre_delete g st) = titles st /\
  reviews (Genre_delete g st) = reviews st /\
  users (Genre_delete g st) = users st.
Proof.
  unfold Genre_delete, GenreTitle_genre_on_delete, apply_on_delete.
  cbn [genre_titles titles reviews users]. repeat split.
  rewrite map_map. apply map_ext. intros x. now destruct (refers gt_genre g x).
Qed.

(** X14. Deleting a category or a genre by its slug: the request is
    either answered 204, the row of that slug having been deleted with
    what its references declare, by an admin or superuser when the
    method is DELETE, or answered otherwise with the store left as it
    was.  Whoever asks and whatever the answer, no title and no join
    row is deleted and no review, comment or user is touched. *)
Theorem catalog_destroy_contract :
  forall (st : State) (request : Request) (slug : string),
    (let result := CategoryViewSet_destroy st request slug in
     ((reply_status (fst result) = 204 /\
       (method request = DELETE -> admin_or_superuser (user request)) /\
       exists obj c, In obj (categories st) /\ category_slug obj = slug /\
                     category_pk obj = Some c /\ snd result = Category_delete c st)
      \/ (reply_status (fst result) <> 204 /\ snd result = st)) /\
     map title_pk (titles (snd result)) = map title_pk (titles st) /\
     reviews (snd result) = reviews st /\ comments (snd result) = comments st /\
     users (snd result) = users st)
    /\
    (let result := GenreViewSet_destroy st request slug in
     ((reply_status (fst result) = 204 /\
       (method request = DELETE -> admin_or_superuser (user request)) /\
       exists obj g, In obj (genres st) /\ genre_slug obj = slug /\
                     genre_pk obj = Some g /\ snd result = Genre_delete g st)
      \/ (reply_status (fst result) <> 204 /\ snd result = st)) /\
     map gt_pk (genre_titles (snd result)) = map gt_pk (genre_titles st) /\
     titles (snd result) = titles st /\ reviews (snd result) = reviews st /\
     users (snd result) = users st).
Proof.
  intros st request slug. split.
  - cbv zeta. unfold CategoryViewSet_destroy, CategoryViewSet_destroy_view.
    destruct (require IsAdminOrReadOnly request) as [[] | e] eqn:Hreq.
    2: { split; [right; split; [| reflexivity] | repeat split].
         apply require_outcome in Hreq; [| apply IsAdminOrReadOnly_total].
         destruct Hreq as [-> | ->]; cbn; discriminate. }
    destruct (get_object_or_404 _ (categories st)) as [obj | e] eqn:Hget.
    2: { split; [right; split; [| reflexivity] | repeat split].
         destruct e; cbn; discriminate. }
    apply get_object_or_404_In in Hget. destruct Hget as [Hin Hslug].
    apply String.eqb_eq in Hslug.
    cbn [has_object_permission IsAdminOrReadOnly IsAdmin IsAuthenticated BasePermission].
    destruct (category_pk obj) as [c |] eqn:Hpk.
    2: { split; [right; split; [cbn; discriminate | reflexivity] | repeat split]. }
    cbn [fst snd reply reply_status HTTP_204_NO_CONTENT].
    split; [| apply Category_delete_keeps_titles].
    left. split; [reflexivity |]. split.
    + intros Hdel. apply catalog_write_needs_admin; [| assumption]. now rewrite Hdel.
    + exists obj, c. auto.
  - cbv zeta. unfold GenreViewSet_destroy, GenreViewSet_destroy_view.
    destruct (require IsAdminOrReadOnly request) as [[] | e] eqn:Hreq.
    2: { split; [right; split; [| reflexivity] | repeat split].
         apply require_outcome in Hreq; [| apply IsAdminOrReadOnly_total].
         destruct Hreq as [-> | ->]; cbn; discriminate. }
    destruct (get_object_or_404 _ (genres st)) as [obj | e] eqn:Hget.
    2: { split; [right; split; [| reflexivity] | repeat split].
         destruct e; cbn; discriminate. }
    apply get_object_or_404_In in Hget. destruct Hget as [Hin Hslug].
    apply String.eqb_eq in Hslug.
    cbn [has_object_permission IsAdminOrReadOnly IsAdmin IsAuthenticated BasePermission].
    destruct (genre_pk obj) as [g |] eqn:Hpk.
    2: { split; [right; split; [cbn; discriminate | reflexivity] | repeat split]. }
    cbn [fst snd reply reply_status HTTP_204_NO_CONTENT].
    split; [| apply Genre_delete_keeps_rows].
    left. split; [reflexivity |]. split.
    + intros Hdel. apply catalog_write_needs_admin; [| assumption]. now rewrite Hdel.
    + exists obj, g. auto.
Qed.

(** ** UserViewSet *)

Lemma IsAdmin_required (request : Request) :
  (require IsAdmin request = Return tt /\ admin_or_superuser (user request)) \/
  (exists e, require IsAdmin request = Raise e /\
             (e = NotAuthenticated \/ e = PermissionDenied) /\
             ~ admin_or_superuser (user request)).
Proof.
  destruct request as [m actor]. unfold require. cbn [user].
  destruct (IsAdmin_decided actor m) as [[HP ->] | [HP ->]]; cbn.
  - left. auto.
  - right. eexists. split; [reflexivity |]. split; [| assumption].
    unfold permission_denied. destruct (is_authenticated _); auto.
Qed.

Section Accounts.
Context `{Framework}.

(** X15. The accounts are administered by admins and superusers only:
    a request to create an account, or to read, update or delete one by
    its username, from any other actor is answered 401 or 403, and
    whenever such a request changes the store the actor is an admin
    or a superuser. *)
Theorem accounts_change_by_admin_only :
  forall (st : State) (request : Request) (name : string) (request_data : UserData),
    let created := UserViewSet_create st request request_data in
    let detail := UserViewSet_detail st request name request_data in
    (admin_or_superuser (user request) \/
     (snd created = st /\ In (reply_status (fst created)) [401; 403] /\
      snd detail = st /\ In (reply_status (fst detail)) [401; 403])).
Proof.
  intros st request name request_data created detail. subst created detail.
  destruct (IsAdmin_required request) as [[_ Hadm] | [e [He [Hcase _]]]];
    [now left | right].
  unfold UserViewSet_create, UserViewSet_create_view, UserViewSet_detail.
  rewrite He. destruct Hcase as [-> | ->]; cbn; repeat split; auto.
Qed.

(** X16. An admin who creates an account named "me" is answered 201
    with the account, and nothing is stored: whenever the payload
    passes validation with that username, the reply shows the new
    user and the store is left as it was. *)
Theorem user_create_me_is_not_stored :
  forall (st : State) (request : Request) (request_data vd : UserData),
    require IsAdmin request = Return tt ->
    UserSerializer_run_validation (users st) None false request_data = Return vd ->
    ud_username vd = Some "me" ->
    UserViewSet_create st request request_data
    = (mkReply 201 (UserRow (User_from vd)), st).
Proof.
  intros st request request_data vd Hreq Hv Hme.
  unfold UserViewSet_create, UserViewSet_create_view. rewrite Hreq, Hv.
  unfold User_save, User_from at 1. cbn [username]. rewrite Hme. cbn.
  now rewrite set_users_same.
Qed.


End Accounts.

(** ** Signup, token and the self-profile endpoint *)

Lemma filter_at_most_one {K : Type} (key : User -> K) (k : K) (f : User -> bool)
    (rows : list User) :
  NoDup (map key rows) ->
  (forall x, f x = true -> key x = k) ->
  filter f rows = [] \/ exists x, filter f rows = [x].
Proof.
  intros Hnd Hf. induction rows as [| y rows IH]; cbn [filter]; [now left |].
  inversion Hnd as [| a l Hnot Hnd']; subst.
  destruct (f y) eqn:E; [| now apply IH].
  right. exists y. f_equal.
  destruct (filter f rows) as [| z l] eqn:F; [reflexivity |].
  exfalso. apply Hnot.
  assert (Hz : In z (filter f rows)) by (rewrite F; now left).
  apply filter_In in Hz. destruct Hz as [Hz Hfz].
  rewrite (Hf y E), <- (Hf z Hfz). now apply in_map.
Qed.

Lemma exact_match_outcome (rows : list User) (n m : string) :
  NoDup (map username rows) ->
  objects_get (fun x => String.eqb (username x) n && String.eqb (email x) m) rows
  = Raise DoesNotExist \/
  exists u, objects_get (fun x => String.eqb (username x) n && String.eqb (email x) m) rows
            = Return u /\ In u rows /\ username u = n /\ email u = m.
Proof.
  intros Hnd. unfold objects_get.
  destruct (filter_at_most_one username n
              (fun x => String.eqb (username x) n && String.eqb (email x) m) rows Hnd)
    as [-> | [u Hu]].
  - intros x Hx. apply andb_true_iff in Hx. destruct Hx as [Hx _].
    now apply String.eqb_eq.
  - now left.
  - rewrite Hu. right. exists u. split; [reflexivity |].
    assert (Hin : In u (filter (fun x => String.eqb (username x) n
                                         && String.eqb (email x) m) rows))
      by (rewrite Hu; now left).
    apply filter_In in Hin. destruct Hin as [Hin Hf].
    apply andb_true_iff in Hf. destruct Hf as [H1 H2].
    apply String.eqb_eq in H1, H2. auto.
Qed.

Section SignupContract.
Context `{Framework}.

Lemma signup_cases (now : nat) (st : State) (request_data : SignUpData) :
  users_unique (users st) ->
  let result := signup now st request_data in
  (exists u name mail,
     SignUpSerializer_run_validation request_data = Return (mail, name) /\
     fst result = mkResponse 200 (SignUpBody mail name) /\
     username u = name /\ email u = mail /\ In u (users (snd result)) /\
     (users (snd result) = users st \/
      exists k, ~ In (Some k) (map pk (users st)) /\
                users (snd result) = users st ++ [u] /\
                u = mkUser (Some k) name "" "" mail "" true false UserRole.USER) /\
     snd result = send_mail (confirmation_mail now u) (set_users (users (snd result)) st))
  \/
  (status_code (fst result) = 400 /\ snd result = st).
Proof.
  intros [Hnames Hmails] result. subst result. unfold signup, signup_view.
  destruct (SignUpSerializer_run_validation request_data) as [[m n] | e] eqn:Hv.
  2: { right. destruct (SignUpSerializer_raises _ _ Hv) as [errs ->]. cbn. auto. }
  assert (Hme : n <> "me").
  { destruct request_data as [dm dn]. now apply SignUpSerializer_returns in Hv. }
  unfold User_objects_get_or_create.
  destruct (exact_match_outcome (users st) n m Hnames) as [Hget | [u [Hget [Hin [Hn Hm]]]]];
    rewrite Hget.
  - unfold User_objects_create, User_save, new_User. cbn [username].
    apply String.eqb_neq in Hme. rewrite Hme.
    unfold Model_save. cbn [pk is_self negb]. rewrite filter_all, existsb_none.
    destruct (User_violated (users st) _) as [c |] eqn:Hviol.
    + rewrite Hget. right. cbn. now rewrite set_users_same.
    + left. cbn [set_user_pk username first_name last_name email bio is_active
                 is_superuser role].
      exists (mkUser (Some (next_pk pk (users st))) n "" "" m "" true false UserRole.USER).
      exists n, m. cbn [fst snd respond].
      split; [reflexivity |]. split; [reflexivity |].
      cbn [send_mail set_users users username email].
      split; [reflexivity |]. split; [reflexivity |].
      split; [apply in_or_app; right; now left |].
      split; [| reflexivity].
      right. exists (next_pk pk (users st)).
      split; [apply next_pk_fresh | split; reflexivity].
  - left. exists u, n, m. cbn [fst snd respond send_mail set_users users].
    repeat split; try assumption. now left.
Qed.

Lemma SignUpSerializer_name_accepted (mail : option string) (name m n : string) :
  SignUpSerializer_run_validation (mkSignUpData mail (Some name)) = Return (m, n) ->
  accepted name = true.
Proof.
  unfold SignUpSerializer_run_validation. cbn [sd_email sd_username].
  rewrite CharField_username, CharField_plain.
  destruct (EmailField _ _ _ _ mail) as [[e |] |]; destruct (accepted name);
    try reflexivity; try discriminate;
    destruct (String.eqb (strip name) ""); discriminate.
Qed.

(** X18. With the user table within its unique constraints, signup
    either answers 400 and leaves the store as it was, or answers 200
    echoing the validated e-mail and username, and then the user of
    that username and e-mail is stored, having been found as it was or
    appended, under a key no user had, as an active account of role
    user without the superuser flag, and exactly one mail, the
    confirmation code of that user, was added to the outbox; nothing
    else is touched. *)
Theorem signup_contract :
  forall (now : nat) (st : State) (request_data : SignUpData),
    users_unique (users st) ->
    let result := signup now st request_data in
    (exists u name mail,
       SignUpSerializer_run_validation request_data = Return (mail, name) /\
       fst result = mkResponse 200 (SignUpBody mail name) /\
       username u = name /\ email u = mail /\ In u (users (snd result)) /\
       (users (snd result) = users st \/
        exists k, ~ In (Some k) (map pk (users st)) /\
                  users (snd result) = users st ++ [u] /\
                  u = mkUser (Some k) name "" "" mail "" true false UserRole.USER) /\
       snd result
       = send_mail (confirmation_mail now u) (set_users (users (snd result)) st))
    \/
    (status_code (fst result) = 400 /\ snd result = st).
Proof. intros now st request_data Huniq. now apply signup_cases. Qed.

(** X19. Signup and token exchange compose: when the generator
    accepts the codes it makes and its codes pass field validation,
    then, for a username that validation leaves as it is, a signup
    answered 200 stores a user whose mailed code, exchanged with that
    username, is answered 200 with the access token of that user. *)
Theorem signup_then_token :
  forall (now : nat) (st : State) (name mail : string),
    (forall t u, check_token t u (make_token t u) = true) ->
    (forall t u, accepted (make_token t u) = true) ->
    users_unique (users st) ->
    strip name = name ->
    let result := signup now st (mkSignUpData (Some mail) (Some name)) in
    status_code (fst result) = 200 ->
    exists u,
      In u (users (snd result)) /\ username u = name /\ email u = strip mail /\
      In (confirmation_mail now u) (outbox (snd result)) /\
      token now (snd result) (mkTokenData (Some name) (Some (make_token now u)))
      = mkResponse 200 (TokenBody name (encode (AccessToken_for_user now u))).
Proof.
  intros now st name mail Hcheck Hcode Huniq Hstrip result Hok.
  pose proof (signup_keeps_users_unique now st (mkSignUpData (Some mail) (Some name))
                Huniq) as [Hnames' _].
  destruct (signup_cases now st (mkSignUpData (Some mail) (Some name)) Huniq)
    as [[u [n [m [Hv [_ [Hn [Hm [Hin [_ Hst]]]]]]]]] | [Hbad _]].
  2: { subst result. rewrite Hbad in Hok. discriminate. }
  fold result in Hnames', Hin, Hst.
  pose proof (SignUpSerializer_name_accepted _ _ _ _ Hv) as Hacc.
  apply SignUpSerializer_returns in Hv.
  destruct Hv as [[rm [Hrm Hm']] [[rn [Hrn Hn']] Hme]].
  inversion Hrm; inversion Hrn; subst rm rn. subst n m. rewrite Hstrip in Hn.
  exists u. repeat split; try assumption.
  - rewrite Hst. cbn [send_mail outbox]. apply in_or_app. right. now left.
  - assert (Hvalid : token_fields_valid
                       (mkTokenData (Some name) (Some (make_token now u)))).
    { exists name, (make_token now u). repeat split; [exact Hacc | apply Hcode]. }
    apply TokenSerializer_valid_iff in Hvalid. destruct Hvalid as [v Hv].
    unfold token, token_view. rewrite Hv. cbn [td_username td_confirmation_code bind].
    unfold get_object_or_404, objects_get.
    rewrite <- Hn, (filter_unique_key username) by assumption.
    cbn [bind]. now rewrite Hcheck.
Qed.
End SignupContract.

Section SelfPage.
Context `{Framework}.

(** X20. The self-profile endpoint reaches the row of the actor and
    nothing else: with unique primary keys, a PATCH leaves the other
    tables and the outbox as they were, keeps the number and the keys
    of the user rows, the superuser flag, the active flag and the role
    of every user, and every row of another user as it was. *)
Theorem self_patch_reaches_own_row_only :
  forall (st : State) (claim : nat) (u : User) (request_data : UserData),
    authenticate st (Some claim) = Return (AuthUser u) ->
    NoDup (map pk (users st)) ->
    let st' := snd (get_self_user_page st (mkRequest PATCH (AuthUser u)) request_data) in
    st' = set_users (users st') st /\
    map pk (users st') = map pk (users st) /\
    map is_superuser (users st') = map is_superuser (users st) /\
    map is_active (users st') = map is_active (users st) /\
    map role (users st') = map role (users st) /\
    (forall x, pk x <> Some claim -> (In x (users st') <-> In x (users st))).
Proof.
  intros st claim u request_data Hauth Hnd st'.
  assert (Hfind : find (fun x => opt_nat_eqb (pk x) (Some claim)) (users st) = Some u).
  { unfold authenticate in Hauth.
    destruct (find _ (users st)) as [v |]; [| discriminate].
    destruct (is_active v); [congruence | discriminate]. }
  destruct (find_existsb _ _ _ Hfind) as [Hex Hpk].
  assert (Hin : In u (users st)) by (apply find_some in Hfind; tauto).
  assert (Hsame : forall s : State, s = st ->
            s = set_users (users s) st /\
            map pk (users s) = map pk (users st) /\
            map is_superuser (users s) = map is_superuser (users st) /\
            map is_active (users s) = map is_active (users st) /\
            map role (users s) = map role (users st) /\
            (forall x, pk x <> Some claim -> (In x (users s) <-> In x (users st)))).
  { intros s ->. repeat split; try tauto. now rewrite set_users_same. }
  subst st'. unfold get_self_user_page, get_self_user_page_view.
  cbn [in_methods existsb method method_eqb orb user require check_permissions
       IsAuthenticated has_permission is_authenticated bind decide_of].
  destruct (UserSerializer_run_validation (users st) (Some u) true request_data)
    as [vd | e]; [| now apply Hsame].
  unfold UserSerializer_save.
  set (inst := UserSerializer_setattrs u _).
  assert (Hrows : snd (User_save (users st) inst) = users st \/
                  snd (User_save (users st) inst)
                  = map (fun x => if is_self pk (Some claim) x then inst else x)
                      (users st)).
  { unfold User_save. destruct (String.eqb (username inst) "me"); [now left |].
    unfold Model_save. change (pk inst) with (pk u). rewrite Hpk.
    destruct (User_violated _ inst); [now left |]. rewrite Hex. now right. }
  assert (Hst : forall rows,
            rows = snd (User_save (users st) inst) ->
            set_users rows st = set_users (users (set_users rows st)) st /\
            map pk rows = map pk (users st) /\
            map is_superuser rows = map is_superuser (users st) /\
            map is_active rows = map is_active (users st) /\
            map role rows = map role (users st) /\
            (forall x, pk x <> Some claim -> (In x rows <-> In x (users st)))).
  { intros rows ->. split; [reflexivity |].
    destruct Hrows as [-> | ->]; [repeat split; tauto |].
    assert (Hrow : forall x, In x (users st) ->
              is_self pk (Some claim) x = true -> x = u).
    { intros x Hx Hself. unfold is_self in Hself. apply opt_nat_eqb_eq in Hself.
      apply (NoDup_map_eq pk (users st)); try assumption. congruence. }
    repeat split;
      try (rewrite map_map; apply map_ext_in; intros x Hx;
           destruct (is_self pk (Some claim) x) eqn:E; try reflexivity;
           rewrite (Hrow x Hx E); reflexivity).
    - intros Hx. apply in_map_iff in Hx. destruct Hx as [y [Hy Hy']].
      destruct (is_self pk (Some claim) y) eqn:E; subst x; [| assumption].
      exfalso. apply H0. exact Hpk.
    - intros Hx. apply in_map_iff. exists x. split; [| assumption].
      destruct (is_self pk (Some claim) x) eqn:E; [| reflexivity].
      exfalso. apply H0. unfold is_self in E. now apply opt_nat_eqb_eq in E. }
  destruct (User_save (users st) inst) as [[[ret obj] | e] rows]; cbn [snd fst];
    cbn [snd] in Hst; specialize (Hst rows eq_refl);
    cbn [users set_users] in Hst |- *; exact Hst.
Qed.
End SelfPage.

(** ** The invariants of the review table across the routes *)

Lemma NoDup_map_filter {R K : Type} (key : R -> K) (p : R -> bool) (rows : list R) :
  NoDup (map key rows) -> NoDup (map key (filter p rows)).
Proof.
  induction rows as [| x rows IH]; cbn [map filter]; [trivial |].
  intros Hnd. inversion Hnd as [| k ks Hnot Hnd']; subst.
  destruct (p x); [| now apply IH]. cbn [map]. constructor; [| now apply IH].
  intros Hin. apply Hnot. apply in_map_iff in Hin. destruct Hin as [y [Hy Hin]].
  apply filter_In in Hin. rewrite <- Hy. apply in_map. tauto.
Qed.

(** X21. The two invariants of the review table hold across the
    routes: when primary keys are unique and no author has two reviews
    of a title, the same is true after a create request and after any
    request on a detail route. *)
Theorem review_invariants_kept :
  forall (now : nat) (st : State) (request : Request) (title_id review_id : nat)
         (request_data : ReviewData),
    NoDup (map review_pk (reviews st)) ->
    one_review_per_pair (reviews st) ->
    let created := snd (ReviewViewSet_create now st request title_id request_data) in
    let changed := snd (ReviewViewSet_detail st request title_id review_id
                          request_data) in
    NoDup (map review_pk (reviews created)) /\ one_review_per_pair (reviews created) /\
    NoDup (map review_pk (reviews changed)) /\ one_review_per_pair (reviews changed).
Proof.
  intros now st request title_id review_id request_data Hpk Hinv created changed.
  assert (Hcreated : NoDup (map review_pk (reviews created)) /\
                     one_review_per_pair (reviews created)).
  { subst created.
    destruct (ReviewViewSet_create_rows now st request title_id request_data)
      as [-> | [r Heq]]; [auto |]. rewrite Heq.
    split; [| now apply Review_objects_create_preserves].
    destruct (Review_objects_create_cases (reviews st) r) as [[_ ->] | [Hfree _]];
      [assumption |].
    unfold Review_objects_create, Model_save, Review_violated.
    cbn [review_pk set_review_pk is_self negb]. rewrite filter_all, existsb_none.
    change (same_author_title (set_review_pk None r)) with (same_author_title r).
    rewrite Hfree. cbn [snd review_pk]. rewrite map_app. cbn [map review_pk].
    apply NoDup_app; [assumption | repeat constructor; simpl; tauto |].
    intros k Hin [<- | []]. now apply (next_pk_fresh review_pk (reviews st)). }
  split; [apply Hcreated |]. split; [apply Hcreated |].
  destruct (method_eqb (method request) DELETE) eqn:Hm.
  - assert (Hdel : method request = DELETE) by (destruct (method request); now try discriminate).
    subst changed. unfold ReviewViewSet_detail.
    destruct (require OwnerAdminModeratorOrReadOnly request); [| auto].
    rewrite Hdel. unfold ReviewViewSet_destroy_view.
    destruct (ReviewViewSet_get_object _ _ _ _) as [obj |]; [| auto].
    destruct (review_pk obj) as [r |]; [| auto].
    cbn [snd]. unfold Review_delete. cbn [reviews].
    split; [now apply NoDup_map_filter | now apply NoDup_map_filter].
  - assert (Hne : method request <> DELETE) by (intros E; rewrite E in Hm; discriminate).
    destruct (detail_keeps_identity st request title_id review_id request_data Hpk Hne)
      as [Hkeys [Hpairs _]].
    fold changed in Hkeys, Hpairs. unfold one_review_per_pair.
    rewrite Hkeys, Hpairs. auto.
Qed.

Lemma CommentViewSet_get_object_found (st : State) (request : Request)
    (review_id comment_id : nat) (obj : Comment) :
  CommentViewSet_get_object st request review_id comment_id = Return obj ->
  In obj (comments st) /\ comment_pk obj = Some comment_id /\ review obj = review_id /\
  require_object OwnerAdminModeratorOrReadOnly request (comment_author obj) = Return tt.
Proof.
  unfold CommentViewSet_get_object, CommentViewSet_get_queryset.
  destruct (get_object_or_404 _ (reviews st)) as [found |]; [| discriminate].
  cbn [bind].
  destruct (get_object_or_404 _ (filter _ (comments st))) as [x |] eqn:E;
    [| discriminate].
  cbn [bind]. apply get_object_or_404_In in E. destruct E as [Hin Hpk].
  apply filter_In in Hin. destruct Hin as [Hin Ht].
  apply opt_nat_eqb_eq in Hpk. apply Nat.eqb_eq in Ht.
  destruct (require_object _ request (comment_author x)) as [[] |] eqn:Hp;
    [| discriminate].
  intros Heq. inversion Heq; subst x. auto.
Qed.

(** X22. On the detail routes of comments only the comment table can
    change, and nothing changes unless the actor is the author of the
    addressed comment, a moderator, an admin or a superuser: either
    the store is left as it was, or the comment of that key under that
    review exists and the actor is its author or staff. *)
Theorem comment_changes_need_author_or_staff :
  forall (st : State) (request : Request) (review_id comment_id : nat)
         (text_data : option string),
    let st' := snd (CommentViewSet_detail st request review_id comment_id text_data) in
    st' = set_comments (comments st') st /\
    (st' = st \/
     exists obj, In obj (comments st) /\ comment_pk obj = Some comment_id /\
                 review obj = review_id /\
                 author_or_staff (user request) (comment_author obj)).
Proof.
  intros st request review_id comment_id text_data st'. subst st'.
  assert (Hsame : st = set_comments (comments st) st) by now destruct st.
  unfold CommentViewSet_detail.
  destruct (require OwnerAdminModeratorOrReadOnly request) as [[] |] eqn:Hreq;
    [| split; [exact Hsame | now left]].
  assert (Hobj : forall obj,
            in_methods (method request) SAFE_METHODS = false ->
            CommentViewSet_get_object st request review_id comment_id = Return obj ->
            exists o, In o (comments st) /\ comment_pk o = Some comment_id /\
                      review o = review_id /\
                      author_or_staff (user request) (comment_author o)).
  { intros obj Hm Hget. apply CommentViewSet_get_object_found in Hget.
    destruct Hget as [Hin [Hpk [Ht Hp]]]. exists obj. repeat split; try assumption.
    now apply object_permission_granted. }
  assert (Hupd : forall partial,
            let s := snd (CommentViewSet_update_view partial st request review_id
                            comment_id text_data) in
            s = set_comments (comments s) st /\
            (s = st \/
             (in_methods (method request) SAFE_METHODS = false ->
              exists o, In o (comments st) /\ comment_pk o = Some comment_id /\
                        review o = review_id /\
                        author_or_staff (user request) (comment_author o)))).
  { intros partial s. subst s. unfold CommentViewSet_update_view.
    destruct (CommentViewSet_get_object _ _ _ _) as [obj |] eqn:Hget;
      [| split; [exact Hsame | now left]].
    destruct (CommentSerializer_run_validation partial text_data) as [vd |];
      [| split; [exact Hsame | now left]].
    destruct (Model_save _ _ _ (comments st) _) as [[saved | e] rows]; cbn [snd];
      (split; [reflexivity | right; intros Hm; now apply (Hobj obj)]). }
  destruct (method request) eqn:Hmeth; cbn [snd];
    try (split; [exact Hsame | now left]).
  - destruct (CommentViewSet_get_object _ _ _ _); split; try exact Hsame; now left.
  - destruct (CommentViewSet_get_object _ _ _ _); split; try exact Hsame; now left.
  - specialize (Hupd false).
    destruct (CommentViewSet_update_view false st request review_id comment_id text_data)
      as [r s]. cbn [snd] in *. destruct Hupd as [Hs [Heq | Hex]];
      (split; [exact Hs |]); [now left | right; now apply Hex].
  - specialize (Hupd true).
    destruct (CommentViewSet_update_view true st request review_id comment_id text_data)
      as [r s]. cbn [snd] in *. destruct Hupd as [Hs [Heq | Hex]];
      (split; [exact Hs |]); [now left | right; now apply Hex].
  - unfold CommentViewSet_destroy_view.
    destruct (CommentViewSet_get_object _ _ _ _) as [obj |] eqn:Hget;
      [| split; [exact Hsame | now left]].
    destruct (comment_pk obj) as [c |] eqn:Hc; cbn [snd];
      [| split; [exact Hsame | now left]].
    split; [reflexivity | right; now apply (Hobj obj)].
Qed.

Example author_edits_comment :
  let '(r, st) := CommentViewSet_detail library_state (mkRequest PATCH (AuthUser eve)) 1 1
                    (Some "agreed, mostly") in
  r = mkReply 200 (CommentRow (mkComment (Some 1) "agreed, mostly" 1 2 2)) /\
  map comment_text (comments st) = ["agreed, mostly"].
Proof. repeat split. Qed.

Example stranger_cannot_delete_comment :
  CommentViewSet_detail library_state (mkRequest DELETE (AuthUser bob)) 1 1 None
  = (mkReply 403 Nothing, library_state).
Proof. reflexivity. Qed.

(** ** The further operations at work on a sample store *)

Example author_updates_review :
  let '(r, st) := ReviewViewSet_detail library_state (mkRequest PATCH (AuthUser bob)) 1 1
                    (mkReviewData None (Some 9%Z)) in
  r = mkReply 200 (ReviewRow (mkReview (Some 1) "fine" 1 1 9%Z 0)) /\
  map score (reviews st) = [9; 10]%Z /\
  ReadTitleSerializer_rating st 1 = Some 9%Z.
Proof. repeat split. Qed.

Example stranger_cannot_update_review :
  ReviewViewSet_detail library_state (mkRequest PATCH (AuthUser bob)) 2 2
    (mkReviewData None (Some 1%Z))
  = (mkReply 403 Nothing, library_state).
Proof. reflexivity. Qed.

Example score_out_of_range_refused :
  let '(r, st) := ReviewViewSet_detail library_state (mkRequest PATCH (AuthUser bob)) 1 1
                    (mkReviewData None (Some 11%Z)) in
  r = mkReply 400 (Problem [("score", ["Ensure this value is less than or equal to 10."])]) /\
  st = library_state.
Proof. repeat split. Qed.

Example moderator_deletes_review :
  let '(r, st) := ReviewViewSet_detail library_state (mkRequest DELETE (AuthUser eve)) 1 1
                    (mkReviewData None None) in
  r = mkReply 204 Nothing /\
  map review_pk (reviews st) = [Some 2] /\ comments st = [].
Proof. repeat split. Qed.

Example comment_created :
  let '(r, st) := CommentViewSet_create 7 library_state (mkRequest POST (AuthUser bob)) 2
                    (Some " thanks ") in
  r = mkReply 201 (CommentRow (mkComment (Some 2) "thanks" 2 1 7)) /\
  List.length (comments st) = 2.
Proof. repeat split. Qed.

Example category_created :
  let '(r, st) := CategoryViewSet_create (H := sample_framework) library_state
                    (mkRequest POST (AuthUser ann))
                    (mkCategoryData (Some "Books") (Some "books")) in
  r = mkReply 201 (CategoryRow (mkCategory (Some 2) "Books" "books")) /\
  map category_slug (categories st) = ["films"; "books"].
Proof. repeat split. Qed.

Example category_slug_refused :
  fst (CategoryViewSet_create (H := sample_framework) library_state
         (mkRequest POST (AuthUser ann))
         (mkCategoryData (Some "Books") (Some "my books")))
  = mkReply 400 (Problem [("slug", [slug_message])]).
Proof. reflexivity. Qed.

Example category_deleted :
  let '(r, st) := CategoryViewSet_destroy library_state (mkRequest DELETE (AuthUser ann))
                    "films" in
  r = mkReply 204 Nothing /\ categories st = [] /\
  map category (titles st) = [None; None] /\ List.length (titles st) = 2.
Proof. repeat split. Qed.

Example title_deleted :
  let st := Title_delete 1 library_state in
  map title_pk (titles st) = [Some 2] /\ map review_pk (reviews st) = [Some 2] /\
  comments st = [] /\ genre_titles st = [].
Proof. repeat split. Qed.

Example user_deleted :
  let '(r, st) := UserViewSet_detail (H := sample_framework) library_state
                    (mkRequest DELETE (AuthUser ann)) "eve"
                    (mkUserData None None None None None None) in
  r = mkReply 204 Nothing /\ map username (users st) = ["bob"; "ann"] /\
  map review_pk (reviews st) = [Some 1] /\ comments st = [].
Proof. repeat split. Qed.

Ltac pick_row :=
  first
    [ eexists; split; [simpl; left; reflexivity | reflexivity]
    | eexists; split; [simpl; right; left; reflexivity | reflexivity]
    | eexists; split; [simpl; right; right; left; reflexivity | reflexivity] ].

Lemma library_references : references_hold library_state.
Proof.
  unfold references_hold, has_pk. cbn [library_state reviews comments genre_titles
    titles users genres categories].
  split; [| split; [| split]].
  - intros r [<- | [<- | []]]; split; pick_row.
  - intros c [<- | []]; split; pick_row.
  - intros x [<- | []]. split; [pick_row |].
    intros g Hg. inversion Hg; subst g. pick_row.
  - intros t [<- | [<- | []]] c Hc; inversion Hc; subst c. pick_row.
Qed.

Lemma library_review_keys : NoDup (map review_pk (reviews library_state)).
Proof. simpl. repeat constructor; simpl; intuition discriminate. Qed.

Lemma library_reviews_unique : one_review_per_pair (reviews library_state).
Proof.
  unfold one_review_per_pair. simpl. repeat constructor; simpl; intuition discriminate.
Qed.

Lemma library_scores : scores_in_range (reviews library_state).
Proof. intros r [<- | [<- | []]]; simpl; lia. Qed.

Lemma library_users_unique : users_unique (users library_state).
Proof. split; simpl; repeat constructor; simpl; intuition discriminate. Qed.

Lemma library_user_keys : NoDup (map pk (users library_state)).
Proof. simpl. repeat constructor; simpl; intuition discriminate. Qed.

Lemma library_title_keys : NoDup (map title_pk (titles library_state)).
Proof. simpl. repeat constructor; simpl; intuition discriminate. Qed.

(** X6 at work: deleting title 1 of the sample store. *)
Lemma deletes_keep_references_witness :
  references_hold library_state /\
  references_hold (Title_delete 1 library_state) /\
  references_hold (User_delete 1 library_state).
Proof.
  split; [exact library_references |].
  pose proof (deletes_keep_references library_state 1 library_references)
    as [Ht [_ [_ [Hu _]]]].
  split; assumption.
Defined.

(** X8 at work: bob rewrites the score of his review. *)
Lemma review_update_keeps_identity_witness :
  NoDup (map review_pk (reviews library_state)) /\
  PATCH <> DELETE /\
  map review_key
    (reviews (snd (ReviewViewSet_detail library_state (mkRequest PATCH (AuthUser bob))
                     1 1 (mkReviewData None (Some 9%Z)))))
  = map review_key (reviews library_state).
Proof.
  split; [exact library_review_keys |]. split; [discriminate |].
  apply (review_update_keeps_identity library_state (mkRequest PATCH (AuthUser bob))
           1 1 (mkReviewData None (Some 9%Z)) library_review_keys).
  discriminate.
Defined.

(** X9 at work *)
Lemma scores_stay_in_range_witness :
  scores_in_range (reviews library_state) /\
  scores_in_range
    (reviews (snd (ReviewViewSet_detail library_state (mkRequest PATCH (AuthUser bob))
                     1 1 (mkReviewData None (Some 9%Z))))).
Proof.
  split; [exact library_scores |].
  apply (scores_stay_in_range 0 library_state (mkRequest PATCH (AuthUser bob)) 1 1
           (mkReviewData None (Some 9%Z)) library_scores).
Defined.

(** X10 at work *)
Lemma rating_in_range_witness :
  scores_in_range (reviews library_state) /\
  ReadTitleSerializer_rating library_state 1 = Some 8%Z /\
  (1 <= 8 <= 10)%Z.
Proof.
  split; [exact library_scores |]. split; [reflexivity |].
  exact (rating_in_range library_state 1 8%Z library_scores eq_refl).
Defined.

(** X11 at work: review 1 belongs to title 1, not to title 2. *)
Lemma review_lookup_is_scoped_by_title_witness :
  NoDup (map title_pk (titles library_state)) /\
  ReviewViewSet_detail library_state (mkRequest GET AnonymousUser) 2 1
    (mkReviewData None None)
  = (mkReply 404 Nothing, library_state).
Proof.
  split; [exact library_title_keys |].
  apply (review_lookup_is_scoped_by_title library_state (mkRequest GET AnonymousUser)
           2 1 (mkReviewData None None) library_title_keys eq_refl).
  - simpl. auto.
  - intros r [<- | [<- | []]]; simpl; intros Hk; inversion Hk. discriminate.
Defined.

(** X16 at work: the admin ann creates the account me. *)
Lemma user_create_me_is_not_stored_witness :
  require IsAdmin (mkRequest POST (AuthUser ann)) = Return tt /\
  UserViewSet_create (H := sample_framework) library_state (mkRequest POST (AuthUser ann))
    (mkUserData (Some "me") None None (Some "me@example.org") None None)
  = (mkReply 201
       (UserRow (mkUser None "me" "" "" "me@example.org" "" true false "user")),
     library_state).
Proof.
  split; [reflexivity |].
  exact (@user_create_me_is_not_stored sample_framework library_state
           (mkRequest POST (AuthUser ann))
           (mkUserData (Some "me") None None (Some "me@example.org") None None)
           (mkUserData (Some "me") None None (Some "me@example.org") None None)
           eq_refl eq_refl eq_refl).
Defined.


(** X18 at work: zed signs up. *)
Lemma signup_contract_witness :
  users_unique (users library_state) /\
  ((exists u name mail,
      SignUpSerializer_run_validation (H := sample_framework)
        (mkSignUpData (Some "zed@example.org") (Some "zed")) = Return (mail, name) /\
      fst (signup (H := sample_framework) 3 library_state
             (mkSignUpData (Some "zed@example.org") (Some "zed")))
      = mkResponse 200 (SignUpBody mail name) /\
      username u = name /\ email u = mail /\
      In u (users (snd (signup (H := sample_framework) 3 library_state
                          (mkSignUpData (Some "zed@example.org") (Some "zed"))))) /\
      (users (snd (signup (H := sample_framework) 3 library_state
                     (mkSignUpData (Some "zed@example.org") (Some "zed"))))
       = users library_state \/
       exists k,
         ~ In (Some k) (map pk (users library_state)) /\
         users (snd (signup (H := sample_framework) 3 library_state
                       (mkSignUpData (Some "zed@example.org") (Some "zed"))))
         = users library_state ++ [u] /\
         u = mkUser (Some k) name "" "" mail "" true false UserRole.USER) /\
      snd (signup (H := sample_framework) 3 library_state
             (mkSignUpData (Some "zed@example.org") (Some "zed")))
      = send_mail (confirmation_mail (H := sample_framework) 3 u)
          (set_users
             (users (snd (signup (H := sample_framework) 3 library_state
                            (mkSignUpData (Some "zed@example.org") (Some "zed")))))
             library_state))
   \/
   (status_code (fst (signup (H := sample_framework) 3 library_state
                        (mkSignUpData (Some "zed@example.org") (Some "zed")))) = 400 /\
    snd (signup (H := sample_framework) 3 library_state
           (mkSignUpData (Some "zed@example.org") (Some "zed"))) = library_state)).
Proof.
  split; [exact library_users_unique |].
  exact (@signup_contract sample_framework 3 library_state
           (mkSignUpData (Some "zed@example.org") (Some "zed")) library_users_unique).
Defined.

(** X19 at work: zed signs up and exchanges the code. *)
Lemma signup_then_token_witness :
  users_unique (users library_state) /\
  exists u,
    In u (users (snd (signup (H := fixed_code_framework) 3 library_state
                        (mkSignUpData (Some "zed@example.org") (Some "zed"))))) /\
    username u = "zed" /\ email u = strip "zed@example.org" /\
    In (confirmation_mail (H := fixed_code_framework) 3 u)
       (outbox (snd (signup (H := fixed_code_framework) 3 library_state
                       (mkSignUpData (Some "zed@example.org") (Some "zed"))))) /\
    token (H := fixed_code_framework) 3
      (snd (signup (H := fixed_code_framework) 3 library_state
              (mkSignUpData (Some "zed@example.org") (Some "zed"))))
      (mkTokenData (Some "zed") (Some (make_token (Framework := fixed_code_framework) 3 u)))
    = mkResponse 200
        (TokenBody "zed"
           (encode (Framework := fixed_code_framework)
              (AccessToken_for_user (Framework := fixed_code_framework) 3 u))).
Proof.
  split; [exact library_users_unique |].
  apply (@signup_then_token fixed_code_framework 3 library_state "zed" "zed@example.org").
  - intros t u. reflexivity.
  - intros t u. reflexivity.
  - exact library_users_unique.
  - reflexivity.
  - reflexivity.
Defined.

(** X20 at work: bob rewrites his bio and asks for the role admin. *)
Lemma self_patch_reaches_own_row_only_witness :
  authenticate library_state (Some 1) = Return (AuthUser bob) /\
  NoDup (map pk (users library_state)) /\
  map is_superuser
    (users (snd (get_self_user_page (H := sample_framework) library_state
                   (mkRequest PATCH (AuthUser bob))
                   (mkUserData None None None None (Some "reader") (Some "admin")))))
  = map is_superuser (users library_state).
Proof.
  split; [reflexivity |]. split; [exact library_user_keys |].
  apply (@self_patch_reaches_own_row_only sample_framework library_state 1 bob
           (mkUserData None None None None (Some "reader") (Some "admin"))
           eq_refl library_user_keys).
Defined.

(** X21 at work *)
Lemma review_invariants_kept_witness :
  NoDup (map review_pk (reviews library_state)) /\
  one_review_per_pair (reviews library_state) /\
  one_review_per_pair
    (reviews (snd (ReviewViewSet_create 5 library_state (mkRequest POST (AuthUser bob)) 2
                     (mkReviewData (Some "slow") (Some 6%Z))))).
Proof.
  split; [exact library_review_keys |]. split; [exact library_reviews_unique |].
  apply (review_invariants_kept 5 library_state (mkRequest POST (AuthUser bob)) 2 1
           (mkReviewData (Some "slow") (Some 6%Z))
           library_review_keys library_reviews_unique).
Defined.
